(** * Donation-Inventory: the validation and persistence layer

    A shallow embedding of [backend/src/types.ts] (the Zod schemas),
    [backend/src/database.ts] (the SQLite-backed store) and
    [backend/src/routes.ts] (the Express handlers), with the properties
    stated about them.

    Conventions of the embedding.
    - A JavaScript string is a [string] of 8-bit code units (the Latin-1
      range).  On this range [String.prototype.length] is the number of
      characters and the white space recognised by [trim] and [parseInt]
      is U+0009..U+000D, U+0020 and U+00A0.
    - A finite JavaScript number is a rational [Q]; identifiers and the
      result of [parseInt] are exact integers [Z] (a double is exact up to
      2^53; rounding beyond that is outside the model, and so are NaN and
      the infinities as field values).
    - [CURRENT_TIMESTAMP] has a resolution of one second; a time stamp is
      the number of seconds it denotes, and the reading of the clock is an
      argument [now] of every statement that uses it.
    - A promise is a function from the world (the table, the
      [sqlite_sequence] counter and the faults the storage medium will
      raise at the next engine calls) to a settled value and a world. *)

From Stdlib Require Import ZArith QArith String Ascii List Lia Bool Sorted.
From stdpp Require Import gmap strings sorting.
Import ListNotations.

Local Open Scope string_scope.
Local Open Scope list_scope.
Local Open Scope Z_scope.

(** ** JavaScript primitives *)

Module JS.

Definition codeUnit (c : ascii) : Z := Z.of_N (N_of_ascii c).

(** WhiteSpace and LineTerminator code points below 256. *)
Definition isWhiteSpace (c : ascii) : bool :=
  let n := codeUnit c in
  ((9 <=? n) && (n <=? 13)) || (n =? 32) || (n =? 160).

Fixpoint trimStart (s : string) : string :=
  match s with
  | EmptyString => EmptyString
  | String c s' => if isWhiteSpace c then trimStart s' else s
  end.

Fixpoint trimEnd (s : string) : string :=
  match s with
  | EmptyString => EmptyString
  | String c s' =>
      match trimEnd s' with
      | EmptyString => if isWhiteSpace c then EmptyString else String c EmptyString
      | t => String c t
      end
  end.

(** [String.prototype.trim] *)
Definition trim (s : string) : string := trimEnd (trimStart s).

(** The value of a character as a digit of radix [R], if it is one. *)
Definition digitValue (R : Z) (c : ascii) : option Z :=
  let n := codeUnit c in
  let d :=
    if (48 <=? n) && (n <=? 57) then Some (n - 48)
    else if (97 <=? n) && (n <=? 122) then Some (n - 87)
    else if (65 <=? n) && (n <=? 90) then Some (n - 55)
    else None in
  match d with
  | Some v => if v <? R then Some v else None
  | None => None
  end.

(** The longest prefix of radix-[R] digits, read as an integer; [acc] is
    [None] as long as no digit was seen. *)
Fixpoint parseDigits (R : Z) (acc : option Z) (s : string) : option Z :=
  match s with
  | EmptyString => acc
  | String c s' =>
      match digitValue R c with
      | Some d => parseDigits R (Some (R * default 0 acc + d)) s'
      | None => acc
      end
  end.

Definition stripSign (s : string) : Z * string :=
  match s with
  | String c r =>
      if Ascii.eqb c "-" then (-1, r)
      else if Ascii.eqb c "+" then (1, r)
      else (1, s)
  | EmptyString => (1, s)
  end.

Definition stripHexPrefix (s : string) : Z * string :=
  match s with
  | String a (String b r) =>
      if Ascii.eqb a "0" && (Ascii.eqb b "x" || Ascii.eqb b "X")
      then (16, r) else (10, s)
  | _ => (10, s)
  end.

(** [parseInt(s)] with no radix argument; [None] is NaN. *)
Definition parseInt (s : string) : option Z :=
  let (sign, s1) := stripSign (trimStart s) in
  let (R, s2) := stripHexPrefix s1 in
  match parseDigits R None s2 with
  | Some n => Some (sign * n)
  | None => None
  end.

(** What [express.json()] leaves in [req.body]. *)
#[local] Unset Elimination Schemes.
Inductive Value : Type :=
| Null
| Boolean (b : bool)
| Number (q : Q)
| Str (s : string)
| Array (items : list Value)
| Object (fields : list (string * Value)).
#[local] Set Elimination Schemes.

(** [obj[key]]; [None] is [undefined].  [fields] lists the own properties
    of the object, whose keys are distinct. *)
Fixpoint getField (key : string) (fields : list (string * Value)) : option Value :=
  match fields with
  | [] => None
  | (k, v) :: rest => if String.eqb k key then Some v else getField key rest
  end.

End JS.

(** ** types.ts: the records *)

(** The values of the [DonationType] object, in the order of the source. *)
Definition DonationTypeValues : list string :=
  ["money"; "food"; "clothing"; "toys"; "books"; "household"; "other"].

(** A row of the table.  [donation_type] is the text SQLite holds: the
    TypeScript union type is erased at run time. *)
Record Donation : Type := {
  id : Z;
  donor_name : string;
  donation_type : string;
  quantity : Q;
  date : string;
  created_at : Z;
  updated_at : Z
}.

Record CreateDonationInput : Type := {
  new_donor_name : string;
  new_donation_type : string;
  new_quantity : Q;
  new_date : string
}.

(** Every field optional: [None] is an absent key or [undefined]. *)
Record UpdateDonationInput : Type := {
  upd_donor_name : option string;
  upd_donation_type : option string;
  upd_quantity : option Q;
  upd_date : option string
}.

(** What the run time supplies and the repository does not define:
    [Date.parse] ([None] is NaN; its fallback formats are implementation
    defined) and the texts of the messages Zod gives an issue for which
    the schema supplies none. *)
Record Runtime : Type := {
  Date_parse : string -> option Z;
  zodDefaultMessage : string -> option JS.Value -> string
}.

(** ** The part of Zod the schemas use *)

Module Zod.

Record ZodIssue : Type := {
  code : string;
  path : list string;
  message : string
}.

Inductive ParseReturn (A : Type) : Type :=
| OK (value : A)
| INVALID (issues : list ZodIssue).
Arguments OK {A} value.
Arguments INVALID {A} issues.

Definition issuesOf {A} (r : ParseReturn A) : list ZodIssue :=
  match r with
  | OK _ => []
  | INVALID issues => issues
  end.

(** The checks of a [ZodString], kept in the order they were chained:
    [_parse] runs them in that order, and [trim] replaces the data seen
    by the checks after it. *)
Inductive StringCheck : Type :=
| StrMin (value : Z) (msg : string)
| StrMax (value : Z) (msg : string)
| StrTrim.

Fixpoint runStringChecks (p : list string) (checks : list StringCheck)
    (data : string) : string * list ZodIssue :=
  match checks with
  | [] => (data, [])
  | StrMin n msg :: rest =>
      let (out, issues) := runStringChecks p rest data in
      (out, if Z.of_nat (String.length data) <? n
            then {| code := "too_small"; path := p; message := msg |} :: issues
            else issues)
  | StrMax n msg :: rest =>
      let (out, issues) := runStringChecks p rest data in
      (out, if n <? Z.of_nat (String.length data)
            then {| code := "too_big"; path := p; message := msg |} :: issues
            else issues)
  | StrTrim :: rest => runStringChecks p rest (JS.trim data)
  end.

Inductive NumberCheck : Type :=
| NumPositive (msg : string)
| NumMax (value : Q) (msg : string).

Fixpoint runNumberChecks (p : list string) (checks : list NumberCheck)
    (data : Q) : list ZodIssue :=
  match checks with
  | [] => []
  | NumPositive msg :: rest =>
      if Qle_bool data 0
      then {| code := "too_small"; path := p; message := msg |}
           :: runNumberChecks p rest data
      else runNumberChecks p rest data
  | NumMax n msg :: rest =>
      if Qle_bool data n
      then runNumberChecks p rest data
      else {| code := "too_big"; path := p; message := msg |}
           :: runNumberChecks p rest data
  end.

Section Schemas.
Variable rt : Runtime.

Definition invalidType {A} (p : list string) (input : option JS.Value) : ParseReturn A :=
  INVALID [{| code := "invalid_type"; path := p;
              message := zodDefaultMessage rt "invalid_type" input |}].

(** [z.string()] followed by its checks *)
Definition zString (checks : list StringCheck) (p : list string)
    (input : option JS.Value) : ParseReturn string :=
  match input with
  | Some (JS.Str s) =>
      match runStringChecks p checks s with
      | (out, []) => OK out
      | (_, issues) => INVALID issues
      end
  | _ => invalidType p input
  end.

(** [z.number()] followed by its checks *)
Definition zNumber (checks : list NumberCheck) (p : list string)
    (input : option JS.Value) : ParseReturn Q :=
  match input with
  | Some (JS.Number q) =>
      match runNumberChecks p checks q with
      | [] => OK q
      | issues => INVALID issues
      end
  | _ => invalidType p input
  end.

(** [z.enum(values)] *)
Definition zEnum (values : list string) (p : list string)
    (input : option JS.Value) : ParseReturn string :=
  match input with
  | Some (JS.Str s) =>
      if bool_decide (s ∈ values) then OK s
      else INVALID [{| code := "invalid_enum_value"; path := p;
                       message := zodDefaultMessage rt "invalid_enum_value" input |}]
  | _ => invalidType p input
  end.

(** [schema.refine(check, { message })]: the refinement runs only on a
    value the inner schema accepted. *)
Definition refine {A} (schema : list string -> option JS.Value -> ParseReturn A)
    (check : A -> bool) (msg : string) (p : list string)
    (input : option JS.Value) : ParseReturn A :=
  match schema p input with
  | OK a =>
      if check a then OK a
      else INVALID [{| code := "custom"; path := p; message := msg |}]
  | INVALID issues => INVALID issues
  end.

(** [schema.optional()] *)
Definition optional {A} (schema : list string -> option JS.Value -> ParseReturn A)
    (p : list string) (input : option JS.Value) : ParseReturn (option A) :=
  match input with
  | None => OK None
  | Some _ =>
      match schema p input with
      | OK a => OK (Some a)
      | INVALID issues => INVALID issues
      end
  end.

End Schemas.

End Zod.

(** ** types.ts: the schemas *)

Section ValidationSchemas.
Variable rt : Runtime.

Definition donor_name_schema :=
  Zod.zString rt
    [Zod.StrMin 2 "Donor name must be at least 2 characters";
     Zod.StrMax 100 "Donor name must be less than 100 characters";
     Zod.StrTrim].

Definition donation_type_schema := Zod.zEnum rt DonationTypeValues.

Definition quantity_schema :=
  Zod.zNumber rt
    [Zod.NumPositive "Quantity must be a positive number";
     Zod.NumMax (1000000 # 1) "Quantity seems too large"].

Definition date_schema :=
  Zod.refine (Zod.zString rt [])
    (fun date => bool_decide (is_Some (Date_parse rt date)))
    "Please provide a valid date".

(** [z.object] looks up the keys of its shape and nothing else: a key
    that is not in the shape is left out of the result. *)
Definition CreateDonationSchema (body : JS.Value) : Zod.ParseReturn CreateDonationInput :=
  match body with
  | JS.Object fields =>
      let r1 := donor_name_schema ["donor_name"] (JS.getField "donor_name" fields) in
      let r2 := donation_type_schema ["donation_type"] (JS.getField "donation_type" fields) in
      let r3 := quantity_schema ["quantity"] (JS.getField "quantity" fields) in
      let r4 := date_schema ["date"] (JS.getField "date" fields) in
      match r1, r2, r3, r4 with
      | Zod.OK n, Zod.OK t, Zod.OK q, Zod.OK d =>
          Zod.OK {| new_donor_name := n; new_donation_type := t;
                    new_quantity := q; new_date := d |}
      | _, _, _, _ =>
          Zod.INVALID (Zod.issuesOf r1 ++ Zod.issuesOf r2
                       ++ Zod.issuesOf r3 ++ Zod.issuesOf r4)
      end
  | _ => Zod.invalidType rt [] (Some body)
  end.

Definition UpdateDonationSchema (body : JS.Value) : Zod.ParseReturn UpdateDonationInput :=
  match body with
  | JS.Object fields =>
      let r1 := Zod.optional donor_name_schema ["donor_name"]
                  (JS.getField "donor_name" fields) in
      let r2 := Zod.optional donation_type_schema ["donation_type"]
                  (JS.getField "donation_type" fields) in
      let r3 := Zod.optional quantity_schema ["quantity"]
                  (JS.getField "quantity" fields) in
      let r4 := Zod.optional date_schema ["date"] (JS.getField "date" fields) in
      match r1, r2, r3, r4 with
      | Zod.OK n, Zod.OK t, Zod.OK q, Zod.OK d =>
          Zod.OK {| upd_donor_name := n; upd_donation_type := t;
                    upd_quantity := q; upd_date := d |}
      | _, _, _, _ =>
          Zod.INVALID (Zod.issuesOf r1 ++ Zod.issuesOf r2
                       ++ Zod.issuesOf r3 ++ Zod.issuesOf r4)
      end
  | _ => Zod.invalidType rt [] (Some body)
  end.

End ValidationSchemas.

(** ** The SQLite engine behind database.ts *)

Module Sqlite.

Inductive SqliteError : Type :=
| SQLITE_CONSTRAINT
| SQLITE_FULL
| SQLITE_IOERR
| SQLITE_CORRUPT.

(** The table [donations], the counter SQLite keeps for it in
    [sqlite_sequence] (the largest rowid the table ever held), and the
    storage medium: what it will answer to the next engine calls, [None]
    or nothing being a call the medium serves. *)
Record World : Type := {
  rows : gmap Z Donation;
  sqlite_sequence : Z;
  medium : list (option SqliteError)
}.

Definition emptyWorld : World :=
  {| rows := ∅; sqlite_sequence := 0; medium := [] |}.

(** One engine call: the medium answers first. *)
Definition engineCall {A} (stmt : World -> (SqliteError + A) * World)
    (w : World) : (SqliteError + A) * World :=
  match medium w with
  | [] => stmt w
  | None :: later =>
      stmt {| rows := rows w; sqlite_sequence := sqlite_sequence w; medium := later |}
  | Some e :: later =>
      (inl e, {| rows := rows w; sqlite_sequence := sqlite_sequence w; medium := later |})
  end.

(** SQL [length(X)] of a text value: the characters before the first NUL. *)
Fixpoint sql_length (s : string) : Z :=
  match s with
  | EmptyString => 0
  | String c s' => if (JS.codeUnit c =? 0) then 0 else 1 + sql_length s'
  end.

(** The three [CHECK] clauses of [CREATE TABLE donations]. *)
Definition check_donor_name (name : string) : bool := 2 <=? sql_length name.
Definition check_donation_type (t : string) : bool := bool_decide (t ∈ DonationTypeValues).
Definition check_quantity (q : Q) : bool := negb (Qle_bool q 0).

Definition checks (r : Donation) : bool :=
  check_donor_name (donor_name r) && check_donation_type (donation_type r)
  && check_quantity (quantity r).

Definition MAX_ROWID : Z := 9223372036854775807.

Definition max_rowid (m : gmap Z Donation) : Z :=
  foldr (fun kv acc => Z.max kv.1 acc) 0 (map_to_list m).

(** [INTEGER PRIMARY KEY AUTOINCREMENT]: one more than the largest rowid
    the table has or ever had. *)
Definition next_rowid (w : World) : Z :=
  Z.max (sqlite_sequence w) (max_rowid (rows w)) + 1.

(** The row an [INSERT] writes: [created_at] and [updated_at] both
    default to the [CURRENT_TIMESTAMP] of the statement. *)
Definition newRow (rowid now : Z) (d : CreateDonationInput) : Donation :=
  {| id := rowid;
     donor_name := new_donor_name d;
     donation_type := new_donation_type d;
     quantity := new_quantity d;
     date := new_date d;
     created_at := now;
     updated_at := now |}.

(** [INSERT INTO donations (donor_name, donation_type, quantity, date)
    VALUES (?, ?, ?, ?)]; the result is [this.lastID]. *)
Definition insert_donation (now : Z) (d : CreateDonationInput)
    : World -> (SqliteError + Z) * World :=
  engineCall (fun w =>
    let rowid := next_rowid w in
    let r := newRow rowid now d in
    if MAX_ROWID <? rowid then (inl SQLITE_FULL, w)
    else if checks r
    then (inr rowid,
          {| rows := <[rowid := r]> (rows w);
             sqlite_sequence := rowid;
             medium := medium w |})
    else (inl SQLITE_CONSTRAINT, w)).

(** [SELECT * FROM donations WHERE id = ?]; [None] is no row. *)
Definition select_by_id (i : Z) : World -> (SqliteError + option Donation) * World :=
  engineCall (fun w => (inr (rows w !! i), w)).

(** One [column = ?] of a [SET] clause with its bound value. *)
Inductive Assignment : Type :=
| SetDonorName (v : string)
| SetDonationType (v : string)
| SetQuantity (v : Q)
| SetDate (v : string).

Definition assign (r : Donation) (a : Assignment) : Donation :=
  match a with
  | SetDonorName v =>
      {| id := id r; donor_name := v; donation_type := donation_type r;
         quantity := quantity r; date := date r;
         created_at := created_at r; updated_at := updated_at r |}
  | SetDonationType v =>
      {| id := id r; donor_name := donor_name r; donation_type := v;
         quantity := quantity r; date := date r;
         created_at := created_at r; updated_at := updated_at r |}
  | SetQuantity v =>
      {| id := id r; donor_name := donor_name r; donation_type := donation_type r;
         quantity := v; date := date r;
         created_at := created_at r; updated_at := updated_at r |}
  | SetDate v =>
      {| id := id r; donor_name := donor_name r; donation_type := donation_type r;
         quantity := quantity r; date := v;
         created_at := created_at r; updated_at := updated_at r |}
  end.

Definition touch (now : Z) (r : Donation) : Donation :=
  {| id := id r; donor_name := donor_name r; donation_type := donation_type r;
     quantity := quantity r; date := date r;
     created_at := created_at r; updated_at := now |}.

(** [UPDATE donations SET <sets>, updated_at = CURRENT_TIMESTAMP WHERE id = ?];
    the result is [this.changes]. *)
Definition update_donation (now : Z) (sets : list Assignment) (i : Z)
    : World -> (SqliteError + Z) * World :=
  engineCall (fun w =>
    match rows w !! i with
    | None => (inr 0, w)
    | Some r =>
        let r' := touch now (foldl assign r sets) in
        if checks r'
        then (inr 1,
              {| rows := <[i := r']> (rows w);
                 sqlite_sequence := sqlite_sequence w;
                 medium := medium w |})
        else (inl SQLITE_CONSTRAINT, w)
    end).

(** [DELETE FROM donations WHERE id = ?]; the result is [this.changes]. *)
Definition delete_donation (i : Z) : World -> (SqliteError + Z) * World :=
  engineCall (fun w =>
    match rows w !! i with
    | None => (inr 0, w)
    | Some _ =>
        (inr 1,
         {| rows := delete i (rows w);
            sqlite_sequence := sqlite_sequence w;
            medium := medium w |})
    end).

End Sqlite.

(** ** database.ts: the store *)

Import Sqlite.

(** A settled promise: [Rejected] carries the message of the [Error]. *)
Inductive Settled (A : Type) : Type :=
| Resolved (value : A)
| Rejected (error : string).
Arguments Resolved {A} value.
Arguments Rejected {A} error.

Definition Promise (A : Type) : Type := World -> Settled A * World.

(** The row is what [SELECT] found for [this.lastID], cast to [Donation];
    [None] is [undefined]. *)
Definition createDonation (now : Z) (donation : CreateDonationInput)
    : Promise (option Donation) :=
  fun w =>
    match insert_donation now donation w with
    | (inl err, w1) => (Rejected "Failed to create donation", w1)
    | (inr lastID, w1) =>
        match select_by_id lastID w1 with
        | (inl selectErr, w2) => (Rejected "Failed to retrieve created donation", w2)
        | (inr row, w2) => (Resolved row, w2)
        end
    end.

(** [Object.keys(updates).filter(key => updates[key] !== undefined)],
    each key with the value [values] pairs it with. *)
Definition definedFields (updates : UpdateDonationInput) : list Assignment :=
  from_option (fun v => [SetDonorName v]) [] (upd_donor_name updates)
  ++ from_option (fun v => [SetDonationType v]) [] (upd_donation_type updates)
  ++ from_option (fun v => [SetQuantity v]) [] (upd_quantity updates)
  ++ from_option (fun v => [SetDate v]) [] (upd_date updates).

(** The [throw] in the body of the [async] function rejects its promise. *)
Definition updateDonation (now : Z) (i : Z) (updates : UpdateDonationInput)
    : Promise (option Donation) :=
  fun w =>
    let fields := definedFields updates in
    if (length fields =? 0)%nat then (Rejected "No fields provided for update", w)
    else
      match update_donation now fields i w with
      | (inl err, w1) => (Rejected "Failed to update donation", w1)
      | (inr changes, w1) =>
          if changes =? 0 then (Resolved None, w1)
          else
            match select_by_id i w1 with
            | (inl selectErr, w2) => (Rejected "Failed to retrieve updated donation", w2)
            | (inr row, w2) => (Resolved row, w2)
            end
      end.

Definition deleteDonation (i : Z) : Promise bool :=
  fun w =>
    match delete_donation i w with
    | (inl err, w1) => (Rejected "Failed to delete donation", w1)
    | (inr changes, w1) =>
        if changes =? 0 then (Resolved false, w1) else (Resolved true, w1)
    end.

Definition getDonationById (i : Z) : Promise (option Donation) :=
  fun w =>
    match select_by_id i w with
    | (inl err, w1) => (Rejected "Failed to fetch donation", w1)
    | (inr row, w1) => (Resolved row, w1)
    end.

(** ** routes.ts: the handlers *)

(** The status passed to [res.status] with the envelope passed to
    [res.json]; an absent key is [None]. *)
Record ApiResponse : Type := {
  status : Z;
  success : bool;
  data : option Donation;
  message : option string;
  errors : option (list string)
}.

Definition Handler : Type := World -> ApiResponse * World.

Definition failure (st : Z) (msg : string) : ApiResponse :=
  {| status := st; success := false; data := None;
     message := Some msg; errors := None |}.

(** [`${err.path.join('.')}: ${err.message}`] *)
Definition renderIssue (err : Zod.ZodIssue) : string :=
  (String.concat "." (Zod.path err) ++ ": " ++ Zod.message err)%string.

Definition validationFailed (issues : list Zod.ZodIssue) : ApiResponse :=
  {| status := 400; success := false; data := None;
     message := Some "Validation failed";
     errors := Some (map renderIssue issues) |}.

Section Routes.
Variable rt : Runtime.

(** POST /donations *)
Definition post_donations (now : Z) (body : JS.Value) : Handler :=
  fun w =>
    match CreateDonationSchema rt body with
    | Zod.INVALID issues => (validationFailed issues, w)
    | Zod.OK donationData =>
        match createDonation now donationData w with
        | (Resolved newDonation, w1) =>
            ({| status := 201; success := true; data := newDonation;
                message := Some "Donation created successfully";
                errors := None |}, w1)
        | (Rejected _, w1) => (failure 500 "Failed to create donation", w1)
        end
    end.

(** PUT /donations/:id *)
Definition put_donation (now : Z) (idParam : string) (body : JS.Value) : Handler :=
  fun w =>
    match JS.parseInt idParam with
    | None => (failure 400 "Invalid donation ID", w)
    | Some donationId =>
        if donationId <=? 0 then (failure 400 "Invalid donation ID", w)
        else
          match UpdateDonationSchema rt body with
          | Zod.INVALID issues => (validationFailed issues, w)
          | Zod.OK updateData =>
              match getDonationById donationId w with
              | (Rejected _, w1) => (failure 500 "Failed to update donation", w1)
              | (Resolved None, w1) => (failure 404 "Donation not found", w1)
              | (Resolved (Some _), w1) =>
                  match updateDonation now donationId updateData w1 with
                  | (Rejected _, w2) => (failure 500 "Failed to update donation", w2)
                  | (Resolved None, w2) => (failure 404 "Donation not found", w2)
                  | (Resolved (Some updatedDonation), w2) =>
                      ({| status := 200; success := true;
                          data := Some updatedDonation;
                          message := Some "Donation updated successfully";
                          errors := None |}, w2)
                  end
              end
          end
    end.

End Routes.

(** DELETE /donations/:id *)
Definition delete_donation_route (idParam : string) : Handler :=
  fun w =>
    match JS.parseInt idParam with
    | None => (failure 400 "Invalid donation ID", w)
    | Some donationId =>
        if donationId <=? 0 then (failure 400 "Invalid donation ID", w)
        else
          match getDonationById donationId w with
          | (Rejected _, w1) => (failure 500 "Failed to delete donation", w1)
          | (Resolved None, w1) => (failure 404 "Donation not found", w1)
          | (Resolved (Some _), w1) =>
              match deleteDonation donationId w1 with
              | (Rejected _, w2) => (failure 500 "Failed to delete donation", w2)
              | (Resolved false, w2) => (failure 404 "Donation not found", w2)
              | (Resolved true, w2) =>
                  ({| status := 200; success := true; data := None;
                      message := Some "Donation deleted successfully";
                      errors := None |}, w2)
              end
          end
    end.

(** GET /donations/:id *)
Definition get_donation_route (idParam : string) : Handler :=
  fun w =>
    match JS.parseInt idParam with
    | None => (failure 400 "Invalid donation ID", w)
    | Some donationId =>
        if donationId <=? 0 then (failure 400 "Invalid donation ID", w)
        else
          match getDonationById donationId w with
          | (Rejected _, w1) => (failure 500 "Failed to retrieve donation", w1)
          | (Resolved None, w1) => (failure 404 "Donation not found", w1)
          | (Resolved (Some donation), w1) =>
              ({| status := 200; success := true; data := Some donation;
                  message := Some "Donation retrieved successfully";
                  errors := None |}, w1)
          end
    end.

(** A run of store calls, as a caller of the store issues them one after
    the other. *)
Inductive StoreCall : Type :=
| CallCreate (now : Z) (donation : CreateDonationInput)
| CallUpdate (now : Z) (i : Z) (updates : UpdateDonationInput)
| CallDelete (i : Z)
| CallGetById (i : Z).

Definition runCall (c : StoreCall) (w : World) : option Donation * World :=
  match c with
  | CallCreate now d =>
      match createDonation now d w with
      | (Resolved row, w1) => (row, w1)
      | (Rejected _, w1) => (None, w1)
      end
  | CallUpdate now i u => (None, snd (updateDonation now i u w))
  | CallDelete i => (None, snd (deleteDonation i w))
  | CallGetById i => (None, snd (getDonationById i w))
  end.

(** The ids of the records the creates of the run returned, oldest first,
    and the world after the run. *)
Fixpoint runCalls (calls : list StoreCall) (w : World) : list Z * World :=
  match calls with
  | [] => ([], w)
  | c :: later =>
      let (created, w1) := runCall c w in
      let (ids, w2) := runCalls later w1 in
      (from_option (fun r => [id r]) [] created ++ ids, w2)
  end.

(** The table and its counter are the same in both worlds (the medium
    may have moved on). *)
Definition sameTable (w w' : World) : Prop :=
  rows w' = rows w /\ sqlite_sequence w' = sqlite_sequence w.

(** Every row of the table passes the [CHECK] clauses. *)
Definition tableChecked (w : World) : Prop :=
  forall i r, rows w !! i = Some r -> checks r = true.

(** A run time for the examples: [Date.parse] reads [YYYY-MM-DD]. *)
Definition isDecimalDigit (c : ascii) : bool :=
  (48 <=? JS.codeUnit c) && (JS.codeUnit c <=? 57).

Definition exampleRuntime : Runtime :=
  {| Date_parse := fun s =>
       match s with
       | String y1 (String y2 (String y3 (String y4 (String d1
           (String m1 (String m2 (String d2 (String a1 (String a2 EmptyString))))))))) =>
           if forallb isDecimalDigit [y1; y2; y3; y4; m1; m2; a1; a2]
              && Ascii.eqb d1 "-" && Ascii.eqb d2 "-"
           then Some 0 else None
       | _ => None
       end;
     zodDefaultMessage := fun code _ => code |}.

(** A create input that breaks one of the three [CHECK] clauses. *)
Definition violatesCheck (d : CreateDonationInput) : Prop :=
  sql_length (new_donor_name d) < 2
  \/ new_donation_type d ∉ DonationTypeValues
  \/ (new_quantity d <= 0)%Q.

(** Inputs and worlds of the scenarios. *)
Definition smithInput : CreateDonationInput :=
  {| new_donor_name := "A. Smith"; new_donation_type := "food";
     new_quantity := 12 # 1; new_date := "2024-03-01" |}.

Definition shortNameInput : CreateDonationInput :=
  {| new_donor_name := "X"; new_donation_type := "food";
     new_quantity := 1 # 1; new_date := "2024-01-01" |}.

Definition smithRow (now : Z) : Donation := newRow 1 now smithInput.

(** The world once [smithInput] was created at time [now] in the empty one. *)
Definition smithWorld (now : Z) : World :=
  snd (createDonation now smithInput emptyWorld).

Definition emptyUpdate : UpdateDonationInput :=
  {| upd_donor_name := None; upd_donation_type := None;
     upd_quantity := None; upd_date := None |}.

Definition quantityUpdate : UpdateDonationInput :=
  {| upd_donor_name := None; upd_donation_type := None;
     upd_quantity := Some (20 # 1); upd_date := None |}.

(** [smithRow] once [quantityUpdate] was applied at time [now']. *)
Definition smithRowUpdated (now now' : Z) : Donation :=
  {| id := 1; donor_name := "A. Smith"; donation_type := "food";
     quantity := 20 # 1; date := "2024-03-01";
     created_at := now; updated_at := now' |}.

(** A world whose medium fails the next engine call. *)
Definition failingWorld (e : SqliteError) (w : World) : World :=
  {| rows := rows w; sqlite_sequence := sqlite_sequence w;
     medium := Some e :: medium w |}.

(** Request bodies of the scenarios. *)
Definition donationFields (name type : string) (q : Q) (d : string)
    : list (string * JS.Value) :=
  [("donor_name", JS.Str name); ("donation_type", JS.Str type);
   ("quantity", JS.Number q); ("date", JS.Str d)].

Definition donationBody (name type : string) (q : Q) (d : string) : JS.Value :=
  JS.Object (donationFields name type q d).

Definition smithBody : JS.Value := donationBody "A. Smith" "food" (12 # 1) "2024-03-01".
Definition shortNameBody : JS.Value := donationBody "X" "food" (1 # 1) "2024-01-01".
Definition paddedNameBody : JS.Value := donationBody "  a  " "food" (1 # 1) "2024-01-01".

(** A name of 101 characters. *)
Definition longName : string :=
  let ten := "xxxxxxxxxx" in
  (ten ++ ten ++ ten ++ ten ++ ten ++ ten ++ ten ++ ten ++ ten ++ ten ++ "x")%string.

Definition longNameInput : CreateDonationInput :=
  {| new_donor_name := longName; new_donation_type := "food";
     new_quantity := 1 # 1; new_date := "2024-01-01" |}.

Definition paddedNameInput : CreateDonationInput :=
  {| new_donor_name := "a"; new_donation_type := "food";
     new_quantity := 1 # 1; new_date := "2024-01-01" |}.

(** The keys of the shape of both schemas. *)
Definition knownKeys : list string :=
  ["donor_name"; "donation_type"; "quantity"; "date"].

(** The fields of a body without the keys the schemas do not know. *)
Definition stripUnknownKeys (fields : list (string * JS.Value)) : list (string * JS.Value) :=
  List.filter (fun kv => bool_decide (kv.1 ∈ knownKeys)) fields.

(** A body that supplies none of the four fields. *)
Definition suppliesNoField (fields : list (string * JS.Value)) : Prop :=
  forall k, k ∈ knownKeys -> JS.getField k fields = None.

(** A string of decimal digits and the integer it writes. *)
Fixpoint allDecimalDigits (s : string) : bool :=
  match s with
  | EmptyString => true
  | String c s' => isDecimalDigit c && allDecimalDigits s'
  end.

Fixpoint decimalValueFrom (acc : Z) (s : string) : Z :=
  match s with
  | EmptyString => acc
  | String c s' => decimalValueFrom (10 * acc + (JS.codeUnit c - 48)) s'
  end.

Definition decimalValue (s : string) : Z := decimalValueFrom 0 s.

Definition startsWithDecimalDigit (s : string) : bool :=
  match s with
  | EmptyString => false
  | String c _ => isDecimalDigit c
  end.

(** [Number.MAX_SAFE_INTEGER]: up to it a double is the integer it reads. *)
Definition MAX_SAFE_INTEGER : Z := 9007199254740991.

(** The answers of the routes to an id they do not take. *)
Definition invalidId : ApiResponse := failure 400 "Invalid donation ID".
Definition notFound : ApiResponse := failure 404 "Donation not found".

(** [parseInt] read no positive integer. *)
Definition noPositiveInteger (s : string) : Prop :=
  JS.parseInt s = None \/ exists n, JS.parseInt s = Some n /\ n <= 0.

(** ** database.ts and routes.ts: the list of all donations *)

(** [ORDER BY created_at DESC]: no row comes before a newer one.  SQL
    leaves the order among rows of one time stamp open; the statements
    about the list do not depend on it. *)
Definition newestFirst (a b : Donation) : Prop := created_at b <= created_at a.

#[global] Instance newestFirst_dec : RelDecision newestFirst :=
  fun a b => Z_le_dec (created_at b) (created_at a).

(** [SELECT id, donor_name, ... FROM donations ORDER BY created_at DESC] *)
Definition select_all (w : World) : (SqliteError + list Donation) * World :=
  engineCall (fun w => (inr (merge_sort newestFirst (map snd (map_to_list (rows w)))), w)) w.

Definition getAllDonations : Promise (list Donation) :=
  fun w =>
    match select_all w with
    | (inl err, w1) => (Rejected "Failed to fetch donations from database", w1)
    | (inr all, w1) => (Resolved all, w1)
    end.

(** [String(d)] for a digit [d]. *)
Definition digitChar (d : Z) : ascii := ascii_of_N (Z.to_N (48 + d)).

(** The decimal digits of [n], put before [acc]. *)
Fixpoint decimalDigits (fuel : nat) (n : Z) (acc : string) : string :=
  match fuel with
  | O => acc
  | S fuel' =>
      let acc' := String (digitChar (n mod 10)) acc in
      if n <? 10 then acc' else decimalDigits fuel' (n / 10) acc'
  end.

(** The text of an integer in a template literal, [`${n}`], for an integer
    a double holds exactly (absolute value at most 2^53 - 1,
    [Number.MAX_SAFE_INTEGER]): its decimal digits, after a minus sign if
    it is negative.  Beyond that range a double rounds the integer, and
    from 10^21 on the text is in exponent notation: the function does not
    describe the text there. *)
Definition Number_toString (n : Z) : string :=
  if n <? 0
  then String "-" (decimalDigits (S (Z.to_nat (Z.log2 (- n)))) (- n) "")
  else decimalDigits (S (Z.to_nat (Z.log2 n))) n "".

(** The envelope of GET /donations: [data] is the array. *)
Record ListResponse : Type := {
  list_status : Z;
  list_success : bool;
  list_data : option (list Donation);
  list_message : option string
}.

(** GET /donations *)
Definition get_donations_route (w : World) : ListResponse * World :=
  match getAllDonations w with
  | (Resolved donations, w1) =>
      ({| list_status := 200; list_success := true;
          list_data := Some donations;
          list_message :=
            Some ("Retrieved "
                  ++ Number_toString (Z.of_nat (length donations))
                  ++ " donations")%string |}, w1)
  | (Rejected _, w1) =>
      ({| list_status := 500; list_success := false; list_data := None;
          list_message := Some "Failed to retrieve donations" |}, w1)
  end.

(** ** frontend: api.ts and the form validation *)

Module Client.

(** A JavaScript number as [parseFloat] and [Number] give it. *)
Inductive JsNumber : Type :=
| NaN
| Infinity (negative : bool)
| Finite (q : Q).

(** What the browser supplies: [parseFloat] and [Number] on a string. *)
Record ClientRuntime : Type := {
  parseFloat : string -> JsNumber;
  Number_of : string -> JsNumber
}.

(** [JSON.stringify] writes a number that is not finite as [null]. *)
Definition jsonNumber (x : JsNumber) : JS.Value :=
  match x with
  | Finite q => JS.Number q
  | _ => JS.Null
  end.

Record DonationFormData : Type := {
  form_donor_name : string;
  form_donation_type : string;
  form_quantity : string;
  form_date : string
}.

(** [Partial<DonationFormData>]: [None] is [undefined]. *)
Record PartialFormData : Type := {
  part_donor_name : option string;
  part_donation_type : option string;
  part_quantity : option string;
  part_date : option string
}.

(** The keys [validateForm] sets; [None] is a key it leaves out. *)
Record FormErrors : Type := {
  err_donor_name : option string;
  err_donation_type : option string;
  err_quantity : option string;
  err_date : option string
}.

Section WithRuntime.
Variable crt : ClientRuntime.

(** [apiData] of [createDonation], as the request carries it. *)
Definition createDonation_apiData (donationData : DonationFormData)
    : list (string * JS.Value) :=
  [("donor_name", JS.Str (JS.trim (form_donor_name donationData)));
   ("donation_type", JS.Str (form_donation_type donationData));
   ("quantity", jsonNumber (parseFloat crt (form_quantity donationData)));
   ("date", JS.Str (form_date donationData))].

(** [apiData] of [updateDonation], as the request carries it. *)
Definition updateDonation_apiData (donationData : PartialFormData)
    : list (string * JS.Value) :=
  match part_donor_name donationData with
  | Some n => [("donor_name", JS.Str (JS.trim n))]
  | None => []
  end
  ++ match part_donation_type donationData with
     | Some t => if String.eqb t "" then [] else [("donation_type", JS.Str t)]
     | None => []
     end
  ++ match part_quantity donationData with
     | Some q =>
         if String.eqb q "" then []
         else [("quantity", jsonNumber (parseFloat crt q))]
     | None => []
     end
  ++ match part_date donationData with
     | Some d => [("date", JS.Str d)]
     | None => []
     end.

(** [isNaN(Number(q)) || Number(q) <= 0] *)
Definition notPositive (x : JsNumber) : bool :=
  match x with
  | NaN => true
  | Infinity negative => negative
  | Finite q => Qle_bool q 0
  end.

Definition validateForm (data : DonationFormData) : FormErrors :=
  {| err_donor_name :=
       if String.eqb (JS.trim (form_donor_name data)) ""
       then Some "Donor name is required"
       else if (String.length (JS.trim (form_donor_name data)) <? 2)%nat
            then Some "Donor name must be at least 2 characters"
            else None;
     err_donation_type :=
       if String.eqb (form_donation_type data) ""
       then Some "Please select a donation type"
       else None;
     err_quantity :=
       if String.eqb (form_quantity data) ""
       then Some "Quantity is required"
       else if notPositive (Number_of crt (form_quantity data))
            then Some "Quantity must be a positive number"
            else None;
     err_date :=
       if String.eqb (form_date data) ""
       then Some "Date is required"
       else None |}.

End WithRuntime.

(** [Object.keys(errors).length > 0] *)
Definition hasErrors (errors : FormErrors) : bool :=
  negb (match err_donor_name errors, err_donation_type errors,
              err_quantity errors, err_date errors with
        | None, None, None, None => true
        | _, _, _, _ => false
        end).

End Client.

(** A client run time for the examples: it reads the numbers the
    examples use. *)
Definition exampleClientRuntime : Client.ClientRuntime :=
  let read := fun s =>
    if String.eqb s "12" then Client.Finite (12 # 1)
    else if String.eqb s "0" then Client.Finite (0 # 1)
    else if String.eqb s "Infinity" then Client.Infinity false
    else Client.NaN in
  {| Client.parseFloat := read; Client.Number_of := read |}.

Definition smithForm : Client.DonationFormData :=
  {| Client.form_donor_name := "  A. Smith ";
     Client.form_donation_type := "food";
     Client.form_quantity := "12";
     Client.form_date := "2024-03-01" |}.

(** What an optional field of the update schema makes of a key: nothing
    of an absent key, and of a present one the value its schema accepts. *)
Definition patchedBy {A} (schema : list string -> option JS.Value -> Zod.ParseReturn A)
    (p : list string) (input : option JS.Value) (o : option A) : Prop :=
  match input with
  | None => o = None
  | Some _ => exists v, schema p input = Zod.OK v /\ o = Some v
  end.

Definition nameOnlyEdit : Client.PartialFormData :=
  {| Client.part_donor_name := Some " Bo Li ";
     Client.part_donation_type := Some "";
     Client.part_quantity := Some "";
     Client.part_date := None |}.

Definition longNameForm : Client.DonationFormData :=
  {| Client.form_donor_name := longName;
     Client.form_donation_type := "food";
     Client.form_quantity := "12";
     Client.form_date := "2024-03-01" |}.

Definition infiniteQuantityForm : Client.DonationFormData :=
  {| Client.form_donor_name := "A. Smith";
     Client.form_donation_type := "food";
     Client.form_quantity := "Infinity";
     Client.form_date := "2024-03-01" |}.

(** The column [id] is the key of the table: a row is found by the id it
    carries, and ids are positive. *)
Definition wellKeyed (w : World) : Prop :=
  forall i r, rows w !! i = Some r -> id r = i /\ 0 < i.

(** * Properties *)

(** ** Strings *)

Lemma trimStart_length (s : string) :
  (String.length (JS.trimStart s) <= String.length s)%nat.
Proof.
  induction s as [|c s IH]; simpl; [lia|].
  destruct (JS.isWhiteSpace c); simpl; lia.
Qed.

Lemma trimEnd_length (s : string) :
  (String.length (JS.trimEnd s) <= String.length s)%nat.
Proof.
  induction s as [|c s IH]; simpl; [lia|].
  destruct (JS.trimEnd s) as [|c' t] eqn:E.
  - destruct (JS.isWhiteSpace c); simpl; lia.
  - simpl in *. lia.
Qed.

Lemma trim_length (s : string) :
  (String.length (JS.trim s) <= String.length s)%nat.
Proof.
  unfold JS.trim.
  pose proof (trimEnd_length (JS.trimStart s)).
  pose proof (trimStart_length s). lia.
Qed.

Lemma sql_length_le (s : string) : sql_length s <= Z.of_nat (String.length s).
Proof.
  induction s as [|c s IH]; simpl (String.length _); cbn [sql_length]; [lia|].
  destruct (JS.codeUnit c =? 0); lia.
Qed.

(** ** The engine *)

Lemma engineCall_healthy {A} (stmt : World -> (SqliteError + A) * World) (w : World) :
  medium w = [] -> engineCall stmt w = stmt w.
Proof. intros H. unfold engineCall. now rewrite H. Qed.

(** Whatever the medium does, an engine call either fails with the table
    untouched or runs its statement on the same table. *)
Lemma engineCall_cases {A} (stmt : World -> (SqliteError + A) * World) (w : World) :
  (exists e w', engineCall stmt w = (inl e, w') /\ sameTable w w')
  \/ (exists w0, engineCall stmt w = stmt w0 /\ sameTable w w0
                 /\ (medium w = [] -> w0 = w)).
Proof.
  unfold engineCall. destruct (medium w) as [|[e|] later] eqn:E.
  - right. exists w. repeat split; auto.
  - left. eexists _, _. split; [reflexivity|]. split; reflexivity.
  - right. eexists. split; [reflexivity|]. split; [split; reflexivity|].
    intros H; discriminate H.
Qed.

Lemma max_rowid_ge (m : gmap Z Donation) (i : Z) (r : Donation) :
  m !! i = Some r -> i <= max_rowid m.
Proof.
  intros H. apply elem_of_map_to_list in H. unfold max_rowid.
  induction (map_to_list m) as [|[k v] l IH]; [inversion H|].
  apply elem_of_cons in H as [H|H]; simpl.
  - inversion H; subst. lia.
  - specialize (IH H). lia.
Qed.

Lemma next_rowid_fresh (w : World) : rows w !! next_rowid w = None.
Proof.
  destruct (rows w !! next_rowid w) as [r|] eqn:E; [|reflexivity].
  apply max_rowid_ge in E. unfold next_rowid in E. lia.
Qed.

Lemma sameTable_refl (w : World) : sameTable w w.
Proof. split; reflexivity. Qed.

Lemma sameTable_checked (w w' : World) :
  sameTable w w' -> tableChecked w -> tableChecked w'.
Proof. intros [A _] H i r Hr. rewrite A in Hr. eauto. Qed.

Lemma sameTable_next_rowid (w w' : World) :
  sameTable w w' -> next_rowid w' = next_rowid w.
Proof. intros [A B]. unfold next_rowid. now rewrite A, B. Qed.

Create HintDb store.
#[local] Hint Resolve sameTable_refl : store.

Lemma insert_donation_cases (now : Z) (d : CreateDonationInput) (w : World) :
  (exists e w', insert_donation now d w = (inl e, w') /\ sameTable w w')
  \/ (exists w',
        insert_donation now d w = (inr (next_rowid w), w')
        /\ checks (newRow (next_rowid w) now d) = true
        /\ next_rowid w <= MAX_ROWID
        /\ rows w' = <[next_rowid w := newRow (next_rowid w) now d]> (rows w)
        /\ sqlite_sequence w' = next_rowid w).
Proof.
  unfold insert_donation.
  match goal with |- context [engineCall ?f w] =>
    destruct (engineCall_cases f w) as [(e & w' & -> & S)|(w0 & -> & S & _)] end.
  - left. eauto.
  - cbv zeta. rewrite (sameTable_next_rowid _ _ S).
    destruct (MAX_ROWID <? next_rowid w) eqn:F.
    + left. eauto.
    + destruct (checks (newRow (next_rowid w) now d)) eqn:C.
      * right. eexists. split; [reflexivity|]. destruct S as [S1 S2].
        repeat split; simpl; try congruence. lia.
      * left. eauto.
Qed.

Lemma select_by_id_cases (i : Z) (w : World) :
  (exists e w', select_by_id i w = (inl e, w') /\ sameTable w w')
  \/ (exists w', select_by_id i w = (inr (rows w !! i), w') /\ sameTable w w').
Proof.
  unfold select_by_id.
  destruct (engineCall_cases (fun w => (inr (rows w !! i), w)) w)
    as [(e & w' & -> & S)|(w0 & -> & S & _)].
  - left. eauto.
  - right. exists w0. destruct S as [S1 S2]. rewrite S1. split; [reflexivity|].
    split; assumption.
Qed.

Lemma update_donation_cases (now : Z) (sets : list Assignment) (i : Z) (w : World) :
  (exists e w', update_donation now sets i w = (inl e, w') /\ sameTable w w')
  \/ (exists w', update_donation now sets i w = (inr 0, w')
                 /\ rows w !! i = None /\ sameTable w w')
  \/ (exists r w',
        update_donation now sets i w = (inr 1, w')
        /\ rows w !! i = Some r
        /\ checks (touch now (foldl assign r sets)) = true
        /\ rows w' = <[i := touch now (foldl assign r sets)]> (rows w)
        /\ sqlite_sequence w' = sqlite_sequence w).
Proof.
  unfold update_donation.
  match goal with |- context [engineCall ?f w] =>
    destruct (engineCall_cases f w) as [(e & w' & -> & S)|(w0 & -> & S & _)] end.
  - left. eauto.
  - destruct S as [S1 S2]. rewrite S1.
    destruct (rows w !! i) as [r|] eqn:E.
    + destruct (checks (touch now (foldl assign r sets))) eqn:C.
      * right. right. eexists _, _. split; [reflexivity|].
        repeat split; simpl; congruence.
      * left. eexists _, _. split; [reflexivity|]. split; assumption.
    + right. left. eexists. split; [reflexivity|]. repeat split; assumption.
Qed.

Lemma delete_donation_cases (i : Z) (w : World) :
  (exists e w', delete_donation i w = (inl e, w') /\ sameTable w w')
  \/ (exists w', delete_donation i w = (inr 0, w')
                 /\ rows w !! i = None /\ sameTable w w')
  \/ (exists w',
        delete_donation i w = (inr 1, w')
        /\ is_Some (rows w !! i)
        /\ rows w' = delete i (rows w)
        /\ sqlite_sequence w' = sqlite_sequence w).
Proof.
  unfold delete_donation.
  match goal with |- context [engineCall ?f w] =>
    destruct (engineCall_cases f w) as [(e & w' & -> & S)|(w0 & -> & S & _)] end.
  - left. eauto.
  - destruct S as [S1 S2]. rewrite S1.
    destruct (rows w !! i) as [r|] eqn:E.
    + right. right. eexists. split; [reflexivity|].
      repeat split; simpl; try congruence. eauto.
    + right. left. eexists. split; [reflexivity|]. repeat split; assumption.
Qed.

(** ** The store *)

Lemma createDonation_cases (now : Z) (d : CreateDonationInput) (w : World) :
  (exists w', createDonation now d w = (Rejected "Failed to create donation", w')
              /\ sameTable w w')
  \/ (exists out w',
        (out = Rejected "Failed to retrieve created donation"
         \/ out = Resolved (Some (newRow (next_rowid w) now d)))
        /\ createDonation now d w = (out, w')
        /\ checks (newRow (next_rowid w) now d) = true
        /\ next_rowid w <= MAX_ROWID
        /\ rows w' = <[next_rowid w := newRow (next_rowid w) now d]> (rows w)
        /\ sqlite_sequence w' = next_rowid w).
Proof.
  unfold createDonation.
  destruct (insert_donation_cases now d w)
    as [(e & w1 & -> & S)|(w1 & -> & C & F & R & Q)].
  - left. eauto.
  - right.
    destruct (select_by_id_cases (next_rowid w) w1)
      as [(e & w2 & -> & [S1 S2])|(w2 & -> & [S1 S2])].
    + eexists _, _. split; [left; reflexivity|]. split; [reflexivity|].
      repeat split; try assumption; congruence.
    + rewrite R, lookup_insert_eq.
      eexists _, _. split; [right; reflexivity|]. split; [reflexivity|].
      repeat split; try assumption; congruence.
Qed.

Lemma updateDonation_cases (now i : Z) (u : UpdateDonationInput) (w : World) :
  (definedFields u = []
   /\ updateDonation now i u w = (Rejected "No fields provided for update", w))
  \/ (definedFields u <> []
      /\ ((exists w', updateDonation now i u w = (Rejected "Failed to update donation", w')
                      /\ sameTable w w')
          \/ (exists w', updateDonation now i u w = (Resolved None, w')
                         /\ rows w !! i = None /\ sameTable w w')
          \/ (exists r out w',
                (out = Rejected "Failed to retrieve updated donation"
                 \/ out = Resolved (Some (touch now (foldl assign r (definedFields u)))))
                /\ updateDonation now i u w = (out, w')
                /\ rows w !! i = Some r
                /\ checks (touch now (foldl assign r (definedFields u))) = true
                /\ rows w' = <[i := touch now (foldl assign r (definedFields u))]> (rows w)
                /\ sqlite_sequence w' = sqlite_sequence w))).
Proof.
  unfold updateDonation.
  destruct (definedFields u) as [|a sets] eqn:D; [left; auto|].
  right. split; [discriminate|]. cbn [length Nat.eqb].
  destruct (update_donation_cases now (a :: sets) i w)
    as [(e & w1 & -> & S)|[(w1 & -> & N & S)|(r & w1 & -> & E & C & R & Q)]].
  - left. eauto.
  - right. left. eauto.
  - right. right. change (1 =? 0) with false. cbv iota.
    destruct (select_by_id_cases i w1)
      as [(e & w2 & -> & [S1 S2])|(w2 & -> & [S1 S2])].
    + eexists r, _, _. split; [left; reflexivity|]. split; [reflexivity|].
      repeat split; try assumption; congruence.
    + rewrite R, lookup_insert_eq.
      eexists r, _, _. split; [right; reflexivity|]. split; [reflexivity|].
      repeat split; try assumption; congruence.
Qed.

Lemma deleteDonation_cases (i : Z) (w : World) :
  (exists w', deleteDonation i w = (Rejected "Failed to delete donation", w')
              /\ sameTable w w')
  \/ (exists w', deleteDonation i w = (Resolved false, w')
                 /\ rows w !! i = None /\ sameTable w w')
  \/ (exists w', deleteDonation i w = (Resolved true, w')
                 /\ is_Some (rows w !! i)
                 /\ rows w' = delete i (rows w)
                 /\ sqlite_sequence w' = sqlite_sequence w).
Proof.
  unfold deleteDonation.
  destruct (delete_donation_cases i w)
    as [(e & w1 & -> & S)|[(w1 & -> & N & S)|(w1 & -> & E & R & Q)]].
  - left. eauto.
  - right. left. eauto.
  - right. right. eauto.
Qed.

Lemma getDonationById_cases (i : Z) (w : World) :
  (exists w', getDonationById i w = (Rejected "Failed to fetch donation", w')
              /\ sameTable w w')
  \/ (exists w', getDonationById i w = (Resolved (rows w !! i), w')
                 /\ sameTable w w').
Proof.
  unfold getDonationById.
  destruct (select_by_id_cases i w) as [(e & w1 & -> & S)|(w1 & -> & S)].
  - left. eauto.
  - right. eauto.
Qed.

Lemma getDonationById_healthy (i : Z) (w : World) :
  medium w = [] -> getDonationById i w = (Resolved (rows w !! i), w).
Proof.
  intros H. unfold getDonationById, select_by_id.
  now rewrite engineCall_healthy.
Qed.

Lemma deleteDonation_healthy (i : Z) (w : World) :
  medium w = [] ->
  deleteDonation i w =
    match rows w !! i with
    | None => (Resolved false, w)
    | Some _ =>
        (Resolved true,
         {| rows := delete i (rows w);
            sqlite_sequence := sqlite_sequence w;
            medium := medium w |})
    end.
Proof.
  intros H. unfold deleteDonation, delete_donation.
  rewrite engineCall_healthy by assumption.
  now destruct (rows w !! i).
Qed.

Lemma violatesCheck_checks (d : CreateDonationInput) (rowid now : Z) :
  violatesCheck d -> checks (newRow rowid now d) = false.
Proof.
  unfold checks, check_donor_name, check_donation_type, check_quantity, newRow.
  cbn [donor_name donation_type quantity].
  intros [H|[H|H]].
  - apply Z.leb_gt in H. now rewrite H.
  - rewrite (bool_decide_eq_false_2 _ H). apply andb_false_intro1, andb_false_r.
  - apply Qle_bool_iff in H. rewrite H. apply andb_false_r.
Qed.

Lemma tableChecked_insert (w w' : World) (i : Z) (r : Donation) :
  tableChecked w -> checks r = true -> rows w' = <[i := r]> (rows w) ->
  tableChecked w'.
Proof.
  intros T C R j r' H. rewrite R in H.
  destruct (decide (i = j)) as [->|N].
  - rewrite lookup_insert_eq in H. congruence.
  - rewrite lookup_insert_ne in H by assumption. eauto.
Qed.

Lemma tableChecked_delete (w w' : World) (i : Z) :
  tableChecked w -> rows w' = delete i (rows w) -> tableChecked w'.
Proof.
  intros T R j r' H. rewrite R in H.
  apply lookup_delete_Some in H as [_ H]. eauto.
Qed.

Lemma next_rowid_above (w : World) : sqlite_sequence w < next_rowid w.
Proof. unfold next_rowid. lia. Qed.

(** What one store call does to the table: the checked rows stay
    checked, the counter never decreases, and a created record takes an
    id above the counter and moves the counter to it. *)
Lemma runCall_spec (c : StoreCall) (w : World) :
  (tableChecked w -> tableChecked (snd (runCall c w)))
  /\ sqlite_sequence w <= sqlite_sequence (snd (runCall c w))
  /\ (forall r, fst (runCall c w) = Some r ->
        sqlite_sequence w < id r /\ sqlite_sequence (snd (runCall c w)) = id r).
Proof.
  destruct c as [now d|now i u|i|i]; cbn [runCall].
  - destruct (createDonation_cases now d w)
      as [(w' & -> & S)|(out & w' & O & -> & C & F & R & Q)].
    + cbn [fst snd]. split; [eauto using sameTable_checked|].
      destruct S as [_ S]. split; [lia|discriminate].
    + pose proof (next_rowid_above w) as A.
      destruct O as [->| ->]; cbn [fst snd];
        (split; [eauto using tableChecked_insert|]); (split; [lia|]).
      * discriminate.
      * intros r [= <-]. cbn [newRow id]. lia.
  - cbn [fst snd]. split; [|split; [|discriminate]].
    + intros T.
      destruct (updateDonation_cases now i u w)
        as [[_ ->]|[_ [(w' & -> & S)|[(w' & -> & _ & S)
             |(r & out & w' & _ & -> & _ & C & R & _)]]]]; cbn [snd];
        eauto using sameTable_checked, tableChecked_insert.
    + destruct (updateDonation_cases now i u w)
        as [[_ ->]|[_ [(w' & -> & [_ S])|[(w' & -> & _ & [_ S])
             |(r & out & w' & _ & -> & _ & _ & _ & S)]]]]; cbn [snd]; lia.
  - cbn [fst snd]. split; [|split; [|discriminate]].
    + intros T.
      destruct (deleteDonation_cases i w)
        as [(w' & -> & S)|[(w' & -> & _ & S)|(w' & -> & _ & R & _)]]; cbn [snd];
        eauto using sameTable_checked, tableChecked_delete.
    + destruct (deleteDonation_cases i w)
        as [(w' & -> & [_ S])|[(w' & -> & _ & [_ S])|(w' & -> & _ & _ & S)]];
        cbn [snd]; lia.
  - cbn [fst snd].
    destruct (getDonationById_cases i w) as [(w' & -> & S)|(w' & -> & S)];
      cbn [snd]; (split; [eauto using sameTable_checked|]);
      destruct S as [_ S]; (split; [lia|discriminate]).
Qed.

Lemma runCalls_cons (c : StoreCall) (later : list StoreCall) (w : World) :
  runCalls (c :: later) w =
    (from_option (fun r => [id r]) [] (fst (runCall c w))
       ++ fst (runCalls later (snd (runCall c w))),
     snd (runCalls later (snd (runCall c w)))).
Proof.
  cbn [runCalls]. destruct (runCall c w) as [created w1]. cbn [fst snd].
  now destruct (runCalls later w1).
Qed.

Lemma runCalls_spec (calls : list StoreCall) (w : World) :
  (tableChecked w -> tableChecked (snd (runCalls calls w)))
  /\ sqlite_sequence w <= sqlite_sequence (snd (runCalls calls w))
  /\ Forall (fun i => sqlite_sequence w < i) (fst (runCalls calls w))
  /\ StronglySorted Z.lt (fst (runCalls calls w)).
Proof.
  revert w. induction calls as [|c later IH]; intros w.
  - cbn. repeat split; auto; [lia|constructor].
  - rewrite runCalls_cons. cbn [fst snd].
    destruct (runCall_spec c w) as (T & M & I).
    destruct (IH (snd (runCall c w))) as (T' & M' & F' & S').
    split; [auto|]. split; [lia|].
    assert (F'' : Forall (fun i => sqlite_sequence w < i)
                    (fst (runCalls later (snd (runCall c w))))).
    { eapply Forall_impl; [exact F'|]. intros; cbv beta in *. lia. }
    destruct (fst (runCall c w)) as [r|] eqn:E; cbn [from_option app].
    + destruct (I r eq_refl) as [I1 I2]. split.
      * constructor; assumption.
      * constructor; [assumption|].
        eapply Forall_impl; [exact F'|]. intros; cbv beta in *. lia.
    + split; assumption.
Qed.

Lemma checks_spec (r : Donation) :
  checks r = true <->
  2 <= sql_length (donor_name r)
  /\ donation_type r ∈ DonationTypeValues
  /\ (0 < quantity r)%Q.
Proof.
  unfold checks, check_donor_name, check_donation_type, check_quantity.
  rewrite !andb_true_iff, Z.leb_le, bool_decide_eq_true, negb_true_iff.
  assert (Q : Qle_bool (quantity r) 0 = false <-> (0 < quantity r)%Q).
  { rewrite <- not_true_iff_false, Qle_bool_iff. split.
    - apply Qnot_le_lt.
    - apply Qlt_not_le. }
  tauto.
Qed.

Lemma createDonation_rejects_violation (now : Z) (d : CreateDonationInput) (w : World) :
  violatesCheck d ->
  exists w', createDonation now d w = (Rejected "Failed to create donation", w')
             /\ sameTable w w'.
Proof.
  intros V.
  destruct (createDonation_cases now d w)
    as [(w' & E & S)|(out & w' & _ & _ & C & _)]; [eauto|].
  rewrite (violatesCheck_checks d _ _ V) in C. discriminate C.
Qed.

(** ** The claims about the store *)

Lemma createDonation_first_call_fails (now : Z) (d : CreateDonationInput)
    (w : World) (e : SqliteError) (later : list (option SqliteError)) :
  medium w = Some e :: later ->
  fst (createDonation now d w) = Rejected "Failed to create donation".
Proof.
  intros M. unfold createDonation, insert_donation, engineCall.
  rewrite M. reflexivity.
Qed.

(** C4 (amended). The store enforces the three CHECK clauses on its own
    (donor_name of length at least 2, donation_type among the seven
    values, quantity above 0): a create whose input breaks one of them,
    whatever the caller did before, fails with the table untouched, and
    no engine statement and no run of store calls ever leaves a row in
    the table that breaks a clause.  The failure is the generic error
    "Failed to create donation": the engine's constraint error is dropped
    by createDonation, whose promise settles as it does when the medium
    fails the INSERT. *)
Theorem C4_store_enforces_checks :
  (forall now d w, violatesCheck d ->
     (exists w', createDonation now d w = (Rejected "Failed to create donation", w')
                 /\ sameTable w w')
     /\ (medium w = [] -> next_rowid w <= MAX_ROWID ->
         insert_donation now d w = (inl SQLITE_CONSTRAINT, w)
         /\ createDonation now d w = (Rejected "Failed to create donation", w)))
  /\ (forall now d w e later, medium w = Some e :: later ->
        fst (insert_donation now d w) = inl e
        /\ fst (createDonation now d w) = Rejected "Failed to create donation")
  /\ (forall now d w, tableChecked w -> tableChecked (snd (insert_donation now d w)))
  /\ (forall now sets i w, tableChecked w ->
        tableChecked (snd (update_donation now sets i w)))
  /\ (forall calls w, tableChecked w -> tableChecked (snd (runCalls calls w)))
  /\ (forall w, tableChecked w -> forall i r, rows w !! i = Some r ->
        2 <= sql_length (donor_name r)
        /\ donation_type r ∈ DonationTypeValues
        /\ (0 < quantity r)%Q).
Proof.
  split; [|split; [|split; [|split; [|split]]]].
  - intros now d w V. split.
    + now apply createDonation_rejects_violation.
    + intros H F.
      assert (E : insert_donation now d w = (inl SQLITE_CONSTRAINT, w)).
      { unfold insert_donation. rewrite engineCall_healthy by assumption.
        cbv zeta. rewrite (violatesCheck_checks d _ _ V).
        apply Z.ltb_ge in F. now rewrite F. }
      split; [exact E|]. unfold createDonation. now rewrite E.
  - intros now d w e later M. split.
    + unfold insert_donation, engineCall. now rewrite M.
    + now apply (createDonation_first_call_fails now d w e later).
  - intros now d w T.
    destruct (insert_donation_cases now d w)
      as [(e & w' & -> & S)|(w' & -> & C & _ & R & _)]; cbn [snd];
      eauto using sameTable_checked, tableChecked_insert.
  - intros now sets i w T.
    destruct (update_donation_cases now sets i w)
      as [(e & w' & -> & S)|[(w' & -> & _ & S)|(r & w' & -> & _ & C & R & _)]];
      cbn [snd]; eauto using sameTable_checked, tableChecked_insert.
  - intros calls w. apply runCalls_spec.
  - intros w T i r H. apply checks_spec. eauto.
Qed.

Lemma emptyWorld_checked : tableChecked emptyWorld.
Proof. intros i r H. cbn in H. rewrite lookup_empty in H. discriminate H. Qed.

Lemma C4_store_enforces_checks_witness :
  violatesCheck shortNameInput
  /\ tableChecked emptyWorld
  /\ (exists w', createDonation 0 shortNameInput emptyWorld
                 = (Rejected "Failed to create donation", w')
                 /\ sameTable emptyWorld w')
  /\ insert_donation 0 shortNameInput emptyWorld = (inl SQLITE_CONSTRAINT, emptyWorld)
  /\ createDonation 0 shortNameInput emptyWorld
     = (Rejected "Failed to create donation", emptyWorld)
  /\ medium (failingWorld SQLITE_IOERR emptyWorld) = [Some SQLITE_IOERR]
  /\ fst (createDonation 0 smithInput (failingWorld SQLITE_IOERR emptyWorld))
     = Rejected "Failed to create donation"
  /\ tableChecked (snd (insert_donation 0 smithInput emptyWorld))
  /\ tableChecked (snd (update_donation 5 [SetQuantity (20 # 1)] 1 emptyWorld))
  /\ tableChecked (snd (runCalls [CallCreate 0 smithInput; CallDelete 1] emptyWorld))
  /\ rows (snd (insert_donation 0 smithInput emptyWorld)) !! 1 = Some (smithRow 0)
  /\ 2 <= sql_length (donor_name (smithRow 0)).
Proof.
  assert (V : violatesCheck shortNameInput) by (left; vm_compute; reflexivity).
  assert (L : rows (snd (insert_donation 0 smithInput emptyWorld)) !! 1
              = Some (smithRow 0)) by (vm_compute; reflexivity).
  assert (F : next_rowid emptyWorld <= MAX_ROWID) by (vm_compute; discriminate).
  pose proof emptyWorld_checked as T.
  destruct C4_store_enforces_checks as (A & M & B & C & D & E).
  split; [exact V|]. split; [exact T|].
  split; [exact (proj1 (A 0 shortNameInput emptyWorld V))|].
  split; [exact (proj1 (proj2 (A 0 shortNameInput emptyWorld V) eq_refl F))|].
  split; [exact (proj2 (proj2 (A 0 shortNameInput emptyWorld V) eq_refl F))|].
  split; [reflexivity|].
  split; [exact (proj2 (M 0 smithInput (failingWorld SQLITE_IOERR emptyWorld)
                          SQLITE_IOERR [] eq_refl))|].
  split; [exact (B 0 smithInput emptyWorld T)|].
  split; [exact (C 5 [SetQuantity (20 # 1)] 1 emptyWorld T)|].
  split; [exact (D [CallCreate 0 smithInput; CallDelete 1] emptyWorld T)|].
  split; [exact L|].
  exact (proj1 (E _ (B 0 smithInput emptyWorld T) 1 (smithRow 0) L)).
Defined.

(** C4, as stated, fails: the create a CHECK clause rejects does not fail
    with an outcome of its own.  The engine reports the constraint, and
    createDonation settles exactly as it does when the medium fails the
    INSERT of a valid record. *)
Lemma C4_constraint_violation_not_reported_as_such :
  insert_donation 0 shortNameInput emptyWorld = (inl SQLITE_CONSTRAINT, emptyWorld)
  /\ createDonation 0 shortNameInput emptyWorld
     = (Rejected "Failed to create donation", emptyWorld)
  /\ insert_donation 0 smithInput (failingWorld SQLITE_IOERR emptyWorld)
     = (inl SQLITE_IOERR, emptyWorld)
  /\ createDonation 0 smithInput (failingWorld SQLITE_IOERR emptyWorld)
     = (Rejected "Failed to create donation", emptyWorld).
Proof. repeat split; vm_compute; reflexivity. Qed.

Lemma createDonation_healthy (now : Z) (d : CreateDonationInput) (w : World) :
  medium w = [] -> next_rowid w <= MAX_ROWID ->
  checks (newRow (next_rowid w) now d) = true ->
  createDonation now d w
  = (Resolved (Some (newRow (next_rowid w) now d)),
     {| rows := <[next_rowid w := newRow (next_rowid w) now d]> (rows w);
        sqlite_sequence := next_rowid w;
        medium := [] |}).
Proof.
  intros H F C. unfold createDonation, insert_donation.
  rewrite engineCall_healthy by assumption. cbv zeta.
  apply Z.ltb_ge in F. rewrite F, C, H.
  unfold select_by_id. rewrite engineCall_healthy by reflexivity.
  cbn [rows]. now rewrite lookup_insert_eq.
Qed.

(** C8. A create whose input passes the CHECK clauses succeeds when the
    medium serves it and the ids are not used up; a create that succeeds
    returns a record whose created_at equals its updated_at and whose id
    is above every id the table holds or ever held; along any run of
    store calls, deletes included, the ids of the created records
    increase strictly, so that no id is given twice. *)
Theorem C8_create_assigns_fresh_increasing_id :
  (forall now d w,
     medium w = [] -> next_rowid w <= MAX_ROWID ->
     2 <= sql_length (new_donor_name d) ->
     new_donation_type d ∈ DonationTypeValues ->
     (0 < new_quantity d)%Q ->
     exists row w', createDonation now d w = (Resolved (Some row), w'))
  /\ (forall now d w r w',
        createDonation now d w = (Resolved r, w') ->
        exists row, r = Some row
          /\ created_at row = updated_at row
          /\ sqlite_sequence w < id row
          /\ (forall j old, rows w !! j = Some old -> j < id row)
          /\ sqlite_sequence w' = id row
          /\ rows w' !! id row = Some row)
  /\ (forall calls w,
        StronglySorted Z.lt (fst (runCalls calls w))
        /\ NoDup (fst (runCalls calls w))
        /\ Forall (fun i => sqlite_sequence w < i) (fst (runCalls calls w))).
Proof.
  split; [|split].
  - intros now d w H F A B C. eexists _, _.
    apply createDonation_healthy; try assumption.
    apply checks_spec. cbn [newRow donor_name donation_type quantity]. auto.
  - intros now d w r w' H.
    destruct (createDonation_cases now d w)
      as [(w1 & E & S)|(out & w1 & O & E & C & F & R & Q)];
      rewrite E in H; [discriminate H|].
    destruct O as [->| ->]; [discriminate H|].
    injection H as <- <-. eexists. split; [reflexivity|].
    cbn [newRow created_at updated_at id].
    split; [reflexivity|]. split; [apply next_rowid_above|].
    split; [|split; [assumption|]].
    + intros j old L. apply max_rowid_ge in L. unfold next_rowid. lia.
    + rewrite R. apply lookup_insert_eq.
  - intros calls w. destruct (runCalls_spec calls w) as (_ & _ & F & S).
    split; [assumption|]. split; [|assumption].
    clear F. induction S as [|a l S IH F]; constructor; [|assumption].
    intros In. rewrite Forall_forall in F. specialize (F a In). lia.
Qed.

Lemma C8_create_assigns_fresh_increasing_id_witness :
  medium emptyWorld = [] /\ next_rowid emptyWorld <= MAX_ROWID
  /\ 2 <= sql_length (new_donor_name smithInput)
  /\ new_donation_type smithInput ∈ DonationTypeValues
  /\ (0 < new_quantity smithInput)%Q
  /\ (exists row w', createDonation 100 smithInput emptyWorld = (Resolved (Some row), w'))
  /\ createDonation 100 smithInput emptyWorld = (Resolved (Some (smithRow 100)), smithWorld 100)
  /\ created_at (smithRow 100) = updated_at (smithRow 100)
  /\ NoDup (fst (runCalls [CallCreate 1 smithInput; CallDelete 1;
                           CallCreate 2 smithInput] emptyWorld)).
Proof.
  assert (F : next_rowid emptyWorld <= MAX_ROWID) by (vm_compute; discriminate).
  assert (A : 2 <= sql_length (new_donor_name smithInput)) by (vm_compute; discriminate).
  assert (B : new_donation_type smithInput ∈ DonationTypeValues)
    by (apply (bool_decide_unpack _); vm_compute; exact I).
  assert (C : (0 < new_quantity smithInput)%Q) by reflexivity.
  assert (E : createDonation 100 smithInput emptyWorld
              = (Resolved (Some (smithRow 100)), smithWorld 100))
    by (vm_compute; reflexivity).
  destruct C8_create_assigns_fresh_increasing_id as (T & U & V).
  split; [reflexivity|]. split; [exact F|]. split; [exact A|].
  split; [exact B|]. split; [exact C|].
  split; [exact (T 100 smithInput emptyWorld eq_refl F A B C)|].
  split; [exact E|]. split.
  - destruct (U _ _ _ _ _ E) as (row & R & G & _).
    injection R as <-. exact G.
  - apply V.
Defined.

(** C6. On a medium that serves the call, delete(id) resolves with a
    flag: true when a record with that id existed, which is then removed,
    false when none did, the table being left as it was; a second delete
    of the same id resolves with false and changes nothing. *)
Theorem C6_delete_returns_flag (i : Z) (w : World) :
  medium w = [] ->
  exists flag w1,
    deleteDonation i w = (Resolved flag, w1)
    /\ (flag = true <-> is_Some (rows w !! i))
    /\ (flag = false <-> rows w !! i = None)
    /\ rows w1 = delete i (rows w)
    /\ rows w1 !! i = None
    /\ sqlite_sequence w1 = sqlite_sequence w
    /\ (flag = false -> w1 = w)
    /\ deleteDonation i w1 = (Resolved false, w1).
Proof.
  intros H. rewrite (deleteDonation_healthy i w H).
  destruct (rows w !! i) as [r|] eqn:E.
  - eexists true, _. split; [reflexivity|].
    split; [split; eauto|]. split; [split; discriminate|].
    cbn [rows sqlite_sequence]. split; [reflexivity|].
    split; [apply lookup_delete_eq|]. split; [reflexivity|].
    split; [discriminate|].
    rewrite deleteDonation_healthy by exact H.
    cbn [rows]. now rewrite lookup_delete_eq.
  - exists false, w. split; [reflexivity|].
    split; [split; [discriminate|intros [? ?]; discriminate]|].
    split; [split; reflexivity|].
    split; [symmetry; now apply delete_id|].
    split; [assumption|]. split; [reflexivity|]. split; [reflexivity|].
    rewrite deleteDonation_healthy by exact H. now rewrite E.
Qed.

Lemma C6_delete_returns_flag_witness :
  medium (smithWorld 100) = []
  /\ exists flag w1,
       deleteDonation 1 (smithWorld 100) = (Resolved flag, w1)
       /\ (flag = true <-> is_Some (rows (smithWorld 100) !! 1))
       /\ (flag = false <-> rows (smithWorld 100) !! 1 = None)
       /\ rows w1 = delete 1 (rows (smithWorld 100))
       /\ rows w1 !! 1 = None
       /\ sqlite_sequence w1 = sqlite_sequence (smithWorld 100)
       /\ (flag = false -> w1 = smithWorld 100)
       /\ deleteDonation 1 w1 = (Resolved false, w1).
Proof.
  split; [reflexivity|].
  apply (C6_delete_returns_flag 1 (smithWorld 100)). reflexivity.
Defined.

Lemma foldl_assign_definedFields (u : UpdateDonationInput) (r : Donation) :
  foldl assign r (definedFields u) =
    {| id := id r;
       donor_name := default (donor_name r) (upd_donor_name u);
       donation_type := default (donation_type r) (upd_donation_type u);
       quantity := default (quantity r) (upd_quantity u);
       date := default (date r) (upd_date u);
       created_at := created_at r;
       updated_at := updated_at r |}.
Proof.
  destruct r, u as [[n|] [t|] [q|] [d|]]; reflexivity.
Qed.

Lemma updateDonation_healthy (now i : Z) (u : UpdateDonationInput) (w : World)
    (r : Donation) :
  medium w = [] -> rows w !! i = Some r -> definedFields u <> [] ->
  checks (touch now (foldl assign r (definedFields u))) = true ->
  updateDonation now i u w
  = (Resolved (Some (touch now (foldl assign r (definedFields u)))),
     {| rows := <[i := touch now (foldl assign r (definedFields u))]> (rows w);
        sqlite_sequence := sqlite_sequence w;
        medium := [] |}).
Proof.
  intros H L N C. unfold updateDonation.
  destruct (definedFields u) as [|a sets] eqn:D; [contradiction|].
  cbn [length Nat.eqb]. unfold update_donation.
  rewrite engineCall_healthy by assumption. rewrite L, C, H.
  change (1 =? 0) with false. cbv iota.
  unfold select_by_id. rewrite engineCall_healthy by reflexivity.
  cbn [rows]. now rewrite lookup_insert_eq.
Qed.

(** C7 (amended). An update of an existing record that supplies a field
    and leaves the row within the CHECK clauses succeeds when the medium
    serves it.  A successful update changes only the fields the payload
    supplies: id, created_at and every field the payload leaves out keep
    their values, and no other record changes; updated_at becomes the
    engine's current time stamp, which has a resolution of one second, so
    it is above its previous value exactly when the clock reads a later
    second. *)
Theorem C7_update_changes_supplied_fields_only :
  (forall now i u w r,
     medium w = [] -> rows w !! i = Some r -> definedFields u <> [] ->
     2 <= sql_length (default (donor_name r) (upd_donor_name u)) ->
     default (donation_type r) (upd_donation_type u) ∈ DonationTypeValues ->
     (0 < default (quantity r) (upd_quantity u))%Q ->
     exists r' w', updateDonation now i u w = (Resolved (Some r'), w'))
  /\ (forall now i u w w' r',
        updateDonation now i u w = (Resolved (Some r'), w') ->
        exists r,
          rows w !! i = Some r
          /\ id r' = id r
          /\ created_at r' = created_at r
          /\ donor_name r' = default (donor_name r) (upd_donor_name u)
          /\ donation_type r' = default (donation_type r) (upd_donation_type u)
          /\ quantity r' = default (quantity r) (upd_quantity u)
          /\ date r' = default (date r) (upd_date u)
          /\ updated_at r' = now
          /\ (updated_at r < updated_at r' <-> updated_at r < now)
          /\ rows w' = <[i := r']> (rows w)
          /\ (forall j, j <> i -> rows w' !! j = rows w !! j)
          /\ sqlite_sequence w' = sqlite_sequence w).
Proof.
  split.
  - intros now i u w r H L N A B C. eexists _, _.
    apply (updateDonation_healthy now i u w r H L N).
    apply checks_spec. rewrite foldl_assign_definedFields.
    cbn [touch donor_name donation_type quantity]. auto.
  - intros now i u w w' r' H.
    destruct (updateDonation_cases now i u w)
      as [[_ E]|[_ [(w1 & E & _)|[(w1 & E & _)
           |(r & out & w1 & O & E & L & _ & R & Q)]]]];
      rewrite E in H; try discriminate H.
    destruct O as [->| ->]; [discriminate H|].
    injection H as <- <-. exists r.
    rewrite foldl_assign_definedFields in *.
    cbn [touch id created_at donor_name donation_type quantity date updated_at].
    repeat (split; [first [assumption | reflexivity]|]).
    split; [|assumption].
    intros j N. rewrite R. now apply lookup_insert_ne.
Qed.

Lemma C7_update_changes_supplied_fields_only_witness :
  medium (smithWorld 100) = []
  /\ rows (smithWorld 100) !! 1 = Some (smithRow 100)
  /\ definedFields quantityUpdate <> []
  /\ (exists r' w', updateDonation 160 1 quantityUpdate (smithWorld 100)
                    = (Resolved (Some r'), w'))
  /\ updateDonation 160 1 quantityUpdate (smithWorld 100)
     = (Resolved (Some (smithRowUpdated 100 160)),
        snd (updateDonation 160 1 quantityUpdate (smithWorld 100)))
  /\ donor_name (smithRowUpdated 100 160) = "A. Smith"
  /\ updated_at (smithRowUpdated 100 160) = 160.
Proof.
  assert (L : rows (smithWorld 100) !! 1 = Some (smithRow 100))
    by (vm_compute; reflexivity).
  assert (N : definedFields quantityUpdate <> []) by discriminate.
  assert (A : 2 <= sql_length (default (donor_name (smithRow 100))
                                 (upd_donor_name quantityUpdate)))
    by (vm_compute; discriminate).
  assert (B : default (donation_type (smithRow 100)) (upd_donation_type quantityUpdate)
              ∈ DonationTypeValues)
    by (apply (bool_decide_unpack _); vm_compute; exact I).
  assert (C : (0 < default (quantity (smithRow 100)) (upd_quantity quantityUpdate))%Q)
    by reflexivity.
  assert (E : updateDonation 160 1 quantityUpdate (smithWorld 100)
              = (Resolved (Some (smithRowUpdated 100 160)),
                 snd (updateDonation 160 1 quantityUpdate (smithWorld 100))))
    by (vm_compute; reflexivity).
  destruct C7_update_changes_supplied_fields_only as (T & F).
  split; [reflexivity|]. split; [exact L|]. split; [exact N|].
  split; [exact (T 160 1 quantityUpdate (smithWorld 100) (smithRow 100)
                   eq_refl L N A B C)|].
  split; [exact E|].
  destruct (F _ _ _ _ _ _ E) as (r & _ & _ & _ & _ & _ & _ & _ & U & _).
  split; [reflexivity|exact U].
Defined.

(** C7, as stated, fails: an update in the second of the creation leaves
    updated_at where it was. *)
Lemma C7_updated_at_not_strictly_increasing :
  rows (smithWorld 100) !! 1 = Some (smithRow 100)
  /\ fst (updateDonation 100 1 quantityUpdate (smithWorld 100))
     = Resolved (Some (smithRowUpdated 100 100))
  /\ ~ updated_at (smithRow 100) < updated_at (smithRowUpdated 100 100).
Proof.
  split; [vm_compute; reflexivity|].
  split; [vm_compute; reflexivity|].
  cbn. lia.
Qed.





(** ** The validator *)

Section Validator.
Variable rt : Runtime.

Lemma donor_name_schema_Str (p : list string) (s : string) :
  donor_name_schema rt p (Some (JS.Str s)) =
    if (2 <=? Z.of_nat (String.length s)) && (Z.of_nat (String.length s) <=? 100)
    then Zod.OK (JS.trim s)
    else Zod.INVALID
           ((if Z.of_nat (String.length s) <? 2
             then [{| Zod.code := "too_small"; Zod.path := p;
                      Zod.message := "Donor name must be at least 2 characters" |}]
             else [])
            ++ (if 100 <? Z.of_nat (String.length s)
                then [{| Zod.code := "too_big"; Zod.path := p;
                         Zod.message := "Donor name must be less than 100 characters" |}]
                else [])).
Proof.
  unfold donor_name_schema, Zod.zString. cbn [Zod.runStringChecks].
  destruct (Z.ltb_spec (Z.of_nat (String.length s)) 2) as [A|A];
    destruct (Z.ltb_spec 100 (Z.of_nat (String.length s))) as [B|B];
    destruct (Z.leb_spec 2 (Z.of_nat (String.length s))) as [C|C];
    destruct (Z.leb_spec (Z.of_nat (String.length s)) 100) as [D|D];
    try lia; reflexivity.
Qed.

Lemma donor_name_schema_OK (p : list string) (input : option JS.Value) (out : string) :
  donor_name_schema rt p input = Zod.OK out ->
  exists s, input = Some (JS.Str s) /\ out = JS.trim s
            /\ (2 <= String.length s <= 100)%nat.
Proof.
  destruct input as [[| | |s| |]|]; try discriminate.
  rewrite donor_name_schema_Str.
  destruct (Z.leb_spec 2 (Z.of_nat (String.length s))) as [C|C];
    destruct (Z.leb_spec (Z.of_nat (String.length s)) 100) as [D|D];
    cbn [andb]; try discriminate.
  intros [= <-]. exists s. repeat split; lia.
Qed.

Lemma CreateDonationSchema_OK (fields : list (string * JS.Value)) (d : CreateDonationInput) :
  CreateDonationSchema rt (JS.Object fields) = Zod.OK d ->
  donor_name_schema rt ["donor_name"] (JS.getField "donor_name" fields)
    = Zod.OK (new_donor_name d)
  /\ donation_type_schema rt ["donation_type"] (JS.getField "donation_type" fields)
    = Zod.OK (new_donation_type d)
  /\ quantity_schema rt ["quantity"] (JS.getField "quantity" fields)
    = Zod.OK (new_quantity d)
  /\ date_schema rt ["date"] (JS.getField "date" fields) = Zod.OK (new_date d).
Proof.
  unfold CreateDonationSchema. cbv zeta.
  destruct (donor_name_schema rt _ _); [|discriminate].
  destruct (donation_type_schema rt _ _); [|discriminate].
  destruct (quantity_schema rt _ _); [|discriminate].
  destruct (date_schema rt _ _); [|discriminate].
  intros [= <-]. cbn. auto.
Qed.

Lemma getField_strip (k : string) (fields : list (string * JS.Value)) :
  k ∈ knownKeys -> JS.getField k (stripUnknownKeys fields) = JS.getField k fields.
Proof.
  intros K. unfold stripUnknownKeys.
  induction fields as [|[k' v] rest IH]; [reflexivity|].
  cbn [List.filter fst JS.getField].
  destruct (bool_decide (k' ∈ knownKeys)) eqn:B.
  - cbn [JS.getField]. now rewrite IH.
  - apply bool_decide_eq_false in B.
    destruct (String.eqb_spec k' k) as [->|N]; [contradiction|assumption].
Qed.

Lemma UpdateDonationSchema_no_field (fields : list (string * JS.Value)) :
  suppliesNoField fields ->
  UpdateDonationSchema rt (JS.Object fields) = Zod.OK emptyUpdate.
Proof.
  intros N. unfold UpdateDonationSchema.
  rewrite !N by (unfold knownKeys; set_solver). reflexivity.
Qed.

End Validator.

Section ValidatorClaims.
Variable rt : Runtime.

(** C1 (amended). The validator hands the store the donor_name with its
    surrounding white space trimmed off; on a name that has none it
    rejects exactly when the length is below 2 or above 100; an input
    whose donor_name has fewer than 2 characters once trimmed is never
    accepted by the create route, which answers 400 (validation) or 500
    (the store's CHECK) and leaves the table as it was; the store itself
    rejects every name shorter than 2 and has no upper bound. *)
Theorem C1_donor_name_trimmed_and_short_name_never_accepted :
  (forall fields d,
     CreateDonationSchema rt (JS.Object fields) = Zod.OK d ->
     exists s, JS.getField "donor_name" fields = Some (JS.Str s)
               /\ new_donor_name d = JS.trim s)
  /\ (forall p s, JS.trim s = s ->
        ((exists issues, donor_name_schema rt p (Some (JS.Str s)) = Zod.INVALID issues)
         <-> (String.length (JS.trim s) < 2 \/ 100 < String.length (JS.trim s))%nat))
  /\ (forall now fields s w,
        JS.getField "donor_name" fields = Some (JS.Str s) ->
        (String.length (JS.trim s) < 2)%nat ->
        (status (fst (post_donations rt now (JS.Object fields) w)) = 400
         \/ status (fst (post_donations rt now (JS.Object fields) w)) = 500)
        /\ success (fst (post_donations rt now (JS.Object fields) w)) = false
        /\ sameTable w (snd (post_donations rt now (JS.Object fields) w)))
  /\ (forall now d w,
        (String.length (new_donor_name d) < 2)%nat ->
        exists w', createDonation now d w = (Rejected "Failed to create donation", w')
                   /\ sameTable w w').
Proof.
  split; [|split; [|split]].
  - intros fields d V.
    apply CreateDonationSchema_OK in V as (V & _).
    apply donor_name_schema_OK in V as (s & E & T & _). eauto.
  - intros p s T. rewrite T, donor_name_schema_Str.
    destruct (Z.leb_spec 2 (Z.of_nat (String.length s))) as [C|C];
      destruct (Z.leb_spec (Z.of_nat (String.length s)) 100) as [D|D];
      cbn [andb]; (split; [intros [issues I]|intros L]);
      first [discriminate I | lia | eauto].
  - intros now fields s w G L. unfold post_donations.
    destruct (CreateDonationSchema rt (JS.Object fields)) as [d|issues] eqn:V.
    + apply CreateDonationSchema_OK in V as (V & _).
      apply donor_name_schema_OK in V as (s' & E & T & _).
      rewrite G in E. injection E as <-.
      assert (B : violatesCheck d).
      { left. rewrite T. pose proof (sql_length_le (JS.trim s)). lia. }
      destruct (createDonation_rejects_violation now d w B) as (w' & -> & S).
      cbn. auto.
    + cbn. auto with store.
  - intros now d w L. apply createDonation_rejects_violation. left.
    pose proof (sql_length_le (new_donor_name d)). lia.
Qed.

(** C2 (amended). An update that supplies no field passes the validator,
    which returns the empty set of fields; the store's update then fails,
    before any access to the table, by an Error with the message "No
    fields provided for update"; the route answers without success and
    leaves the table as it was, and when the id is that of a record it
    answers with the 500 response "Failed to update donation". *)
Theorem C2_update_without_fields :
  (forall fields, suppliesNoField fields ->
     UpdateDonationSchema rt (JS.Object fields) = Zod.OK emptyUpdate)
  /\ (forall now i w,
        updateDonation now i emptyUpdate w
        = (Rejected "No fields provided for update", w))
  /\ (forall now idParam fields w, suppliesNoField fields ->
        success (fst (put_donation rt now idParam (JS.Object fields) w)) = false
        /\ sameTable w (snd (put_donation rt now idParam (JS.Object fields) w)))
  /\ (forall now idParam fields w n,
        suppliesNoField fields ->
        JS.parseInt idParam = Some n -> 0 < n ->
        medium w = [] -> is_Some (rows w !! n) ->
        put_donation rt now idParam (JS.Object fields) w
        = (failure 500 "Failed to update donation", w)).
Proof.
  split; [|split; [|split]].
  - apply UpdateDonationSchema_no_field.
  - reflexivity.
  - intros now idParam fields w N. unfold put_donation.
    destruct (JS.parseInt idParam) as [n|]; [|cbn; auto with store].
    destruct (n <=? 0); [cbn; auto with store|].
    rewrite (UpdateDonationSchema_no_field rt fields N).
    destruct (getDonationById_cases n w) as [(w1 & -> & S)|(w1 & -> & S)];
      [cbn; auto|].
    destruct (rows w !! n); cbn; auto.
  - intros now idParam fields w n N P L H [r R]. unfold put_donation.
    rewrite P. apply Z.leb_gt in L. rewrite L.
    rewrite (UpdateDonationSchema_no_field rt fields N).
    rewrite (getDonationById_healthy n w H), R. reflexivity.
Qed.

(** C10. Both schemas read the four keys of their shape and nothing else:
    a body gives the result, and each route the answer and the table, of
    the same body without its other keys.  The presence of such a key
    never causes a rejection, and neither the validated input nor a row
    has a place for it. *)
Theorem C10_unknown_keys_are_stripped :
  (forall fields,
     CreateDonationSchema rt (JS.Object fields)
     = CreateDonationSchema rt (JS.Object (stripUnknownKeys fields)))
  /\ (forall fields,
        UpdateDonationSchema rt (JS.Object fields)
        = UpdateDonationSchema rt (JS.Object (stripUnknownKeys fields)))
  /\ (forall now fields w,
        post_donations rt now (JS.Object fields) w
        = post_donations rt now (JS.Object (stripUnknownKeys fields)) w)
  /\ (forall now idParam fields w,
        put_donation rt now idParam (JS.Object fields) w
        = put_donation rt now idParam (JS.Object (stripUnknownKeys fields)) w)
  /\ (forall fields k v, k ∉ knownKeys ->
        CreateDonationSchema rt (JS.Object ((k, v) :: fields))
        = CreateDonationSchema rt (JS.Object fields)
        /\ UpdateDonationSchema rt (JS.Object ((k, v) :: fields))
           = UpdateDonationSchema rt (JS.Object fields)).
Proof.
  assert (A : forall fields,
     CreateDonationSchema rt (JS.Object fields)
     = CreateDonationSchema rt (JS.Object (stripUnknownKeys fields))).
  { intros fields. unfold CreateDonationSchema.
    rewrite !getField_strip by (unfold knownKeys; set_solver). reflexivity. }
  assert (B : forall fields,
     UpdateDonationSchema rt (JS.Object fields)
     = UpdateDonationSchema rt (JS.Object (stripUnknownKeys fields))).
  { intros fields. unfold UpdateDonationSchema.
    rewrite !getField_strip by (unfold knownKeys; set_solver). reflexivity. }
  split; [exact A|]. split; [exact B|]. split; [|split].
  - intros now fields w. unfold post_donations. now rewrite <- A.
  - intros now idParam fields w. unfold put_donation. now rewrite <- B.
  - intros fields k v K.
    assert (E : stripUnknownKeys ((k, v) :: fields) = stripUnknownKeys fields).
    { unfold stripUnknownKeys. cbn [List.filter fst].
      now rewrite (bool_decide_eq_false_2 _ K). }
    split.
    + now rewrite (A ((k, v) :: fields)), E, <- A.
    + now rewrite (B ((k, v) :: fields)), E, <- B.
Qed.

End ValidatorClaims.

Lemma suppliesNoField_nil : suppliesNoField [].
Proof. intros k _. reflexivity. Qed.

Lemma C1_donor_name_trimmed_and_short_name_never_accepted_witness :
  CreateDonationSchema exampleRuntime
    (JS.Object (donationFields "  Smith " "food" (12 # 1) "2024-03-01"))
  = Zod.OK {| new_donor_name := "Smith"; new_donation_type := "food";
              new_quantity := 12 # 1; new_date := "2024-03-01" |}
  /\ (exists s,
        JS.getField "donor_name" (donationFields "  Smith " "food" (12 # 1) "2024-03-01")
        = Some (JS.Str s)
        /\ "Smith" = JS.trim s)
  /\ JS.trim "X" = "X"
  /\ (exists issues,
        donor_name_schema exampleRuntime ["donor_name"] (Some (JS.Str "X"))
        = Zod.INVALID issues)
  /\ JS.getField "donor_name" (donationFields "  a  " "food" (1 # 1) "2024-01-01")
     = Some (JS.Str "  a  ")
  /\ (String.length (JS.trim "  a  ") < 2)%nat
  /\ sameTable emptyWorld (snd (post_donations exampleRuntime 0 paddedNameBody emptyWorld))
  /\ (String.length (new_donor_name shortNameInput) < 2)%nat
  /\ exists w', createDonation 0 shortNameInput emptyWorld
                = (Rejected "Failed to create donation", w')
                /\ sameTable emptyWorld w'.
Proof.
  destruct (C1_donor_name_trimmed_and_short_name_never_accepted exampleRuntime)
    as (A & B & C & D).
  assert (E : CreateDonationSchema exampleRuntime
                (JS.Object (donationFields "  Smith " "food" (12 # 1) "2024-03-01"))
              = Zod.OK {| new_donor_name := "Smith"; new_donation_type := "food";
                          new_quantity := 12 # 1; new_date := "2024-03-01" |})
    by (vm_compute; reflexivity).
  assert (L : (String.length (JS.trim "  a  ") < 2)%nat) by (vm_compute; lia).
  assert (S : (String.length (new_donor_name shortNameInput) < 2)%nat)
    by (vm_compute; lia).
  split; [exact E|]. split; [exact (A _ _ E)|].
  split; [reflexivity|].
  split; [apply (proj2 (B ["donor_name"] "X" eq_refl)); left; vm_compute; lia|].
  split; [reflexivity|]. split; [exact L|].
  split; [exact (proj2 (proj2 (C 0 (donationFields "  a  " "food" (1 # 1) "2024-01-01")
                                 "  a  " emptyWorld eq_refl L)))|].
  split; [exact S|].
  exact (D 0 shortNameInput emptyWorld S).
Defined.

(** C1, as stated, fails: the validator and the store reject a short name
    with outcomes of different shapes (a 400 that lists the violations
    against a bare 500), the store accepts a name of 101 characters, and
    the validator accepts a name that is one character long once
    trimmed. *)
Lemma C1_store_and_validator_disagree :
  fst (post_donations exampleRuntime 0 shortNameBody emptyWorld)
  = {| status := 400; success := false; data := None;
       message := Some "Validation failed";
       errors := Some ["donor_name: Donor name must be at least 2 characters"] |}
  /\ fst (post_donations exampleRuntime 0 paddedNameBody emptyWorld)
     = {| status := 500; success := false; data := None;
          message := Some "Failed to create donation"; errors := None |}
  /\ String.length (JS.trim longName) = 101%nat
  /\ fst (createDonation 0 longNameInput emptyWorld)
     = Resolved (Some (newRow 1 0 longNameInput))
  /\ String.length (JS.trim "  a  ") = 1%nat
  /\ CreateDonationSchema exampleRuntime paddedNameBody = Zod.OK paddedNameInput.
Proof. repeat split; vm_compute; reflexivity. Qed.

Lemma C2_update_without_fields_witness :
  suppliesNoField []
  /\ UpdateDonationSchema exampleRuntime (JS.Object []) = Zod.OK emptyUpdate
  /\ success (fst (put_donation exampleRuntime 160 "1" (JS.Object []) (smithWorld 100)))
     = false
  /\ JS.parseInt "1" = Some 1 /\ 0 < 1
  /\ medium (smithWorld 100) = []
  /\ is_Some (rows (smithWorld 100) !! 1)
  /\ put_donation exampleRuntime 160 "1" (JS.Object []) (smithWorld 100)
     = (failure 500 "Failed to update donation", smithWorld 100).
Proof.
  destruct (C2_update_without_fields exampleRuntime) as (A & _ & C & D).
  pose proof suppliesNoField_nil as N.
  assert (S : is_Some (rows (smithWorld 100) !! 1))
    by (eexists; vm_compute; reflexivity).
  split; [exact N|]. split; [exact (A [] N)|].
  split; [exact (proj1 (C 160 "1" [] (smithWorld 100) N))|].
  split; [reflexivity|]. split; [lia|]. split; [reflexivity|].
  split; [exact S|].
  apply (D 160 "1" [] (smithWorld 100) 1 N eq_refl); [lia|reflexivity|exact S].
Defined.

(** C2, as stated, fails: the validator accepts the empty payload, and
    the failure of the store reaches the caller as the 500 response a
    failure of the medium gives. *)
Lemma C2_empty_update_not_invalid_argument :
  UpdateDonationSchema exampleRuntime (JS.Object []) = Zod.OK emptyUpdate
  /\ fst (updateDonation 160 1 emptyUpdate (smithWorld 100))
     = Rejected "No fields provided for update"
  /\ fst (put_donation exampleRuntime 160 "1" (JS.Object []) (smithWorld 100))
     = {| status := 500; success := false; data := None;
          message := Some "Failed to update donation"; errors := None |}
  /\ fst (put_donation exampleRuntime 160 "1" (JS.Object [("quantity", JS.Number (20 # 1))])
            (failingWorld SQLITE_IOERR (smithWorld 100)))
     = fst (put_donation exampleRuntime 160 "1" (JS.Object []) (smithWorld 100)).
Proof. repeat split; vm_compute; reflexivity. Qed.

Lemma C10_unknown_keys_are_stripped_witness :
  ("note" ∉ knownKeys)
  /\ CreateDonationSchema exampleRuntime
       (JS.Object (("note", JS.Str "fragile")
                   :: donationFields "A. Smith" "food" (12 # 1) "2024-03-01"))
     = CreateDonationSchema exampleRuntime smithBody
  /\ CreateDonationSchema exampleRuntime smithBody = Zod.OK smithInput.
Proof.
  assert (K : "note" ∉ knownKeys)
    by (apply (bool_decide_unpack _); vm_compute; exact I).
  split; [exact K|]. split; [|vm_compute; reflexivity].
  destruct (C10_unknown_keys_are_stripped exampleRuntime) as (_ & _ & _ & _ & A).
  exact (proj1 (A (donationFields "A. Smith" "food" (12 # 1) "2024-03-01")
                  "note" (JS.Str "fragile") K)).
Defined.

(** ** parseInt *)

Lemma isDecimalDigit_range (c : ascii) :
  isDecimalDigit c = true <-> 48 <= JS.codeUnit c <= 57.
Proof. unfold isDecimalDigit. rewrite andb_true_iff, !Z.leb_le. tauto. Qed.

Lemma digitValue_decimal (c : ascii) :
  isDecimalDigit c = true -> JS.digitValue 10 c = Some (JS.codeUnit c - 48).
Proof.
  intros H. apply isDecimalDigit_range in H. unfold JS.digitValue. cbv zeta.
  destruct (Z.leb_spec 48 (JS.codeUnit c)); [|lia].
  destruct (Z.leb_spec (JS.codeUnit c) 57); [|lia]. cbn [andb].
  destruct (Z.ltb_spec (JS.codeUnit c - 48) 10); [reflexivity|lia].
Qed.

Lemma digitValue_not_decimal (c : ascii) :
  isDecimalDigit c = false -> JS.digitValue 10 c = None.
Proof.
  intros H. unfold JS.digitValue. unfold isDecimalDigit in H. cbv zeta.
  rewrite H.
  destruct (Z.leb_spec 97 (JS.codeUnit c)); cbn [andb].
  - destruct (Z.leb_spec (JS.codeUnit c) 122); cbn [andb].
    + destruct (Z.ltb_spec (JS.codeUnit c - 87) 10); [lia|reflexivity].
    + destruct (Z.leb_spec 65 (JS.codeUnit c)); [|lia].
      destruct (Z.leb_spec (JS.codeUnit c) 90); [lia|reflexivity].
  - destruct (Z.leb_spec 65 (JS.codeUnit c)); cbn [andb]; [|reflexivity].
    destruct (Z.leb_spec (JS.codeUnit c) 90); [|reflexivity].
    destruct (Z.ltb_spec (JS.codeUnit c - 55) 10); [lia|reflexivity].
Qed.

Lemma decimal_not_whitespace (c : ascii) :
  isDecimalDigit c = true -> JS.isWhiteSpace c = false.
Proof.
  intros H. apply isDecimalDigit_range in H. unfold JS.isWhiteSpace. cbv zeta.
  destruct (Z.leb_spec (JS.codeUnit c) 13); [lia|].
  destruct (Z.eqb_spec (JS.codeUnit c) 32); [lia|].
  destruct (Z.eqb_spec (JS.codeUnit c) 160); [lia|].
  now rewrite andb_false_r.
Qed.

Lemma eqb_other_code (c d : ascii) :
  JS.codeUnit c <> JS.codeUnit d -> Ascii.eqb c d = false.
Proof. intros H. destruct (Ascii.eqb_spec c d) as [->|]; [contradiction|reflexivity]. Qed.

Lemma append_nil (s : string) : ("" ++ s)%string = s.
Proof. reflexivity. Qed.

Lemma append_cons (c : ascii) (s t : string) :
  (String c s ++ t)%string = String c (s ++ t)%string.
Proof. reflexivity. Qed.

Lemma parseDigits_decimal (ds rest : string) (a : Z) :
  allDecimalDigits ds = true -> startsWithDecimalDigit rest = false ->
  JS.parseDigits 10 (Some a) (ds ++ rest) = Some (decimalValueFrom a ds).
Proof.
  revert a. induction ds as [|c ds IH]; intros a D R.
  - rewrite append_nil. cbn [decimalValueFrom]. destruct rest as [|c r]; [reflexivity|].
    cbn [startsWithDecimalDigit] in R. cbn [JS.parseDigits].
    now rewrite (digitValue_not_decimal c R).
  - cbn [allDecimalDigits] in D. apply andb_true_iff in D as [Dc D].
    rewrite append_cons. cbn [JS.parseDigits decimalValueFrom].
    rewrite (digitValue_decimal c Dc). cbn [default]. now apply IH.
Qed.

(** A string that opens with the decimal digits of a positive integer is
    read as that integer, whatever follows the digits. *)
Lemma parseInt_decimal_prefix (ds rest : string) :
  allDecimalDigits ds = true -> 0 < decimalValue ds ->
  startsWithDecimalDigit rest = false ->
  JS.parseInt (ds ++ rest) = Some (decimalValue ds).
Proof.
  intros D P R. destruct ds as [|c ds]; [cbn in P; lia|].
  cbn [allDecimalDigits] in D. apply andb_true_iff in D as [Dc D].
  pose proof (proj1 (isDecimalDigit_range c) Dc) as Rc.
  unfold JS.parseInt. rewrite append_cons. cbn [JS.trimStart].
  rewrite (decimal_not_whitespace c Dc). cbn [JS.stripSign].
  rewrite (eqb_other_code c "-") by (change (JS.codeUnit "-") with 45; lia).
  rewrite (eqb_other_code c "+") by (change (JS.codeUnit "+") with 43; lia).
  assert (H : JS.stripHexPrefix (String c (ds ++ rest)%string)
              = (10, String c (ds ++ rest)%string)).
  { unfold JS.stripHexPrefix. destruct (ds ++ rest)%string as [|b r] eqn:E; [reflexivity|].
    destruct (Ascii.eqb_spec c "0") as [->|]; [|reflexivity]. cbn [andb].
    destruct ds as [|b' ds'].
    - vm_compute in P. discriminate P.
    - rewrite append_cons in E. injection E as <- _.
      cbn [allDecimalDigits] in D. apply andb_true_iff in D as [Db _].
      apply isDecimalDigit_range in Db.
      rewrite (eqb_other_code b' "x") by (change (JS.codeUnit "x") with 120; lia).
      rewrite (eqb_other_code b' "X") by (change (JS.codeUnit "X") with 88; lia).
      reflexivity. }
  rewrite H. cbn [JS.parseDigits]. rewrite (digitValue_decimal c Dc). cbn [default].
  rewrite (parseDigits_decimal ds rest _ D R).
  unfold decimalValue. cbn [decimalValueFrom]. f_equal. lia.
Qed.

Lemma append_empty (s : string) : (s ++ "")%string = s.
Proof.
  induction s as [|c s IH]; [reflexivity|].
  now rewrite append_cons, IH.
Qed.

Lemma parseInt_decimal (ds : string) :
  allDecimalDigits ds = true -> 0 < decimalValue ds ->
  JS.parseInt ds = Some (decimalValue ds).
Proof.
  intros D P. rewrite <- (append_empty ds) at 1.
  now apply parseInt_decimal_prefix.
Qed.

(** ** The id of the routes *)

Lemma get_donation_route_invalid (s : string) (w : World) :
  fst (get_donation_route s w) = invalidId <-> noPositiveInteger s.
Proof.
  unfold get_donation_route, noPositiveInteger.
  destruct (JS.parseInt s) as [n|]; [|cbn; split; auto].
  destruct (Z.leb_spec n 0) as [L|L].
  - cbn. split; eauto.
  - split.
    + destruct (getDonationById n w) as [[[r|]|msg] w1]; cbn; discriminate.
    + intros [H|(m & [= <-] & H)]; [discriminate H|lia].
Qed.

Lemma delete_donation_route_invalid (s : string) (w : World) :
  fst (delete_donation_route s w) = invalidId <-> noPositiveInteger s.
Proof.
  unfold delete_donation_route, noPositiveInteger.
  destruct (JS.parseInt s) as [n|]; [|cbn; split; auto].
  destruct (Z.leb_spec n 0) as [L|L].
  - cbn. split; eauto.
  - split.
    + destruct (getDonationById n w) as [[[r|]|msg] w1]; cbn; try discriminate.
      destruct (deleteDonation n w1) as [[[|]|msg] w2]; cbn; discriminate.
    + intros [H|(m & [= <-] & H)]; [discriminate H|lia].
Qed.

Lemma put_donation_invalid (rt : Runtime) (now : Z) (s : string) (body : JS.Value)
    (w : World) :
  fst (put_donation rt now s body w) = invalidId <-> noPositiveInteger s.
Proof.
  unfold put_donation, noPositiveInteger.
  destruct (JS.parseInt s) as [n|]; [|cbn; split; auto].
  destruct (Z.leb_spec n 0) as [L|L].
  - cbn. split; eauto.
  - split.
    + destruct (UpdateDonationSchema rt body) as [u|issues]; [|cbn; discriminate].
      destruct (getDonationById n w) as [[[r|]|msg] w1]; cbn; try discriminate.
      destruct (updateDonation now n u w1) as [[[r'|]|msg] w2]; cbn; discriminate.
    + intros [H|(m & [= <-] & H)]; [discriminate H|lia].
Qed.

Lemma get_donation_route_invalid_world (s : string) (w : World) :
  noPositiveInteger s -> get_donation_route s w = (invalidId, w).
Proof.
  unfold get_donation_route. intros [->|(n & -> & L)]; [reflexivity|].
  apply Z.leb_le in L. now rewrite L.
Qed.

(** C3 (amended). The route of get-by-id answers an id for which parseInt
    gives NaN or a number that is not positive with the invalid-id
    outcome (400), and an id for which parseInt gives a positive integer
    that no record has with the not-found outcome (404), the medium
    serving the call; the two outcomes differ in status and message, and
    neither changes the world. *)
Theorem C3_invalid_id_distinct_from_not_found :
  (forall s w, noPositiveInteger s -> get_donation_route s w = (invalidId, w))
  /\ (forall s n w,
        JS.parseInt s = Some n -> 0 < n -> medium w = [] -> rows w !! n = None ->
        get_donation_route s w = (notFound, w))
  /\ status invalidId = 400 /\ status notFound = 404
  /\ invalidId <> notFound.
Proof.
  split; [exact get_donation_route_invalid_world|].
  split; [|repeat split; discriminate].
  intros s n w P L H N. unfold get_donation_route.
  rewrite P. apply Z.leb_gt in L. rewrite L.
  now rewrite (getDonationById_healthy n w H), N.
Qed.

Lemma C3_invalid_id_distinct_from_not_found_witness :
  noPositiveInteger "abc" /\ noPositiveInteger "-3"
  /\ get_donation_route "abc" emptyWorld = (invalidId, emptyWorld)
  /\ get_donation_route "-3" emptyWorld = (invalidId, emptyWorld)
  /\ JS.parseInt "42" = Some 42 /\ 0 < 42
  /\ medium (smithWorld 100) = [] /\ rows (smithWorld 100) !! 42 = None
  /\ get_donation_route "42" (smithWorld 100) = (notFound, smithWorld 100).
Proof.
  destruct C3_invalid_id_distinct_from_not_found as (A & B & _).
  assert (N1 : noPositiveInteger "abc") by (left; reflexivity).
  assert (N2 : noPositiveInteger "-3")
    by (right; exists (-3); split; [reflexivity|lia]).
  assert (R : rows (smithWorld 100) !! 42 = None) by (vm_compute; reflexivity).
  split; [exact N1|]. split; [exact N2|].
  split; [exact (A "abc" emptyWorld N1)|].
  split; [exact (A "-3" emptyWorld N2)|].
  split; [reflexivity|]. split; [lia|]. split; [reflexivity|]. split; [exact R|].
  apply (B "42" 42 (smithWorld 100) eq_refl); [lia|reflexivity|exact R].
Defined.

(** C3, as stated, fails: "1.5" is not an integer, and the route answers
    it with record 1; the store's own get-by-id takes a negative id and
    resolves with no record, as for any absent id. *)
Lemma C3_non_integer_id_is_served :
  fst (get_donation_route "1.5" (smithWorld 100))
  = {| status := 200; success := true; data := Some (smithRow 100);
       message := Some "Donation retrieved successfully"; errors := None |}
  /\ fst (get_donation_route "1.5" emptyWorld) = notFound
  /\ fst (getDonationById (-1) emptyWorld) = Resolved None.
Proof. repeat split; vm_compute; reflexivity. Qed.

Section IdClaims.
Variable rt : Runtime.

(** C9. The routes read the id with parseInt.  An id that opens with the
    decimal digits of a positive integer (within the integers a double
    holds exactly) and goes on with anything that is not a digit is taken
    as that integer: get-by-id, update and delete answer it, and change
    the table, as they do for the digits alone, and never with the
    invalid-id outcome.  On a medium that serves the calls they work on
    the record of that integer: get-by-id returns it, delete removes it,
    update writes the merge of the payload into it, and all three answer
    404 when there is no such record.  Each route gives the invalid-id
    outcome exactly when parseInt finds no integer or one that is not
    positive. *)
Theorem C9_routes_take_the_numeric_prefix :
  (forall ds rest,
     allDecimalDigits ds = true ->
     0 < decimalValue ds <= MAX_SAFE_INTEGER ->
     startsWithDecimalDigit rest = false ->
     JS.parseInt (ds ++ rest) = Some (decimalValue ds)
     /\ (forall w, get_donation_route (ds ++ rest) w = get_donation_route ds w)
     /\ (forall now body w,
           put_donation rt now (ds ++ rest) body w = put_donation rt now ds body w)
     /\ (forall w, delete_donation_route (ds ++ rest) w = delete_donation_route ds w)
     /\ (forall now body w,
           fst (get_donation_route (ds ++ rest) w) <> invalidId
           /\ fst (put_donation rt now (ds ++ rest) body w) <> invalidId
           /\ fst (delete_donation_route (ds ++ rest) w) <> invalidId)
     /\ (forall w r,
           medium w = [] -> rows w !! decimalValue ds = Some r ->
           get_donation_route (ds ++ rest) w
           = ({| status := 200; success := true; data := Some r;
                 message := Some "Donation retrieved successfully";
                 errors := None |}, w)
           /\ delete_donation_route (ds ++ rest) w
              = ({| status := 200; success := true; data := None;
                    message := Some "Donation deleted successfully";
                    errors := None |},
                 {| rows := delete (decimalValue ds) (rows w);
                    sqlite_sequence := sqlite_sequence w;
                    medium := medium w |})
           /\ (forall now body u,
                 UpdateDonationSchema rt body = Zod.OK u ->
                 definedFields u <> [] ->
                 checks (touch now (foldl assign r (definedFields u))) = true ->
                 put_donation rt now (ds ++ rest) body w
                 = ({| status := 200; success := true;
                       data := Some (touch now (foldl assign r (definedFields u)));
                       message := Some "Donation updated successfully";
                       errors := None |},
                    {| rows := <[decimalValue ds :=
                                   touch now (foldl assign r (definedFields u))]>
                                 (rows w);
                       sqlite_sequence := sqlite_sequence w;
                       medium := [] |})))
     /\ (forall w,
           medium w = [] -> rows w !! decimalValue ds = None ->
           get_donation_route (ds ++ rest) w = (notFound, w)
           /\ delete_donation_route (ds ++ rest) w = (notFound, w)
           /\ (forall now body u,
                 UpdateDonationSchema rt body = Zod.OK u ->
                 put_donation rt now (ds ++ rest) body w = (notFound, w))))
  /\ (forall s now body w,
        (fst (get_donation_route s w) = invalidId <-> noPositiveInteger s)
        /\ (fst (put_donation rt now s body w) = invalidId <-> noPositiveInteger s)
        /\ (fst (delete_donation_route s w) = invalidId <-> noPositiveInteger s)).
Proof.
  split.
  - intros ds rest D [P _] R.
    pose proof (parseInt_decimal_prefix ds rest D P R) as E.
    pose proof (parseInt_decimal ds D P) as E'.
    assert (N : ~ noPositiveInteger (ds ++ rest)).
    { intros [H|(n & H & L)]; rewrite E in H; [discriminate H|].
      injection H as <-. lia. }
    split; [exact E|].
    split; [intros w; unfold get_donation_route; now rewrite E, E'|].
    split; [intros now body w; unfold put_donation; now rewrite E, E'|].
    split; [intros w; unfold delete_donation_route; now rewrite E, E'|].
    apply Z.leb_gt in P.
    split; [|split].
    + intros now body w. repeat split; intros H; apply N.
      * now apply (get_donation_route_invalid _ w).
      * now apply (put_donation_invalid rt now _ body w).
      * now apply (delete_donation_route_invalid _ w).
    + intros w r H L. split; [|split].
      * unfold get_donation_route. rewrite E, P.
        now rewrite (getDonationById_healthy _ w H), L.
      * unfold delete_donation_route. rewrite E, P.
        rewrite (getDonationById_healthy _ w H), L.
        now rewrite (deleteDonation_healthy _ w H), L.
      * intros now body u V F C. unfold put_donation. rewrite E, P, V.
        rewrite (getDonationById_healthy _ w H), L.
        now rewrite (updateDonation_healthy now _ u w r H L F C).
    + intros w H L. split; [|split].
      * unfold get_donation_route. rewrite E, P.
        now rewrite (getDonationById_healthy _ w H), L.
      * unfold delete_donation_route. rewrite E, P.
        now rewrite (getDonationById_healthy _ w H), L.
      * intros now body u V. unfold put_donation. rewrite E, P, V.
        now rewrite (getDonationById_healthy _ w H), L.
  - intros s now body w. split; [|split].
    + apply get_donation_route_invalid.
    + apply put_donation_invalid.
    + apply delete_donation_route_invalid.
Qed.

End IdClaims.

Lemma C9_routes_take_the_numeric_prefix_witness :
  allDecimalDigits "1" = true
  /\ 0 < decimalValue "1" <= MAX_SAFE_INTEGER
  /\ startsWithDecimalDigit "abc" = false
  /\ JS.parseInt "1abc" = Some 1
  /\ get_donation_route "1abc" (smithWorld 100) = get_donation_route "1" (smithWorld 100)
  /\ fst (delete_donation_route "1abc" (smithWorld 100)) <> invalidId
  /\ medium (smithWorld 100) = []
  /\ rows (smithWorld 100) !! 1 = Some (smithRow 100)
  /\ fst (get_donation_route "1abc" (smithWorld 100))
     = {| status := 200; success := true; data := Some (smithRow 100);
          message := Some "Donation retrieved successfully"; errors := None |}
  /\ rows (snd (delete_donation_route "1abc" (smithWorld 100))) !! 1 = None
  /\ UpdateDonationSchema exampleRuntime (JS.Object [("quantity", JS.Number (20 # 1))])
     = Zod.OK quantityUpdate
  /\ definedFields quantityUpdate <> []
  /\ checks (touch 160 (foldl assign (smithRow 100) (definedFields quantityUpdate))) = true
  /\ fst (put_donation exampleRuntime 160 "1abc"
            (JS.Object [("quantity", JS.Number (20 # 1))]) (smithWorld 100))
     = {| status := 200; success := true; data := Some (smithRowUpdated 100 160);
          message := Some "Donation updated successfully"; errors := None |}
  /\ rows (snd (put_donation exampleRuntime 160 "1abc"
                  (JS.Object [("quantity", JS.Number (20 # 1))]) (smithWorld 100))) !! 1
     = Some (smithRowUpdated 100 160)
  /\ allDecimalDigits "42" = true
  /\ 0 < decimalValue "42" <= MAX_SAFE_INTEGER
  /\ startsWithDecimalDigit ".5" = false
  /\ rows (smithWorld 100) !! decimalValue "42" = None
  /\ put_donation exampleRuntime 160 "42.5"
       (JS.Object [("quantity", JS.Number (20 # 1))]) (smithWorld 100)
     = (notFound, smithWorld 100).
Proof.
  assert (P : 0 < decimalValue "1" <= MAX_SAFE_INTEGER)
    by (change (decimalValue "1") with 1; unfold MAX_SAFE_INTEGER; lia).
  assert (P' : 0 < decimalValue "42" <= MAX_SAFE_INTEGER)
    by (change (decimalValue "42") with 42; unfold MAX_SAFE_INTEGER; lia).
  assert (L : rows (smithWorld 100) !! decimalValue "1" = Some (smithRow 100))
    by (vm_compute; reflexivity).
  assert (L' : rows (smithWorld 100) !! decimalValue "42" = None)
    by (vm_compute; reflexivity).
  assert (V : UpdateDonationSchema exampleRuntime
                (JS.Object [("quantity", JS.Number (20 # 1))])
              = Zod.OK quantityUpdate) by (vm_compute; reflexivity).
  assert (F : definedFields quantityUpdate <> []) by discriminate.
  assert (C : checks (touch 160 (foldl assign (smithRow 100)
                                   (definedFields quantityUpdate))) = true)
    by (vm_compute; reflexivity).
  destruct (proj1 (C9_routes_take_the_numeric_prefix exampleRuntime)
              "1" "abc" eq_refl P eq_refl) as (A & B & _ & _ & I & D & _).
  destruct (D (smithWorld 100) (smithRow 100) eq_refl L) as (G & X & U).
  pose proof (U 160 (JS.Object [("quantity", JS.Number (20 # 1))]) quantityUpdate
                V F C) as U'.
  destruct (proj1 (C9_routes_take_the_numeric_prefix exampleRuntime)
              "42" ".5" eq_refl P' eq_refl) as (_ & _ & _ & _ & _ & _ & N).
  destruct (N (smithWorld 100) eq_refl L') as (_ & _ & N').
  split; [reflexivity|]. split; [exact P|]. split; [reflexivity|].
  split; [exact A|]. split; [exact (B (smithWorld 100))|].
  split; [exact (proj2 (proj2 (I 0 JS.Null (smithWorld 100))))|].
  split; [reflexivity|]. split; [exact L|].
  split; [exact (f_equal fst G)|].
  split; [change ("1abc") with ("1" ++ "abc")%string; rewrite X;
          vm_compute; reflexivity|].
  split; [exact V|]. split; [exact F|]. split; [exact C|].
  split; [exact (f_equal fst U')|].
  split; [change ("1abc") with ("1" ++ "abc")%string; rewrite U';
          vm_compute; reflexivity|].
  split; [reflexivity|]. split; [exact P'|]. split; [reflexivity|].
  split; [exact L'|].
  exact (N' 160 (JS.Object [("quantity", JS.Number (20 # 1))]) quantityUpdate V).
Defined.

(** ** The scenarios of the specification, run on the model *)

Example parseInt_examples :
  JS.parseInt "7abc" = Some 7 /\ JS.parseInt "1.5" = Some 1
  /\ JS.parseInt "abc" = None /\ JS.parseInt " -12" = Some (-12)
  /\ JS.parseInt "0x1F" = Some 31 /\ JS.parseInt "" = None
  /\ JS.parseInt "-" = None /\ JS.parseInt "007" = Some 7.
Proof. repeat split; reflexivity. Qed.

Example scenario_A_create :
  fst (post_donations exampleRuntime 100 smithBody emptyWorld)
  = {| status := 201; success := true; data := Some (smithRow 100);
       message := Some "Donation created successfully"; errors := None |}
  /\ id (smithRow 100) = 1
  /\ created_at (smithRow 100) = 100 /\ updated_at (smithRow 100) = 100.
Proof. repeat split; vm_compute; reflexivity. Qed.

Example scenario_B_update :
  fst (put_donation exampleRuntime 160 "1"
         (JS.Object [("quantity", JS.Number (20 # 1))]) (smithWorld 100))
  = {| status := 200; success := true; data := Some (smithRowUpdated 100 160);
       message := Some "Donation updated successfully"; errors := None |}.
Proof. vm_compute. reflexivity. Qed.

Example scenario_C_short_name :
  CreateDonationSchema exampleRuntime shortNameBody
  = Zod.INVALID
      [{| Zod.code := "too_small"; Zod.path := ["donor_name"];
          Zod.message := "Donor name must be at least 2 characters" |}].
Proof. vm_compute. reflexivity. Qed.

Example scenario_D_delete_then_get :
  fst (deleteDonation 1 (smithWorld 100)) = Resolved true
  /\ fst (getDonationById 1 (snd (deleteDonation 1 (smithWorld 100)))) = Resolved None
  /\ fst (get_donation_route "1" (snd (deleteDonation 1 (smithWorld 100)))) = notFound.
Proof. repeat split; vm_compute; reflexivity. Qed.

(** Validation reports every field that fails, not the first one only. *)
Example validation_reports_all_fields :
  errors (fst (post_donations exampleRuntime 0
                 (donationBody "X" "cash" (0 # 1) "yesterday") emptyWorld))
  = Some ["donor_name: Donor name must be at least 2 characters";
          "donation_type: invalid_enum_value";
          "quantity: Quantity must be a positive number";
          "date: Please provide a valid date"].
Proof. vm_compute. reflexivity. Qed.

(** The length of a donor_name is checked on the string as it came, and
    the string is trimmed afterwards. *)
Example length_checked_before_trim :
  CreateDonationSchema exampleRuntime paddedNameBody = Zod.OK paddedNameInput
  /\ String.length (new_donor_name paddedNameInput) = 1%nat
  /\ String.length (JS.trim (longName ++ " ")) = 101%nat
  /\ String.length (JS.trim ("  " ++ "Smith" ++ longName ++ "  ")) = 106%nat
  /\ exists issues,
       donor_name_schema exampleRuntime ["donor_name"]
         (Some (JS.Str ("ab" ++ String.substring 0 97 longName ++ "    ")))
       = Zod.INVALID issues
       /\ String.length
            (JS.trim ("ab" ++ String.substring 0 97 longName ++ "    ")) = 99%nat.
Proof.
  split; [vm_compute; reflexivity|]. split; [reflexivity|].
  split; [vm_compute; reflexivity|]. split; [vm_compute; reflexivity|].
  eexists. split; vm_compute; reflexivity.
Qed.

(** * Further properties of the code *)

(** ** The field rules of the schemas *)

Lemma Qle_bool_false_iff (a b : Q) : Qle_bool a b = false <-> (b < a)%Q.
Proof.
  rewrite <- not_true_iff_false, Qle_bool_iff. split.
  - apply Qnot_le_lt.
  - apply Qlt_not_le.
Qed.

Section FieldRules.
Variable rt : Runtime.

Lemma quantity_schema_OK (p : list string) (input : option JS.Value) (q : Q) :
  quantity_schema rt p input = Zod.OK q <->
  input = Some (JS.Number q) /\ (0 < q)%Q /\ (q <= 1000000 # 1)%Q.
Proof.
  unfold quantity_schema, Zod.zNumber.
  destruct input as [[| |x| | |]|];
    try (split; [discriminate|intros [E _]; discriminate E]).
  cbn [Zod.runNumberChecks].
  destruct (Qle_bool x 0) eqn:A; destruct (Qle_bool x (1000000 # 1)) eqn:B.
  - split; [discriminate|]. intros ([= ->] & L & _).
    apply Qle_bool_false_iff in L. congruence.
  - split; [discriminate|]. intros ([= ->] & L & _).
    apply Qle_bool_false_iff in L. congruence.
  - apply Qle_bool_false_iff in A. apply Qle_bool_iff in B.
    split; [intros [= ->]; auto|intros ([= ->] & _); reflexivity].
  - split; [discriminate|]. intros ([= ->] & _ & L).
    apply Qle_bool_iff in L. congruence.
Qed.

Lemma donation_type_schema_OK (p : list string) (input : option JS.Value) (t : string) :
  donation_type_schema rt p input = Zod.OK t <->
  input = Some (JS.Str t) /\ t ∈ DonationTypeValues.
Proof.
  unfold donation_type_schema, Zod.zEnum.
  destruct input as [[| | |s| |]|];
    try (split; [discriminate|intros [E _]; discriminate E]).
  destruct (bool_decide (s ∈ DonationTypeValues)) eqn:B.
  - apply bool_decide_eq_true in B.
    split; [intros [= ->]; auto|intros ([= ->] & _); reflexivity].
  - apply bool_decide_eq_false in B.
    split; [discriminate|intros ([= ->] & H); contradiction].
Qed.

Lemma date_schema_OK (p : list string) (input : option JS.Value) (d : string) :
  date_schema rt p input = Zod.OK d <->
  input = Some (JS.Str d) /\ is_Some (Date_parse rt d).
Proof.
  unfold date_schema, Zod.refine, Zod.zString.
  destruct input as [[| | |s| |]|];
    try (split; [discriminate|intros [E _]; discriminate E]).
  cbn [Zod.runStringChecks].
  destruct (bool_decide (is_Some (Date_parse rt s))) eqn:B.
  - apply bool_decide_eq_true in B.
    split; [intros [= ->]; auto|intros ([= ->] & _); reflexivity].
  - apply bool_decide_eq_false in B.
    split; [discriminate|intros ([= ->] & H); contradiction].
Qed.

Lemma donor_name_schema_OK_iff (p : list string) (input : option JS.Value) (n : string) :
  donor_name_schema rt p input = Zod.OK n <->
  exists s, input = Some (JS.Str s) /\ n = JS.trim s
            /\ (2 <= String.length s <= 100)%nat.
Proof.
  split; [apply donor_name_schema_OK|].
  intros (s & -> & -> & L). rewrite donor_name_schema_Str.
  destruct (Z.leb_spec 2 (Z.of_nat (String.length s))); [|lia].
  destruct (Z.leb_spec (Z.of_nat (String.length s)) 100); [|lia].
  reflexivity.
Qed.

(** X1. The rules of the four fields, as the schemas apply them to a
    value: a quantity is accepted exactly when it is a number above 0 and
    at most 1,000,000 (the bound itself included); a donation_type exactly
    when it is one of the seven strings; a date exactly when it is a
    string Date.parse reads; a donor_name exactly when it is a string of 2
    to 100 characters, and it is handed on trimmed.  Anything else,
    a missing value included, is rejected. *)
Theorem X1_field_rules :
  (forall p input q,
     quantity_schema rt p input = Zod.OK q <->
     input = Some (JS.Number q) /\ (0 < q)%Q /\ (q <= 1000000 # 1)%Q)
  /\ (forall p input t,
        donation_type_schema rt p input = Zod.OK t <->
        input = Some (JS.Str t) /\ t ∈ DonationTypeValues)
  /\ (forall p input d,
        date_schema rt p input = Zod.OK d <->
        input = Some (JS.Str d) /\ is_Some (Date_parse rt d))
  /\ (forall p input n,
        donor_name_schema rt p input = Zod.OK n <->
        exists s, input = Some (JS.Str s) /\ n = JS.trim s
                  /\ (2 <= String.length s <= 100)%nat)
  /\ quantity_schema rt ["quantity"] (Some (JS.Number (1000000 # 1)))
     = Zod.OK (1000000 # 1)
  /\ (exists issues,
        quantity_schema rt ["quantity"] (Some (JS.Number (0 # 1))) = Zod.INVALID issues)
  /\ (exists issues,
        quantity_schema rt ["quantity"] (Some (JS.Number (1000001 # 1)))
        = Zod.INVALID issues).
Proof.
  split; [exact quantity_schema_OK|]. split; [exact donation_type_schema_OK|].
  split; [exact date_schema_OK|]. split; [exact donor_name_schema_OK_iff|].
  split; [reflexivity|]. split; eexists; reflexivity.
Qed.

End FieldRules.

(** ** The schemas of the two bodies *)

Section ObjectSchemas.
Variable rt : Runtime.

Lemma optional_OK {A} (schema : list string -> option JS.Value -> Zod.ParseReturn A)
    (p : list string) (input : option JS.Value) (o : option A) :
  Zod.optional schema p input = Zod.OK o <-> patchedBy schema p input o.
Proof.
  unfold Zod.optional, patchedBy. destruct input as [x|].
  - destruct (schema p (Some x)) as [v|issues].
    + split; [intros [= <-]; eauto|intros (v' & [= <-] & ->); reflexivity].
    + split; [discriminate|intros (v' & E & _); discriminate E].
  - split; [intros [= <-]; reflexivity|intros ->; reflexivity].
Qed.

(** X2. The create schema accepts a body exactly when each of the four
    fields passes its rule, and it does not stop at the first field that
    fails: the issues of a rejected body are those of the four fields put
    together, in the order donor_name, donation_type, quantity, date.  A
    key that is missing is reported under its own path, and a body that
    is no object is rejected with one issue at the root. *)
Theorem X2_create_schema_reports_every_field :
  (forall fields d,
     CreateDonationSchema rt (JS.Object fields) = Zod.OK d <->
     donor_name_schema rt ["donor_name"] (JS.getField "donor_name" fields)
       = Zod.OK (new_donor_name d)
     /\ donation_type_schema rt ["donation_type"] (JS.getField "donation_type" fields)
       = Zod.OK (new_donation_type d)
     /\ quantity_schema rt ["quantity"] (JS.getField "quantity" fields)
       = Zod.OK (new_quantity d)
     /\ date_schema rt ["date"] (JS.getField "date" fields) = Zod.OK (new_date d))
  /\ (forall fields issues,
        CreateDonationSchema rt (JS.Object fields) = Zod.INVALID issues ->
        issues
        = Zod.issuesOf (donor_name_schema rt ["donor_name"]
                          (JS.getField "donor_name" fields))
          ++ Zod.issuesOf (donation_type_schema rt ["donation_type"]
                             (JS.getField "donation_type" fields))
          ++ Zod.issuesOf (quantity_schema rt ["quantity"]
                             (JS.getField "quantity" fields))
          ++ Zod.issuesOf (date_schema rt ["date"] (JS.getField "date" fields)))
  /\ (forall fields k,
        k ∈ knownKeys -> JS.getField k fields = None ->
        exists issues,
          CreateDonationSchema rt (JS.Object fields) = Zod.INVALID issues
          /\ exists i, i ∈ issues /\ Zod.path i = [k] /\ Zod.code i = "invalid_type")
  /\ (forall body,
        (forall fields, body <> JS.Object fields) ->
        exists i, CreateDonationSchema rt body = Zod.INVALID [i]
                  /\ Zod.path i = [] /\ Zod.code i = "invalid_type").
Proof.
  split; [|split; [|split]].
  - intros fields d. split; [apply CreateDonationSchema_OK|].
    intros (A & B & C & D). unfold CreateDonationSchema. cbv zeta.
    rewrite A, B, C, D. now destruct d.
  - intros fields issues. unfold CreateDonationSchema. cbv zeta.
    destruct (donor_name_schema rt _ _), (donation_type_schema rt _ _),
      (quantity_schema rt _ _), (date_schema rt _ _);
      first [discriminate | intros [= <-]; reflexivity].
  - intros fields k K N. unfold knownKeys in K.
    repeat (apply elem_of_cons in K as [->|K]); [| | | |inversion K];
      unfold CreateDonationSchema; cbv zeta; rewrite N.
    + change (donor_name_schema rt ["donor_name"] None)
        with (@Zod.invalidType rt string ["donor_name"] None).
      unfold Zod.invalidType.
      eexists. split; [reflexivity|].
      exists {| Zod.code := "invalid_type"; Zod.path := ["donor_name"];
                Zod.message := zodDefaultMessage rt "invalid_type" None |}.
      split; [|split; reflexivity]. cbn [Zod.issuesOf]. set_solver.
    + change (donation_type_schema rt ["donation_type"] None)
        with (@Zod.invalidType rt string ["donation_type"] None).
      unfold Zod.invalidType.
      destruct (donor_name_schema rt _ _);
        (eexists; split; [reflexivity|];
         exists {| Zod.code := "invalid_type"; Zod.path := ["donation_type"];
                   Zod.message := zodDefaultMessage rt "invalid_type" None |};
         split; [|split; reflexivity]); cbn [Zod.issuesOf]; set_solver.
    + change (quantity_schema rt ["quantity"] None)
        with (@Zod.invalidType rt Q ["quantity"] None).
      unfold Zod.invalidType.
      destruct (donor_name_schema rt _ _), (donation_type_schema rt _ _);
        (eexists; split; [reflexivity|];
         exists {| Zod.code := "invalid_type"; Zod.path := ["quantity"];
                   Zod.message := zodDefaultMessage rt "invalid_type" None |};
         split; [|split; reflexivity]); cbn [Zod.issuesOf]; set_solver.
    + change (date_schema rt ["date"] None)
        with (@Zod.invalidType rt string ["date"] None).
      unfold Zod.invalidType.
      destruct (donor_name_schema rt _ _), (donation_type_schema rt _ _),
        (quantity_schema rt _ _);
        (eexists; split; [reflexivity|];
         exists {| Zod.code := "invalid_type"; Zod.path := ["date"];
                   Zod.message := zodDefaultMessage rt "invalid_type" None |};
         split; [|split; reflexivity]); cbn [Zod.issuesOf]; set_solver.
  - intros body N. destruct body; try (eexists; repeat split; reflexivity).
    now destruct (N fields).
Qed.

Lemma UpdateDonationSchema_OK (fields : list (string * JS.Value)) (u : UpdateDonationInput) :
  UpdateDonationSchema rt (JS.Object fields) = Zod.OK u <->
  patchedBy (donor_name_schema rt) ["donor_name"]
    (JS.getField "donor_name" fields) (upd_donor_name u)
  /\ patchedBy (donation_type_schema rt) ["donation_type"]
       (JS.getField "donation_type" fields) (upd_donation_type u)
  /\ patchedBy (quantity_schema rt) ["quantity"]
       (JS.getField "quantity" fields) (upd_quantity u)
  /\ patchedBy (date_schema rt) ["date"] (JS.getField "date" fields) (upd_date u).
Proof.
  rewrite <- !optional_OK. unfold UpdateDonationSchema. cbv zeta. split.
  - destruct (Zod.optional (donor_name_schema rt) _ _); [|discriminate].
    destruct (Zod.optional (donation_type_schema rt) _ _); [|discriminate].
    destruct (Zod.optional (quantity_schema rt) _ _); [|discriminate].
    destruct (Zod.optional (date_schema rt) _ _); [|discriminate].
    intros [= <-]. cbn. auto.
  - intros (A & B & C & D). rewrite A, B, C, D. now destruct u.
Qed.

(** X3. The update schema takes each of the four keys on its own: of a
    key the body does not have the result has nothing, and a key the body
    has must pass the rule the create schema has for it.  So every field
    of an accepted update is within its rule, and a key given as null is
    not an absent key: the body is rejected. *)
Theorem X3_update_schema_validates_supplied_fields :
  (forall fields u,
     UpdateDonationSchema rt (JS.Object fields) = Zod.OK u <->
     patchedBy (donor_name_schema rt) ["donor_name"]
       (JS.getField "donor_name" fields) (upd_donor_name u)
     /\ patchedBy (donation_type_schema rt) ["donation_type"]
          (JS.getField "donation_type" fields) (upd_donation_type u)
     /\ patchedBy (quantity_schema rt) ["quantity"]
          (JS.getField "quantity" fields) (upd_quantity u)
     /\ patchedBy (date_schema rt) ["date"] (JS.getField "date" fields) (upd_date u))
  /\ (forall fields u,
        UpdateDonationSchema rt (JS.Object fields) = Zod.OK u ->
        (forall n, upd_donor_name u = Some n ->
           exists s, JS.getField "donor_name" fields = Some (JS.Str s)
                     /\ n = JS.trim s /\ (2 <= String.length s <= 100)%nat)
        /\ (forall t, upd_donation_type u = Some t -> t ∈ DonationTypeValues)
        /\ (forall q, upd_quantity u = Some q -> (0 < q)%Q /\ (q <= 1000000 # 1)%Q)
        /\ (forall d, upd_date u = Some d -> is_Some (Date_parse rt d)))
  /\ (forall fields k,
        k ∈ knownKeys -> JS.getField k fields = Some JS.Null ->
        exists issues, UpdateDonationSchema rt (JS.Object fields) = Zod.INVALID issues).
Proof.
  split; [exact UpdateDonationSchema_OK|]. split.
  - intros fields u H. apply UpdateDonationSchema_OK in H as (A & B & C & D).
    unfold patchedBy in *. split; [|split; [|split]].
    + intros n E. rewrite E in A.
      destruct (JS.getField "donor_name" fields) as [x|]; [|discriminate A].
      destruct A as (v & A & [= <-]).
      apply donor_name_schema_OK in A as (s & [= ->] & T & L). eauto.
    + intros t E. rewrite E in B.
      destruct (JS.getField "donation_type" fields) as [x|]; [|discriminate B].
      destruct B as (v & B & [= <-]). now apply donation_type_schema_OK in B.
    + intros q E. rewrite E in C.
      destruct (JS.getField "quantity" fields) as [x|]; [|discriminate C].
      destruct C as (v & C & [= <-]). now apply quantity_schema_OK in C.
    + intros d E. rewrite E in D.
      destruct (JS.getField "date" fields) as [x|]; [|discriminate D].
      destruct D as (v & D & [= <-]). now apply date_schema_OK in D.
  - intros fields k K N.
    destruct (UpdateDonationSchema rt (JS.Object fields)) as [u|issues] eqn:E;
      [|eauto].
    apply UpdateDonationSchema_OK in E as (A & B & C & D).
    unfold knownKeys in K. unfold patchedBy in *.
    repeat (apply elem_of_cons in K as [->|K]); [| | | |inversion K].
    + rewrite N in A. destruct A as (v & A & _). discriminate A.
    + rewrite N in B. destruct B as (v & B & _). discriminate B.
    + rewrite N in C. destruct C as (v & C & _). discriminate C.
    + rewrite N in D. destruct D as (v & D & _). discriminate D.
Qed.

End ObjectSchemas.

Lemma X2_create_schema_reports_every_field_witness :
  CreateDonationSchema exampleRuntime
    (JS.Object (donationFields "X" "cash" (0 # 1) "yesterday"))
  = Zod.INVALID
      [{| Zod.code := "too_small"; Zod.path := ["donor_name"];
          Zod.message := "Donor name must be at least 2 characters" |};
       {| Zod.code := "invalid_enum_value"; Zod.path := ["donation_type"];
          Zod.message := "invalid_enum_value" |};
       {| Zod.code := "too_small"; Zod.path := ["quantity"];
          Zod.message := "Quantity must be a positive number" |};
       {| Zod.code := "custom"; Zod.path := ["date"];
          Zod.message := "Please provide a valid date" |}]
  /\ ("date" ∈ knownKeys)
  /\ JS.getField "date" [("donor_name", JS.Str "Smith")] = None
  /\ (exists issues,
        CreateDonationSchema exampleRuntime (JS.Object [("donor_name", JS.Str "Smith")])
        = Zod.INVALID issues
        /\ exists i, i ∈ issues /\ Zod.path i = ["date"] /\ Zod.code i = "invalid_type")
  /\ (forall fields, JS.Null <> JS.Object fields)
  /\ exists i, CreateDonationSchema exampleRuntime JS.Null = Zod.INVALID [i]
               /\ Zod.path i = [] /\ Zod.code i = "invalid_type".
Proof.
  destruct (X2_create_schema_reports_every_field exampleRuntime) as (_ & B & C & D).
  assert (K : "date" ∈ knownKeys)
    by (apply (bool_decide_unpack _); vm_compute; exact I).
  assert (N : forall fields, JS.Null <> JS.Object fields) by discriminate.
  split.
  - assert (E : exists issues,
        CreateDonationSchema exampleRuntime
          (JS.Object (donationFields "X" "cash" (0 # 1) "yesterday"))
        = Zod.INVALID issues) by (eexists; vm_compute; reflexivity).
    destruct E as (issues & E). rewrite E. f_equal.
    rewrite (B _ _ E). vm_compute. reflexivity.
  - split; [exact K|]. split; [reflexivity|].
    split; [exact (C [("donor_name", JS.Str "Smith")] "date" K eq_refl)|].
    split; [exact N|]. exact (D JS.Null N).
Defined.

Lemma X3_update_schema_validates_supplied_fields_witness :
  UpdateDonationSchema exampleRuntime (JS.Object [("quantity", JS.Number (20 # 1))])
  = Zod.OK quantityUpdate
  /\ (0 < 20 # 1)%Q /\ (20 # 1 <= 1000000 # 1)%Q
  /\ ("quantity" ∈ knownKeys)
  /\ JS.getField "quantity" [("quantity", JS.Null)] = Some JS.Null
  /\ exists issues,
       UpdateDonationSchema exampleRuntime (JS.Object [("quantity", JS.Null)])
       = Zod.INVALID issues.
Proof.
  destruct (X3_update_schema_validates_supplied_fields exampleRuntime) as (_ & B & C).
  assert (E : UpdateDonationSchema exampleRuntime
                (JS.Object [("quantity", JS.Number (20 # 1))])
              = Zod.OK quantityUpdate) by (vm_compute; reflexivity).
  assert (K : "quantity" ∈ knownKeys)
    by (apply (bool_decide_unpack _); vm_compute; exact I).
  split; [exact E|].
  destruct (B _ _ E) as (_ & _ & Q & _).
  destruct (Q (20 # 1) eq_refl) as [Q1 Q2].
  split; [exact Q1|]. split; [exact Q2|]. split; [exact K|].
  split; [reflexivity|].
  exact (C [("quantity", JS.Null)] "quantity" K eq_refl).
Defined.

(** ** The create route on a medium that serves it *)

Section CreateRoute.
Variable rt : Runtime.

(** X4. What the validator accepts always passes the store's CHECK on
    donation_type and on quantity; only the length of the trimmed name
    can still fail.  So, the medium serving the calls and ids being left,
    POST /donations answers 400 with the violations when the validator
    rejects the body, 201 with the new row, which is then in the table,
    when the accepted name has two characters or more, and 500 with the
    table as it was when it has fewer. *)
Theorem X4_post_outcomes (now : Z) (body : JS.Value) (w : World) :
  medium w = [] -> next_rowid w <= MAX_ROWID ->
  (forall issues,
     CreateDonationSchema rt body = Zod.INVALID issues ->
     post_donations rt now body w = (validationFailed issues, w))
  /\ (forall d,
        CreateDonationSchema rt body = Zod.OK d ->
        check_donation_type (new_donation_type d) = true
        /\ check_quantity (new_quantity d) = true
        /\ (2 <= sql_length (new_donor_name d) ->
            post_donations rt now body w
            = ({| status := 201; success := true;
                  data := Some (newRow (next_rowid w) now d);
                  message := Some "Donation created successfully";
                  errors := None |},
               {| rows := <[next_rowid w := newRow (next_rowid w) now d]> (rows w);
                  sqlite_sequence := next_rowid w;
                  medium := [] |}))
        /\ (sql_length (new_donor_name d) < 2 ->
            post_donations rt now body w
            = (failure 500 "Failed to create donation", w))).
Proof.
  intros H F. split.
  - intros issues E. unfold post_donations. now rewrite E.
  - intros d E.
    assert (T : check_donation_type (new_donation_type d) = true
                /\ check_quantity (new_quantity d) = true).
    { destruct body; try discriminate E.
      apply CreateDonationSchema_OK in E as (_ & B & C & _).
      apply donation_type_schema_OK in B as [_ B].
      apply quantity_schema_OK in C as (_ & C & _).
      unfold check_donation_type, check_quantity. split.
      - now apply bool_decide_eq_true.
      - apply negb_true_iff. now apply Qle_bool_false_iff. }
    destruct T as [T1 T2]. split; [exact T1|]. split; [exact T2|]. split.
    + intros L. unfold post_donations. rewrite E.
      rewrite (createDonation_healthy now d w H F); [reflexivity|].
      unfold checks, check_donor_name.
      cbn [newRow donor_name donation_type quantity].
      rewrite T1, T2. apply Z.leb_le in L. now rewrite L.
    + intros L. unfold post_donations. rewrite E.
      unfold createDonation, insert_donation.
      rewrite engineCall_healthy by assumption. cbv zeta.
      apply Z.ltb_ge in F. rewrite F.
      unfold checks, check_donor_name.
      cbn [newRow donor_name donation_type quantity].
      apply Z.leb_gt in L. rewrite L. reflexivity.
Qed.

End CreateRoute.

Lemma X4_post_outcomes_witness :
  medium emptyWorld = [] /\ next_rowid emptyWorld <= MAX_ROWID
  /\ CreateDonationSchema exampleRuntime smithBody = Zod.OK smithInput
  /\ 2 <= sql_length (new_donor_name smithInput)
  /\ fst (post_donations exampleRuntime 100 smithBody emptyWorld)
     = {| status := 201; success := true; data := Some (smithRow 100);
          message := Some "Donation created successfully"; errors := None |}
  /\ CreateDonationSchema exampleRuntime paddedNameBody = Zod.OK paddedNameInput
  /\ sql_length (new_donor_name paddedNameInput) < 2
  /\ post_donations exampleRuntime 100 paddedNameBody emptyWorld
     = (failure 500 "Failed to create donation", emptyWorld).
Proof.
  assert (F : next_rowid emptyWorld <= MAX_ROWID) by (vm_compute; discriminate).
  assert (E1 : CreateDonationSchema exampleRuntime smithBody = Zod.OK smithInput)
    by (vm_compute; reflexivity).
  assert (E2 : CreateDonationSchema exampleRuntime paddedNameBody = Zod.OK paddedNameInput)
    by (vm_compute; reflexivity).
  assert (L1 : 2 <= sql_length (new_donor_name smithInput)) by (vm_compute; discriminate).
  assert (L2 : sql_length (new_donor_name paddedNameInput) < 2) by (vm_compute; reflexivity).
  split; [reflexivity|]. split; [exact F|]. split; [exact E1|]. split; [exact L1|].
  split.
  - destruct (X4_post_outcomes exampleRuntime 100 smithBody emptyWorld eq_refl F)
      as (_ & A).
    destruct (A smithInput E1) as (_ & _ & A' & _).
    exact (f_equal fst (A' L1)).
  - split; [exact E2|]. split; [exact L2|].
    destruct (X4_post_outcomes exampleRuntime 100 paddedNameBody emptyWorld eq_refl F)
      as (_ & A).
    destruct (A paddedNameInput E2) as (_ & _ & _ & A').
    exact (A' L2).
Defined.

(** ** The id in a path, written by the client and read by the routes *)

Lemma codeUnit_digitChar (d : Z) :
  0 <= d <= 9 -> JS.codeUnit (digitChar d) = 48 + d.
Proof.
  intros H. unfold JS.codeUnit, digitChar.
  rewrite N_ascii_embedding by lia. lia.
Qed.

Lemma decimalDigits_spec (fuel : nat) (n : Z) (acc : string) :
  0 <= n < 2 ^ Z.of_nat fuel ->
  decimalValueFrom 0 (decimalDigits fuel n acc) = decimalValueFrom n acc
  /\ allDecimalDigits (decimalDigits fuel n acc) = allDecimalDigits acc.
Proof.
  revert n acc. induction fuel as [|fuel IH]; intros n acc H.
  - cbn in H. assert (n = 0) as -> by lia. cbn [decimalDigits]. auto.
  - cbn [decimalDigits]. cbv zeta.
    assert (D : 0 <= n mod 10 <= 9) by (pose proof (Z.mod_pos_bound n 10); lia).
    pose proof (codeUnit_digitChar _ D) as C.
    assert (A : isDecimalDigit (digitChar (n mod 10)) = true)
      by (apply isDecimalDigit_range; lia).
    destruct (Z.ltb_spec n 10) as [L|L].
    + cbn [decimalValueFrom allDecimalDigits]. rewrite C, A.
      rewrite Z.mod_small by lia. split; [f_equal; lia|reflexivity].
    + assert (B : 0 <= n / 10 < 2 ^ Z.of_nat fuel).
      { split; [apply Z.div_pos; lia|].
        apply Z.div_lt_upper_bound; [lia|].
        rewrite Nat2Z.inj_succ, Z.pow_succ_r in H by lia. lia. }
      destruct (IH (n / 10) (String (digitChar (n mod 10)) acc) B) as [V W].
      rewrite V, W. cbn [decimalValueFrom allDecimalDigits]. rewrite C, A.
      split; [f_equal; pose proof (Z.div_mod n 10); lia|reflexivity].
Qed.

Lemma Number_toString_digits (n : Z) :
  0 <= n ->
  decimalValue (Number_toString n) = n
  /\ allDecimalDigits (Number_toString n) = true.
Proof.
  intros H. unfold Number_toString, decimalValue.
  destruct (Z.ltb_spec n 0); [lia|].
  apply decimalDigits_spec. split; [assumption|].
  rewrite Nat2Z.inj_succ, Z2Nat.id by apply Z.log2_nonneg.
  destruct (Z.eq_dec n 0) as [->|N]; [reflexivity|].
  apply Z.log2_spec. lia.
Qed.

Lemma parseInt_Number_toString (n : Z) :
  0 <= n -> JS.parseInt (Number_toString n) = Some n.
Proof.
  intros H. destruct (Number_toString_digits n H) as [V D].
  destruct (Z.eq_dec n 0) as [->|N]; [reflexivity|].
  rewrite <- V at 2. apply parseInt_decimal; [assumption|lia].
Qed.

Lemma get_donation_route_id_text (n : Z) (w : World) :
  0 < n -> medium w = [] ->
  get_donation_route (Number_toString n) w
  = match rows w !! n with
    | Some r =>
        ({| status := 200; success := true; data := Some r;
            message := Some "Donation retrieved successfully";
            errors := None |}, w)
    | None => (notFound, w)
    end.
Proof.
  intros L M. unfold get_donation_route.
  rewrite parseInt_Number_toString by lia.
  apply Z.leb_gt in L. rewrite L.
  rewrite (getDonationById_healthy n w M). now destruct (rows w !! n).
Qed.

(** X5. The id the client writes into the path of a request reaches the
    routes as the id it is.  For every id from 0 up to the largest
    integer a double holds exactly, parseInt reads the decimal text of
    the id back as that id; so the get-by-id and delete routes answer the
    text of 0 with the invalid-id outcome and, on a medium that serves
    them, the text of a positive id by working on the record of that id:
    get-by-id returns it, delete removes it, and both answer 404 when
    there is none. *)
Theorem X5_id_text_round_trip (n : Z) :
  0 <= n <= MAX_SAFE_INTEGER ->
  JS.parseInt (Number_toString n) = Some n
  /\ decimalValue (Number_toString n) = n
  /\ allDecimalDigits (Number_toString n) = true
  /\ (n = 0 -> forall w,
        get_donation_route (Number_toString n) w = (invalidId, w)
        /\ delete_donation_route (Number_toString n) w = (invalidId, w))
  /\ (0 < n -> forall w,
        medium w = [] ->
        get_donation_route (Number_toString n) w
        = match rows w !! n with
          | Some r =>
              ({| status := 200; success := true; data := Some r;
                  message := Some "Donation retrieved successfully";
                  errors := None |}, w)
          | None => (notFound, w)
          end
        /\ delete_donation_route (Number_toString n) w
           = match rows w !! n with
             | Some _ =>
                 ({| status := 200; success := true; data := None;
                     message := Some "Donation deleted successfully";
                     errors := None |},
                  {| rows := delete n (rows w);
                     sqlite_sequence := sqlite_sequence w;
                     medium := medium w |})
             | None => (notFound, w)
             end).
Proof.
  intros [H _]. destruct (Number_toString_digits n H) as [V D].
  pose proof (parseInt_Number_toString n H) as P.
  split; [exact P|]. split; [exact V|]. split; [exact D|]. split.
  - intros -> w. split; reflexivity.
  - intros L w M. split; [now apply get_donation_route_id_text|].
    unfold delete_donation_route. rewrite P.
    apply Z.leb_gt in L. rewrite L.
    rewrite (getDonationById_healthy n w M).
    destruct (rows w !! n) as [r|] eqn:R; [|reflexivity].
    now rewrite (deleteDonation_healthy n w M), R.
Qed.

Lemma X5_id_text_round_trip_witness :
  0 <= 1234567890 <= MAX_SAFE_INTEGER /\ 0 < 1234567890
  /\ Number_toString 1234567890 = "1234567890"
  /\ JS.parseInt (Number_toString 1234567890) = Some 1234567890
  /\ get_donation_route (Number_toString 1234567890) (smithWorld 100)
     = (notFound, smithWorld 100)
  /\ 0 <= 1 <= MAX_SAFE_INTEGER /\ 0 < 1
  /\ medium (smithWorld 100) = []
  /\ fst (delete_donation_route (Number_toString 1) (smithWorld 100))
     = {| status := 200; success := true; data := None;
          message := Some "Donation deleted successfully"; errors := None |}
  /\ 0 <= 0 <= MAX_SAFE_INTEGER
  /\ get_donation_route (Number_toString 0) (smithWorld 100)
     = (invalidId, smithWorld 100).
Proof.
  assert (H : 0 <= 1234567890 <= MAX_SAFE_INTEGER) by (unfold MAX_SAFE_INTEGER; lia).
  assert (L : 0 < 1234567890) by lia.
  assert (H1 : 0 <= 1 <= MAX_SAFE_INTEGER) by (unfold MAX_SAFE_INTEGER; lia).
  assert (L1 : 0 < 1) by lia.
  assert (H0 : 0 <= 0 <= MAX_SAFE_INTEGER) by (unfold MAX_SAFE_INTEGER; lia).
  destruct (X5_id_text_round_trip 1234567890 H) as (P & _ & _ & _ & G).
  destruct (X5_id_text_round_trip 1 H1) as (_ & _ & _ & _ & G1).
  destruct (X5_id_text_round_trip 0 H0) as (_ & _ & _ & G0 & _).
  split; [exact H|]. split; [exact L|]. split; [vm_compute; reflexivity|].
  split; [exact P|].
  split; [exact (proj1 (G L (smithWorld 100) eq_refl))|].
  split; [exact H1|]. split; [exact L1|]. split; [reflexivity|].
  split; [rewrite (proj2 (G1 L1 (smithWorld 100) eq_refl)); vm_compute; reflexivity|].
  split; [exact H0|].
  exact (proj1 (G0 eq_refl (smithWorld 100))).
Defined.

Lemma max_rowid_nonneg (m : gmap Z Donation) : 0 <= max_rowid m.
Proof.
  unfold max_rowid. induction (map_to_list m) as [|[k v] l IH]; simpl; lia.
Qed.

(** X6. What a create returns can be read back: the id of the created
    record is positive, so the routes take it, and a get-by-id of that id
    in the world the create leaves, at the store and through the route
    with the id as the client writes it, gives the very record the create
    returned. *)
Theorem X6_created_record_is_read_back
    (now : Z) (d : CreateDonationInput) (w w' : World) (row : Donation) :
  createDonation now d w = (Resolved (Some row), w') ->
  medium w' = [] ->
  0 < id row
  /\ getDonationById (id row) w' = (Resolved (Some row), w')
  /\ get_donation_route (Number_toString (id row)) w'
     = ({| status := 200; success := true; data := Some row;
           message := Some "Donation retrieved successfully";
           errors := None |}, w').
Proof.
  intros E M.
  destruct (createDonation_cases now d w)
    as [(w1 & E1 & _)|(out & w1 & O & E1 & _ & _ & R & _)];
    rewrite E1 in E; [discriminate E|].
  destruct O as [->| ->]; [discriminate E|].
  injection E as <- <-. cbn [newRow id].
  assert (P : 0 < next_rowid w).
  { unfold next_rowid. pose proof (max_rowid_nonneg (rows w)). lia. }
  assert (L : rows w1 !! next_rowid w = Some (newRow (next_rowid w) now d))
    by (rewrite R; apply lookup_insert_eq).
  split; [exact P|]. split.
  - now rewrite (getDonationById_healthy _ w1 M), L.
  - now rewrite (get_donation_route_id_text _ w1 P M), L.
Qed.

Lemma X6_created_record_is_read_back_witness :
  createDonation 100 smithInput emptyWorld = (Resolved (Some (smithRow 100)), smithWorld 100)
  /\ medium (smithWorld 100) = []
  /\ 0 < id (smithRow 100)
  /\ getDonationById (id (smithRow 100)) (smithWorld 100)
     = (Resolved (Some (smithRow 100)), smithWorld 100).
Proof.
  assert (E : createDonation 100 smithInput emptyWorld
              = (Resolved (Some (smithRow 100)), smithWorld 100))
    by (vm_compute; reflexivity).
  destruct (X6_created_record_is_read_back _ _ _ _ _ E eq_refl) as (A & B & _).
  split; [exact E|]. split; [reflexivity|]. split; [exact A|exact B].
Defined.

(** ** Updates and deletes *)

Lemma sameTable_trans (w1 w2 w3 : World) :
  sameTable w1 w2 -> sameTable w2 w3 -> sameTable w1 w3.
Proof. intros [A B] [C D]. split; congruence. Qed.

(** X7. An update is all or nothing, whatever the medium does: either the
    table is as it was, or the record with the given id holds the merge
    of its old fields with all the fields supplied and the new time
    stamp, and that merge passes the CHECK clauses.  An update never adds
    or removes a record, changes no other record and leaves the counter
    of ids alone; when its promise settles in any way but success or the
    failure to read the updated row back, the table is as it was. *)
Theorem X7_update_is_all_or_nothing
    (now i : Z) (u : UpdateDonationInput) (w : World) :
  let out := fst (updateDonation now i u w) in
  let w' := snd (updateDonation now i u w) in
  dom (rows w') = dom (rows w)
  /\ sqlite_sequence w' = sqlite_sequence w
  /\ (forall j, j <> i -> rows w' !! j = rows w !! j)
  /\ (rows w' = rows w
      \/ exists r,
           rows w !! i = Some r
           /\ checks (touch now (foldl assign r (definedFields u))) = true
           /\ rows w' !! i = Some (touch now (foldl assign r (definedFields u))))
  /\ ((forall r, out <> Resolved (Some r)) ->
      out <> Rejected "Failed to retrieve updated donation" ->
      rows w' = rows w).
Proof.
  cbv zeta.
  destruct (updateDonation_cases now i u w)
    as [[_ E]|[_ [(w1 & E & [S1 S2])|[(w1 & E & _ & [S1 S2])
         |(r & out & w1 & O & E & L & C & R & Q)]]]];
    rewrite E; cbn [fst snd].
  - repeat split; auto.
  - rewrite S1. repeat split; auto.
  - rewrite S1. repeat split; auto.
  - split; [rewrite R; apply dom_insert_lookup_L; eauto|].
    split; [assumption|].
    split; [intros j N; rewrite R; now apply lookup_insert_ne|].
    split.
    + right. exists r. repeat split; try assumption.
      rewrite R. apply lookup_insert_eq.
    + intros A B. destruct O as [->| ->]; [contradiction|].
      now destruct (A (touch now (foldl assign r (definedFields u)))).
Qed.

Section UpdateRoute.
Variable rt : Runtime.

(** X8. An update whose donor_name has fewer than 2 characters once
    trimmed never changes the table: PUT /donations/:id answers it
    without success, by the validator or by the store's CHECK. *)
Theorem X8_put_short_name_never_applied
    (now : Z) (idParam : string) (fields : list (string * JS.Value))
    (s : string) (w : World) :
  JS.getField "donor_name" fields = Some (JS.Str s) ->
  (String.length (JS.trim s) < 2)%nat ->
  success (fst (put_donation rt now idParam (JS.Object fields) w)) = false
  /\ sameTable w (snd (put_donation rt now idParam (JS.Object fields) w)).
Proof.
  intros G L. unfold put_donation.
  destruct (JS.parseInt idParam) as [n|]; [|cbn; auto with store].
  destruct (n <=? 0); [cbn; auto with store|].
  destruct (UpdateDonationSchema rt (JS.Object fields)) as [u|issues] eqn:V;
    [|cbn; auto with store].
  apply UpdateDonationSchema_OK in V as (A & _). unfold patchedBy in A.
  rewrite G in A. destruct A as (v & A & U).
  apply donor_name_schema_OK in A as (s' & [= <-] & -> & _).
  destruct (getDonationById_cases n w) as [(w1 & -> & S)|(w1 & -> & S)];
    [cbn; auto|].
  destruct (rows w !! n) as [r0|]; [|cbn; auto].
  destruct (updateDonation_cases now n u w1)
    as [[_ E]|[_ [(w2 & E & S2)|[(w2 & E & _ & S2)
         |(r & out & w2 & _ & _ & _ & C & _)]]]];
    try (rewrite E; cbn; split; [reflexivity|];
         first [assumption | eapply sameTable_trans; eassumption]).
  exfalso. rewrite foldl_assign_definedFields, U in C.
  apply checks_spec in C as (C & _).
  cbn [touch donor_name default] in C. unfold Datatypes.id in C.
  pose proof (sql_length_le (JS.trim s)) as B. lia.
Qed.

(** X9. PUT /donations/:id on a medium that serves it, for an id parseInt
    reads as positive: a body the validator rejects is answered 400 with
    the violations before the record is looked for; a valid body with a
    field is answered 404 when no record has the id, 200 with the merged
    record, which is then in the table, when there is one and the merge
    passes the CHECK clauses, and 500 with the table as it was when it
    does not. *)
Theorem X9_put_outcomes
    (now : Z) (idParam : string) (n : Z) (body : JS.Value) (w : World) :
  JS.parseInt idParam = Some n -> 0 < n -> medium w = [] ->
  (forall issues,
     UpdateDonationSchema rt body = Zod.INVALID issues ->
     put_donation rt now idParam body w = (validationFailed issues, w))
  /\ (forall u,
        UpdateDonationSchema rt body = Zod.OK u -> definedFields u <> [] ->
        (rows w !! n = None ->
         put_donation rt now idParam body w = (notFound, w))
        /\ (forall r, rows w !! n = Some r ->
              let merged := touch now (foldl assign r (definedFields u)) in
              (checks merged = true ->
               put_donation rt now idParam body w
               = ({| status := 200; success := true; data := Some merged;
                     message := Some "Donation updated successfully";
                     errors := None |},
                  {| rows := <[n := merged]> (rows w);
                     sqlite_sequence := sqlite_sequence w;
                     medium := [] |}))
              /\ (checks merged = false ->
                  put_donation rt now idParam body w
                  = (failure 500 "Failed to update donation", w)))).
Proof.
  intros P L M. apply Z.leb_gt in L. split.
  - intros issues V. unfold put_donation. now rewrite P, L, V.
  - intros u V N. split; [|intros r R; cbv zeta; split].
    + intros R. unfold put_donation. rewrite P, L, V.
      now rewrite (getDonationById_healthy n w M), R.
    + intros C. unfold put_donation. rewrite P, L, V.
      rewrite (getDonationById_healthy n w M), R.
      now rewrite (updateDonation_healthy now n u w r M R N C).
    + intros C. unfold put_donation. rewrite P, L, V.
      rewrite (getDonationById_healthy n w M), R.
      unfold updateDonation.
      destruct (definedFields u) as [|a sets] eqn:D; [contradiction|].
      cbn [length Nat.eqb]. unfold update_donation.
      rewrite engineCall_healthy by assumption. now rewrite R, C.
Qed.

End UpdateRoute.

Lemma X7_update_is_all_or_nothing_witness :
  (forall r, fst (updateDonation 160 42 quantityUpdate (smithWorld 100))
             <> Resolved (Some r))
  /\ fst (updateDonation 160 42 quantityUpdate (smithWorld 100))
     <> Rejected "Failed to retrieve updated donation"
  /\ rows (snd (updateDonation 160 42 quantityUpdate (smithWorld 100)))
     = rows (smithWorld 100).
Proof.
  assert (E : fst (updateDonation 160 42 quantityUpdate (smithWorld 100))
              = Resolved None) by (vm_compute; reflexivity).
  assert (A : forall r, fst (updateDonation 160 42 quantityUpdate (smithWorld 100))
                        <> Resolved (Some r)) by (rewrite E; discriminate).
  assert (B : fst (updateDonation 160 42 quantityUpdate (smithWorld 100))
              <> Rejected "Failed to retrieve updated donation")
    by (rewrite E; discriminate).
  split; [exact A|]. split; [exact B|].
  exact (proj2 (proj2 (proj2 (proj2
           (X7_update_is_all_or_nothing 160 42 quantityUpdate (smithWorld 100))))) A B).
Defined.

Lemma X8_put_short_name_never_applied_witness :
  JS.getField "donor_name" [("donor_name", JS.Str "  a  ")] = Some (JS.Str "  a  ")
  /\ (String.length (JS.trim "  a  ") < 2)%nat
  /\ success (fst (put_donation exampleRuntime 160 "1"
                     (JS.Object [("donor_name", JS.Str "  a  ")]) (smithWorld 100)))
     = false
  /\ sameTable (smithWorld 100)
       (snd (put_donation exampleRuntime 160 "1"
               (JS.Object [("donor_name", JS.Str "  a  ")]) (smithWorld 100))).
Proof.
  assert (L : (String.length (JS.trim "  a  ") < 2)%nat) by (vm_compute; lia).
  split; [reflexivity|]. split; [exact L|].
  exact (X8_put_short_name_never_applied exampleRuntime 160 "1"
           [("donor_name", JS.Str "  a  ")] "  a  " (smithWorld 100) eq_refl L).
Defined.

Lemma X9_put_outcomes_witness :
  JS.parseInt "1" = Some 1 /\ 0 < 1 /\ medium (smithWorld 100) = []
  /\ UpdateDonationSchema exampleRuntime (JS.Object [("quantity", JS.Number (20 # 1))])
     = Zod.OK quantityUpdate
  /\ definedFields quantityUpdate <> []
  /\ rows (smithWorld 100) !! 1 = Some (smithRow 100)
  /\ checks (touch 160 (foldl assign (smithRow 100) (definedFields quantityUpdate))) = true
  /\ fst (put_donation exampleRuntime 160 "1"
            (JS.Object [("quantity", JS.Number (20 # 1))]) (smithWorld 100))
     = {| status := 200; success := true; data := Some (smithRowUpdated 100 160);
          message := Some "Donation updated successfully"; errors := None |}
  /\ JS.parseInt "42" = Some 42 /\ 0 < 42
  /\ rows (smithWorld 100) !! 42 = None
  /\ put_donation exampleRuntime 160 "42"
       (JS.Object [("quantity", JS.Number (20 # 1))]) (smithWorld 100)
     = (notFound, smithWorld 100).
Proof.
  assert (V : UpdateDonationSchema exampleRuntime
                (JS.Object [("quantity", JS.Number (20 # 1))])
              = Zod.OK quantityUpdate) by (vm_compute; reflexivity).
  assert (N : definedFields quantityUpdate <> []) by discriminate.
  assert (R : rows (smithWorld 100) !! 1 = Some (smithRow 100))
    by (vm_compute; reflexivity).
  assert (C : checks (touch 160 (foldl assign (smithRow 100)
                                   (definedFields quantityUpdate))) = true)
    by (vm_compute; reflexivity).
  assert (R' : rows (smithWorld 100) !! 42 = None) by (vm_compute; reflexivity).
  assert (P1 : 0 < 1) by lia. assert (P2 : 0 < 42) by lia.
  split; [reflexivity|]. split; [exact P1|]. split; [reflexivity|].
  split; [exact V|]. split; [exact N|]. split; [exact R|]. split; [exact C|].
  split.
  - destruct (X9_put_outcomes exampleRuntime 160 "1" 1
                (JS.Object [("quantity", JS.Number (20 # 1))]) (smithWorld 100)
                eq_refl P1 eq_refl) as (_ & A).
    destruct (A quantityUpdate V N) as (_ & A').
    exact (f_equal fst (proj1 (A' (smithRow 100) R) C)).
  - split; [reflexivity|]. split; [exact P2|]. split; [exact R'|].
    destruct (X9_put_outcomes exampleRuntime 160 "42" 42
                (JS.Object [("quantity", JS.Number (20 # 1))]) (smithWorld 100)
                eq_refl P2 eq_refl) as (_ & A).
    exact (proj1 (A quantityUpdate V N) R').
Defined.

(** X10. DELETE /donations/:id on a medium that serves it, for an id
    parseInt reads as positive: 404 and nothing changed when no record
    has the id; otherwise 200, the record is gone and every other record
    and the counter of ids are as before, after which a get and a second
    delete of the same id are both answered 404. *)
Theorem X10_delete_route_outcomes (idParam : string) (n : Z) (w : World) :
  JS.parseInt idParam = Some n -> 0 < n -> medium w = [] ->
  (rows w !! n = None -> delete_donation_route idParam w = (notFound, w))
  /\ (forall r, rows w !! n = Some r ->
        let w' := {| rows := delete n (rows w);
                     sqlite_sequence := sqlite_sequence w;
                     medium := [] |} in
        delete_donation_route idParam w
        = ({| status := 200; success := true; data := None;
              message := Some "Donation deleted successfully";
              errors := None |}, w')
        /\ (forall j, j <> n -> rows w' !! j = rows w !! j)
        /\ get_donation_route idParam w' = (notFound, w')
        /\ delete_donation_route idParam w' = (notFound, w')).
Proof.
  intros P L M. apply Z.leb_gt in L. split.
  - intros R. unfold delete_donation_route. rewrite P, L.
    now rewrite (getDonationById_healthy n w M), R.
  - intros r R. cbv zeta. split; [|split; [|split]].
    + unfold delete_donation_route. rewrite P, L.
      rewrite (getDonationById_healthy n w M), R.
      now rewrite (deleteDonation_healthy n w M), R, M.
    + intros j N. cbn [rows]. now apply lookup_delete_ne.
    + unfold get_donation_route. rewrite P, L.
      rewrite getDonationById_healthy by reflexivity.
      cbn [rows]. now rewrite lookup_delete_eq.
    + unfold delete_donation_route. rewrite P, L.
      rewrite getDonationById_healthy by reflexivity.
      cbn [rows]. now rewrite lookup_delete_eq.
Qed.

Lemma X10_delete_route_outcomes_witness :
  JS.parseInt "1" = Some 1 /\ 0 < 1 /\ medium (smithWorld 100) = []
  /\ rows (smithWorld 100) !! 1 = Some (smithRow 100)
  /\ fst (delete_donation_route "1" (smithWorld 100))
     = {| status := 200; success := true; data := None;
          message := Some "Donation deleted successfully"; errors := None |}
  /\ rows (smithWorld 100) !! 42 = None
  /\ JS.parseInt "42" = Some 42 /\ 0 < 42
  /\ delete_donation_route "42" (smithWorld 100) = (notFound, smithWorld 100).
Proof.
  assert (R : rows (smithWorld 100) !! 1 = Some (smithRow 100))
    by (vm_compute; reflexivity).
  assert (R' : rows (smithWorld 100) !! 42 = None) by (vm_compute; reflexivity).
  assert (P1 : 0 < 1) by lia. assert (P2 : 0 < 42) by lia.
  split; [reflexivity|]. split; [exact P1|]. split; [reflexivity|].
  split; [exact R|]. split.
  - destruct (X10_delete_route_outcomes "1" 1 (smithWorld 100) eq_refl P1 eq_refl)
      as (_ & A).
    exact (f_equal fst (proj1 (A (smithRow 100) R))).
  - split; [exact R'|]. split; [reflexivity|]. split; [exact P2|].
    exact (proj1 (X10_delete_route_outcomes "42" 42 (smithWorld 100)
                    eq_refl P2 eq_refl) R').
Defined.

(** ** The list of all donations *)

#[local] Instance newestFirst_total : Total newestFirst.
Proof. intros a b. unfold newestFirst. lia. Qed.

#[local] Instance newestFirst_transitive : Transitive newestFirst.
Proof. intros a b c. unfold newestFirst. lia. Qed.

Lemma getAllDonations_healthy (w : World) :
  medium w = [] ->
  getAllDonations w
  = (Resolved (merge_sort newestFirst (map snd (map_to_list (rows w)))), w).
Proof.
  intros M. unfold getAllDonations, select_all.
  now rewrite engineCall_healthy.
Qed.

Lemma elem_of_table_rows (w : World) (r : Donation) :
  r ∈ map snd (map_to_list (rows w)) <-> exists i, rows w !! i = Some r.
Proof.
  rewrite list_elem_of_In, in_map_iff. split.
  - intros ([i r'] & E & H). cbn in E. subst r'.
    apply list_elem_of_In, elem_of_map_to_list in H. eauto.
  - intros (i & H). exists (i, r). split; [reflexivity|].
    now apply list_elem_of_In, elem_of_map_to_list.
Qed.

(** X11. The list of all donations never changes the table.  On a medium
    that serves it, it is made of exactly the rows of the table, each as
    often as the table holds it, with no row before a newer one
    (created_at descending); it is the empty list, not an error, for the
    empty table; and GET /donations answers 200 with that list and its
    length in the message. *)
Theorem X11_list_is_all_rows_newest_first :
  (forall w, sameTable w (snd (getAllDonations w)))
  /\ (forall w, medium w = [] ->
        exists all,
          getAllDonations w = (Resolved all, w)
          /\ all ≡ₚ map snd (map_to_list (rows w))
          /\ (forall r, r ∈ all <-> exists i, rows w !! i = Some r)
          /\ length all = size (rows w)
          /\ StronglySorted newestFirst all
          /\ get_donations_route w
             = ({| list_status := 200; list_success := true;
                   list_data := Some all;
                   list_message :=
                     Some ("Retrieved " ++ Number_toString (Z.of_nat (length all))
                           ++ " donations")%string |}, w))
  /\ (forall w, medium w = [] -> rows w = ∅ ->
        getAllDonations w = (Resolved [], w)).
Proof.
  split; [|split].
  - intros w. unfold getAllDonations, select_all.
    match goal with |- context [engineCall ?f w] =>
      destruct (engineCall_cases f w) as [(e & w' & -> & S)|(w0 & -> & S & _)] end;
      exact S.
  - intros w M. eexists. split; [now apply getAllDonations_healthy|].
    pose proof (merge_sort_Permutation newestFirst (map snd (map_to_list (rows w))))
      as P.
    split; [exact P|]. split; [|split; [|split]].
    + intros r. rewrite P. apply elem_of_table_rows.
    + rewrite P, length_map. apply length_map_to_list.
    + apply StronglySorted_merge_sort; typeclasses eauto.
    + unfold get_donations_route. now rewrite getAllDonations_healthy.
  - intros w M E. rewrite getAllDonations_healthy by assumption.
    now rewrite E, map_to_list_empty.
Qed.

Lemma X11_list_is_all_rows_newest_first_witness :
  medium (smithWorld 100) = []
  /\ (exists all,
        getAllDonations (smithWorld 100) = (Resolved all, smithWorld 100)
        /\ length all = size (rows (smithWorld 100))
        /\ StronglySorted newestFirst all)
  /\ getAllDonations (smithWorld 100) = (Resolved [smithRow 100], smithWorld 100)
  /\ medium emptyWorld = [] /\ rows emptyWorld = ∅
  /\ getAllDonations emptyWorld = (Resolved [], emptyWorld).
Proof.
  destruct X11_list_is_all_rows_newest_first as (_ & A & B).
  split; [reflexivity|]. split.
  - destruct (A (smithWorld 100) eq_refl) as (all & E & _ & _ & L & S & _).
    exists all. auto.
  - split; [vm_compute; reflexivity|]. split; [reflexivity|].
    split; [reflexivity|]. exact (B emptyWorld eq_refl eq_refl).
Defined.

(** ** Failures of the medium *)

Lemma failingWorld_call {A} (stmt : World -> (SqliteError + A) * World)
    (e : SqliteError) (w : World) :
  engineCall stmt (failingWorld e w) = (inl e, w).
Proof. destruct w. reflexivity. Qed.

(** X12. A failure of the medium fails the operation, not the store: when
    the medium fails the first engine call of an operation, the promise
    is rejected with the message of that operation, the table is as it
    was, and the store goes on with the medium as it is after the
    failure.  The routes answer 500, each with its own message. *)
Theorem X12_medium_failure_fails_the_operation_only (e : SqliteError) (w : World) :
  (forall now d,
     createDonation now d (failingWorld e w)
     = (Rejected "Failed to create donation", w))
  /\ (forall now i u, definedFields u <> [] ->
        updateDonation now i u (failingWorld e w)
        = (Rejected "Failed to update donation", w))
  /\ (forall i,
        deleteDonation i (failingWorld e w)
        = (Rejected "Failed to delete donation", w))
  /\ (forall i,
        getDonationById i (failingWorld e w)
        = (Rejected "Failed to fetch donation", w))
  /\ getAllDonations (failingWorld e w)
     = (Rejected "Failed to fetch donations from database", w)
  /\ (forall idParam n, JS.parseInt idParam = Some n -> 0 < n ->
        get_donation_route idParam (failingWorld e w)
        = (failure 500 "Failed to retrieve donation", w)
        /\ delete_donation_route idParam (failingWorld e w)
           = (failure 500 "Failed to delete donation", w))
  /\ fst (get_donations_route (failingWorld e w))
     = {| list_status := 500; list_success := false; list_data := None;
          list_message := Some "Failed to retrieve donations" |}.
Proof.
  split; [|split; [|split; [|split; [|split; [|split]]]]].
  - intros now d. unfold createDonation, insert_donation.
    now rewrite failingWorld_call.
  - intros now i u N. unfold updateDonation.
    destruct (definedFields u) as [|a sets]; [contradiction|].
    cbn [length Nat.eqb]. unfold update_donation. now rewrite failingWorld_call.
  - intros i. unfold deleteDonation, delete_donation. now rewrite failingWorld_call.
  - intros i. unfold getDonationById, select_by_id. now rewrite failingWorld_call.
  - unfold getAllDonations, select_all. now rewrite failingWorld_call.
  - intros idParam n P L. apply Z.leb_gt in L.
    unfold get_donation_route, delete_donation_route, getDonationById, select_by_id.
    rewrite P, L, failingWorld_call. auto.
  - unfold get_donations_route, getAllDonations, select_all.
    now rewrite failingWorld_call.
Qed.

Lemma X12_medium_failure_fails_the_operation_only_witness :
  definedFields quantityUpdate <> []
  /\ updateDonation 160 1 quantityUpdate (failingWorld SQLITE_IOERR (smithWorld 100))
     = (Rejected "Failed to update donation", smithWorld 100)
  /\ JS.parseInt "1" = Some 1 /\ 0 < 1
  /\ get_donation_route "1" (failingWorld SQLITE_IOERR (smithWorld 100))
     = (failure 500 "Failed to retrieve donation", smithWorld 100)
  /\ fst (get_donation_route "1" (smithWorld 100))
     = {| status := 200; success := true; data := Some (smithRow 100);
          message := Some "Donation retrieved successfully"; errors := None |}.
Proof.
  assert (N : definedFields quantityUpdate <> []) by discriminate.
  assert (P : 0 < 1) by lia.
  destruct (X12_medium_failure_fails_the_operation_only SQLITE_IOERR (smithWorld 100))
    as (_ & A & _ & _ & _ & B & _).
  split; [exact N|]. split; [exact (A 160 1 quantityUpdate N)|].
  split; [reflexivity|]. split; [exact P|].
  split; [exact (proj1 (B "1" 1 eq_refl P))|].
  vm_compute. reflexivity.
Defined.

(** X13. A write can be done and still be reported as failed: when the
    medium serves the INSERT or the UPDATE and fails the SELECT that
    reads the row back, the promise is rejected ("Failed to retrieve
    created donation", "Failed to retrieve updated donation") although
    the row is in the table, and POST /donations answers 500 for a row
    it has created. *)
Theorem X13_write_done_but_reported_failed
    (e : SqliteError) (later : list (option SqliteError)) (w : World) :
  medium w = None :: Some e :: later ->
  (forall now d,
     next_rowid w <= MAX_ROWID ->
     checks (newRow (next_rowid w) now d) = true ->
     createDonation now d w
     = (Rejected "Failed to retrieve created donation",
        {| rows := <[next_rowid w := newRow (next_rowid w) now d]> (rows w);
           sqlite_sequence := next_rowid w;
           medium := later |}))
  /\ (forall rt now body d,
        next_rowid w <= MAX_ROWID ->
        CreateDonationSchema rt body = Zod.OK d ->
        checks (newRow (next_rowid w) now d) = true ->
        fst (post_donations rt now body w) = failure 500 "Failed to create donation"
        /\ rows (snd (post_donations rt now body w)) !! next_rowid w
           = Some (newRow (next_rowid w) now d))
  /\ (forall now i u r,
        rows w !! i = Some r -> definedFields u <> [] ->
        checks (touch now (foldl assign r (definedFields u))) = true ->
        updateDonation now i u w
        = (Rejected "Failed to retrieve updated donation",
           {| rows := <[i := touch now (foldl assign r (definedFields u))]> (rows w);
              sqlite_sequence := sqlite_sequence w;
              medium := later |})).
Proof.
  intros M.
  assert (A : forall now d,
     next_rowid w <= MAX_ROWID ->
     checks (newRow (next_rowid w) now d) = true ->
     createDonation now d w
     = (Rejected "Failed to retrieve created donation",
        {| rows := <[next_rowid w := newRow (next_rowid w) now d]> (rows w);
           sqlite_sequence := next_rowid w;
           medium := later |})).
  { intros now d F C. unfold createDonation, insert_donation, engineCall.
    rewrite M. cbv zeta.
    change (next_rowid {| rows := rows w; sqlite_sequence := sqlite_sequence w;
                          medium := Some e :: later |}) with (next_rowid w).
    apply Z.ltb_ge in F. rewrite F, C. reflexivity. }
  split; [exact A|]. split.
  - intros rt now body d F V C. unfold post_donations.
    rewrite V, (A now d F C). cbn [fst snd rows].
    split; [reflexivity|apply lookup_insert_eq].
  - intros now i u r R N C. unfold updateDonation.
    destruct (definedFields u) as [|a sets] eqn:D; [contradiction|].
    cbn [length Nat.eqb]. unfold update_donation, engineCall.
    rewrite M. cbn [rows]. rewrite R, C. reflexivity.
Qed.

Lemma X13_write_done_but_reported_failed_witness :
  medium {| rows := ∅; sqlite_sequence := 0; medium := [None; Some SQLITE_IOERR] |}
  = [None; Some SQLITE_IOERR]
  /\ next_rowid {| rows := ∅; sqlite_sequence := 0;
                   medium := [None; Some SQLITE_IOERR] |} <= MAX_ROWID
  /\ checks (newRow 1 100 smithInput) = true
  /\ createDonation 100 smithInput
       {| rows := ∅; sqlite_sequence := 0; medium := [None; Some SQLITE_IOERR] |}
     = (Rejected "Failed to retrieve created donation", smithWorld 100).
Proof.
  assert (F : next_rowid {| rows := ∅; sqlite_sequence := 0;
                            medium := [None; Some SQLITE_IOERR] |} <= MAX_ROWID)
    by (vm_compute; discriminate).
  assert (C : checks (newRow 1 100 smithInput) = true) by (vm_compute; reflexivity).
  split; [reflexivity|]. split; [exact F|]. split; [exact C|].
  exact (proj1 (X13_write_done_but_reported_failed SQLITE_IOERR []
                  {| rows := ∅; sqlite_sequence := 0;
                     medium := [None; Some SQLITE_IOERR] |} eq_refl)
           100 smithInput F C).
Defined.

(** ** What never writes *)

(** X14. Reading never writes and a rejected request never reaches the
    store: get-by-id and the two GET routes leave the table as it was
    whatever the medium does, and a request rejected for its id or by the
    validator leaves the world untouched, with no engine call made. *)
Theorem X14_reads_and_rejections_never_write :
  (forall i w, sameTable w (snd (getDonationById i w)))
  /\ (forall idParam w, sameTable w (snd (get_donation_route idParam w)))
  /\ (forall w, sameTable w (snd (get_donations_route w)))
  /\ (forall rt now body w issues,
        CreateDonationSchema rt body = Zod.INVALID issues ->
        snd (post_donations rt now body w) = w)
  /\ (forall rt now idParam body w,
        noPositiveInteger idParam ->
        snd (put_donation rt now idParam body w) = w
        /\ snd (delete_donation_route idParam w) = w
        /\ snd (get_donation_route idParam w) = w)
  /\ (forall rt now idParam body w issues,
        UpdateDonationSchema rt body = Zod.INVALID issues ->
        snd (put_donation rt now idParam body w) = w).
Proof.
  assert (G : forall i w, sameTable w (snd (getDonationById i w))).
  { intros i w.
    destruct (getDonationById_cases i w) as [(w' & -> & S)|(w' & -> & S)]; exact S. }
  split; [exact G|]. split; [|split; [|split; [|split]]].
  - intros idParam w. unfold get_donation_route.
    destruct (JS.parseInt idParam) as [n|]; [|apply sameTable_refl].
    destruct (n <=? 0); [apply sameTable_refl|].
    specialize (G n w). destruct (getDonationById n w) as [[[r|]|msg] w1]; exact G.
  - intros w. unfold get_donations_route, getAllDonations, select_all.
    match goal with |- context [engineCall ?f w] =>
      destruct (engineCall_cases f w) as [(e & w' & -> & S)|(w0 & -> & S & _)] end;
      exact S.
  - intros rt now body w issues V. unfold post_donations. now rewrite V.
  - intros rt now idParam body w N.
    unfold put_donation, delete_donation_route, get_donation_route.
    destruct N as [->|(n & -> & L)]; [auto|].
    apply Z.leb_le in L. rewrite L. auto.
  - intros rt now idParam body w issues V. unfold put_donation.
    destruct (JS.parseInt idParam) as [n|]; [|reflexivity].
    destruct (n <=? 0); [reflexivity|]. now rewrite V.
Qed.

Lemma X14_reads_and_rejections_never_write_witness :
  CreateDonationSchema exampleRuntime shortNameBody
  = Zod.INVALID
      [{| Zod.code := "too_small"; Zod.path := ["donor_name"];
          Zod.message := "Donor name must be at least 2 characters" |}]
  /\ snd (post_donations exampleRuntime 0 shortNameBody (smithWorld 100)) = smithWorld 100
  /\ noPositiveInteger "abc"
  /\ snd (delete_donation_route "abc" (smithWorld 100)) = smithWorld 100.
Proof.
  destruct X14_reads_and_rejections_never_write as (_ & _ & _ & A & B & _).
  assert (V : CreateDonationSchema exampleRuntime shortNameBody
              = Zod.INVALID
                  [{| Zod.code := "too_small"; Zod.path := ["donor_name"];
                      Zod.message := "Donor name must be at least 2 characters" |}])
    by (vm_compute; reflexivity).
  assert (N : noPositiveInteger "abc") by (left; reflexivity).
  split; [exact V|].
  split; [exact (A exampleRuntime 0 shortNameBody (smithWorld 100) _ V)|].
  split; [exact N|].
  exact (proj1 (proj2 (B exampleRuntime 0 "abc" JS.Null (smithWorld 100) N))).
Defined.

(** ** trim *)

Lemma trimStart_head (s : string) :
  JS.trimStart s = ""
  \/ exists c t, JS.trimStart s = String c t /\ JS.isWhiteSpace c = false.
Proof.
  induction s as [|c s IH]; [left; reflexivity|].
  cbn [JS.trimStart]. destruct (JS.isWhiteSpace c) eqn:W; [exact IH|].
  right. eauto.
Qed.

Lemma trimEnd_cons (c : ascii) (s : string) :
  JS.trimEnd (String c s)
  = match JS.trimEnd s with
    | EmptyString =>
        if JS.isWhiteSpace c then EmptyString else String c EmptyString
    | String c' t => String c (String c' t)
    end.
Proof. reflexivity. Qed.

Lemma trimEnd_idempotent (s : string) : JS.trimEnd (JS.trimEnd s) = JS.trimEnd s.
Proof.
  induction s as [|c s IH]; [reflexivity|].
  rewrite (trimEnd_cons c s). destruct (JS.trimEnd s) as [|c' t] eqn:E.
  - destruct (JS.isWhiteSpace c) eqn:W; [reflexivity|].
    rewrite trimEnd_cons. cbn [JS.trimEnd]. now rewrite W.
  - rewrite trimEnd_cons, IH. reflexivity.
Qed.

Lemma trimEnd_head (c : ascii) (s : string) :
  JS.isWhiteSpace c = false -> exists t, JS.trimEnd (String c s) = String c t.
Proof.
  intros W. cbn [JS.trimEnd]. destruct (JS.trimEnd s); rewrite ?W; eauto.
Qed.

Lemma trim_idempotent (s : string) : JS.trim (JS.trim s) = JS.trim s.
Proof.
  unfold JS.trim.
  destruct (trimStart_head s) as [->|(c & t & -> & W)]; [reflexivity|].
  destruct (trimEnd_head c t W) as (t' & E).
  rewrite E. cbn [JS.trimStart]. rewrite W, <- E.
  apply trimEnd_idempotent.
Qed.

(** ** The client of the routes *)

Section ClientRequests.
Variable crt : Client.ClientRuntime.
Variable rt : Runtime.

Lemma getField_create_apiData (form : Client.DonationFormData) :
  JS.getField "donor_name" (Client.createDonation_apiData crt form)
  = Some (JS.Str (JS.trim (Client.form_donor_name form)))
  /\ JS.getField "donation_type" (Client.createDonation_apiData crt form)
     = Some (JS.Str (Client.form_donation_type form))
  /\ JS.getField "quantity" (Client.createDonation_apiData crt form)
     = Some (Client.jsonNumber (Client.parseFloat crt (Client.form_quantity form)))
  /\ JS.getField "date" (Client.createDonation_apiData crt form)
     = Some (JS.Str (Client.form_date form)).
Proof. repeat split; reflexivity. Qed.

Lemma client_name_accepted (form : Client.DonationFormData) (n : string) :
  donor_name_schema rt ["donor_name"]
    (JS.getField "donor_name" (Client.createDonation_apiData crt form))
  = Zod.OK n
  <-> n = JS.trim (Client.form_donor_name form)
      /\ (2 <= String.length (JS.trim (Client.form_donor_name form)) <= 100)%nat.
Proof.
  rewrite (proj1 (getField_create_apiData form)), donor_name_schema_OK_iff. split.
  - intros (s & [= <-] & -> & L). now rewrite trim_idempotent.
  - intros (-> & L). eexists. split; [reflexivity|].
    now rewrite trim_idempotent.
Qed.

(** X15. In a create request built by the client the donor_name is
    already trimmed, so the validator, which checks the length before it
    trims, checks the trimmed length: the name is accepted exactly when
    its trimmed length is 2 to 100, and every request the schema accepts
    carries the trimmed name, the type and the date of the form and the
    finite number parseFloat read; a quantity parseFloat does not read as
    a finite number goes out as null and the request is rejected. *)
Theorem X15_client_create_request (form : Client.DonationFormData) :
  (forall n,
     donor_name_schema rt ["donor_name"]
       (JS.getField "donor_name" (Client.createDonation_apiData crt form))
     = Zod.OK n
     <-> n = JS.trim (Client.form_donor_name form)
         /\ (2 <= String.length (JS.trim (Client.form_donor_name form)) <= 100)%nat)
  /\ (forall d,
        CreateDonationSchema rt (JS.Object (Client.createDonation_apiData crt form))
        = Zod.OK d ->
        new_donor_name d = JS.trim (Client.form_donor_name form)
        /\ (2 <= String.length (new_donor_name d) <= 100)%nat
        /\ new_donation_type d = Client.form_donation_type form
        /\ Client.parseFloat crt (Client.form_quantity form)
           = Client.Finite (new_quantity d)
        /\ new_date d = Client.form_date form)
  /\ ((forall q, Client.parseFloat crt (Client.form_quantity form) <> Client.Finite q) ->
      exists issues,
        CreateDonationSchema rt (JS.Object (Client.createDonation_apiData crt form))
        = Zod.INVALID issues).
Proof.
  destruct (getField_create_apiData form) as (G1 & G2 & G3 & G4).
  pose proof (client_name_accepted form) as A.
  split; [exact A|]. split.
  - intros d V. apply CreateDonationSchema_OK in V as (V1 & V2 & V3 & V4).
    apply A in V1 as (V1 & L).
    rewrite G2 in V2. apply donation_type_schema_OK in V2 as ([= V2] & _).
    rewrite G3 in V3. apply quantity_schema_OK in V3 as (V3 & _).
    rewrite G4 in V4. apply date_schema_OK in V4 as ([= V4] & _).
    rewrite V1. repeat split; try lia; try congruence.
    destruct (Client.parseFloat crt (Client.form_quantity form));
      try discriminate V3.
    now injection V3 as ->.
  - intros N.
    destruct (CreateDonationSchema rt
                (JS.Object (Client.createDonation_apiData crt form)))
      as [d|issues] eqn:V; [|eauto].
    apply CreateDonationSchema_OK in V as (_ & _ & V3 & _).
    rewrite G3 in V3. apply quantity_schema_OK in V3 as (V3 & _).
    destruct (Client.parseFloat crt (Client.form_quantity form)) eqn:E;
      try discriminate V3.
    now destruct (N q).
Qed.

Lemma eqb_empty (s : string) : String.eqb s "" = true <-> String.length s = 0%nat.
Proof. destruct s; cbn; split; congruence. Qed.

(** X16. The form validation of the client: the donor_name passes
    exactly when its trimmed length is at least 2, the donation_type and
    the date when they are not empty, the quantity when it is not empty
    and Number reads it neither as NaN nor as a number that is 0 or below
    (plus infinity passes).  A form that passes sends a
    donor_name the validator of the server accepts when its trimmed
    length is at most 100; the form has no such maximum, and a longer
    name passes the form and is rejected by the server. *)
Theorem X16_form_validation (data : Client.DonationFormData) :
  (Client.err_donor_name (Client.validateForm crt data) = None
   <-> (2 <= String.length (JS.trim (Client.form_donor_name data)))%nat)
  /\ (Client.err_donation_type (Client.validateForm crt data) = None
      <-> Client.form_donation_type data <> "")
  /\ (Client.err_quantity (Client.validateForm crt data) = None
      <-> Client.form_quantity data <> ""
          /\ Client.notPositive (Client.Number_of crt (Client.form_quantity data))
             = false)
  /\ (Client.err_date (Client.validateForm crt data) = None
      <-> Client.form_date data <> "")
  /\ (Client.hasErrors (Client.validateForm crt data) = false ->
      ((String.length (JS.trim (Client.form_donor_name data)) <= 100)%nat ->
       donor_name_schema rt ["donor_name"]
         (JS.getField "donor_name" (Client.createDonation_apiData crt data))
       = Zod.OK (JS.trim (Client.form_donor_name data)))
      /\ ((100 < String.length (JS.trim (Client.form_donor_name data)))%nat ->
          exists issues,
            CreateDonationSchema rt (JS.Object (Client.createDonation_apiData crt data))
            = Zod.INVALID issues)).
Proof.
  assert (A : Client.err_donor_name (Client.validateForm crt data) = None
              <-> (2 <= String.length (JS.trim (Client.form_donor_name data)))%nat).
  { cbn [Client.validateForm Client.err_donor_name].
    destruct (String.eqb (JS.trim (Client.form_donor_name data)) "") eqn:E.
    - apply eqb_empty in E. split; [discriminate|lia].
    - destruct (Nat.ltb_spec (String.length (JS.trim (Client.form_donor_name data))) 2);
        split; first [discriminate | lia | reflexivity]. }
  split; [exact A|]. split; [|split; [|split]].
  - cbn [Client.validateForm Client.err_donation_type].
    destruct (String.eqb_spec (Client.form_donation_type data) "");
      split; first [discriminate | contradiction | reflexivity | auto].
  - cbn [Client.validateForm Client.err_quantity].
    destruct (String.eqb_spec (Client.form_quantity data) "").
    + split; [discriminate|intros [N _]; contradiction].
    + destruct (Client.notPositive _); split;
        first [discriminate | intros [_ N]; discriminate N | auto].
  - cbn [Client.validateForm Client.err_date].
    destruct (String.eqb_spec (Client.form_date data) "");
      split; first [discriminate | contradiction | reflexivity | auto].
  - intros H.
    assert (N : Client.err_donor_name (Client.validateForm crt data) = None).
    { unfold Client.hasErrors in H. apply negb_false_iff in H.
      destruct (Client.err_donor_name (Client.validateForm crt data));
        [discriminate H|reflexivity]. }
    apply A in N. split.
    + intros L. apply client_name_accepted. split; [reflexivity|lia].
    + intros L.
      destruct (CreateDonationSchema rt
                  (JS.Object (Client.createDonation_apiData crt data)))
        as [d|issues] eqn:V; [|eauto].
      apply CreateDonationSchema_OK in V as (V & _).
      apply client_name_accepted in V as (_ & V). lia.
Qed.

End ClientRequests.

Section ClientUpdates.
Variable crt : Client.ClientRuntime.
Variable rt : Runtime.

Lemma getField_update_apiData_name (data : Client.PartialFormData) (n : string) :
  Client.part_donor_name data = Some n ->
  JS.getField "donor_name" (Client.updateDonation_apiData crt data)
  = Some (JS.Str (JS.trim n)).
Proof. intros E. unfold Client.updateDonation_apiData. now rewrite E. Qed.

(** X17. An update request built by the client: a donation_type or a
    quantity left empty in the form is left out of the request, not sent
    as an empty value; a donor_name in the form data is always sent,
    trimmed, so that when the validator accepts the request the update
    carries that name, with a trimmed length of 2 to 100, and the store
    never fails it for having no fields. *)
Theorem X17_client_update_request (data : Client.PartialFormData) :
  (Client.part_donation_type data = Some "" ->
   JS.getField "donation_type" (Client.updateDonation_apiData crt data) = None)
  /\ (Client.part_quantity data = Some "" ->
      JS.getField "quantity" (Client.updateDonation_apiData crt data) = None)
  /\ (forall n u,
        Client.part_donor_name data = Some n ->
        UpdateDonationSchema rt (JS.Object (Client.updateDonation_apiData crt data))
        = Zod.OK u ->
        upd_donor_name u = Some (JS.trim n)
        /\ (2 <= String.length (JS.trim n) <= 100)%nat
        /\ definedFields u <> []
        /\ forall now i w,
             fst (updateDonation now i u w)
             <> Rejected "No fields provided for update").
Proof.
  split; [|split].
  - intros E. unfold Client.updateDonation_apiData. rewrite E.
    destruct (Client.part_donor_name data), (Client.part_quantity data) as [q|],
      (Client.part_date data); try destruct (String.eqb q ""); reflexivity.
  - intros E. unfold Client.updateDonation_apiData. rewrite E.
    destruct (Client.part_donor_name data), (Client.part_donation_type data) as [t|],
      (Client.part_date data); try destruct (String.eqb t ""); reflexivity.
  - intros n u E V.
    apply UpdateDonationSchema_OK in V as (V & _). unfold patchedBy in V.
    rewrite (getField_update_apiData_name data n E) in V.
    destruct V as (v & V & U).
    apply donor_name_schema_OK_iff in V as (s & [= <-] & -> & L).
    rewrite trim_idempotent in U.
    assert (N : definedFields u <> []).
    { unfold definedFields. rewrite U. discriminate. }
    split; [exact U|]. split; [lia|]. split; [exact N|].
    intros now i w.
    destruct (updateDonation_cases now i u w)
      as [[D _]|[_ [(w1 & -> & _)|[(w1 & -> & _)
           |(r & out & w1 & [->| ->] & -> & _)]]]];
      [contradiction|discriminate..].
Qed.

End ClientUpdates.

Lemma X15_client_create_request_witness :
  CreateDonationSchema exampleRuntime
    (JS.Object (Client.createDonation_apiData exampleClientRuntime smithForm))
  = Zod.OK smithInput
  /\ new_donor_name smithInput = JS.trim (Client.form_donor_name smithForm)
  /\ (forall q, Client.parseFloat exampleClientRuntime
                  (Client.form_quantity infiniteQuantityForm) <> Client.Finite q)
  /\ exists issues,
       CreateDonationSchema exampleRuntime
         (JS.Object (Client.createDonation_apiData exampleClientRuntime
                       infiniteQuantityForm))
       = Zod.INVALID issues.
Proof.
  assert (V : CreateDonationSchema exampleRuntime
                (JS.Object (Client.createDonation_apiData exampleClientRuntime smithForm))
              = Zod.OK smithInput) by (vm_compute; reflexivity).
  assert (N : forall q, Client.parseFloat exampleClientRuntime
                          (Client.form_quantity infiniteQuantityForm)
                        <> Client.Finite q) by (intros q; vm_compute; discriminate).
  split; [exact V|].
  destruct (X15_client_create_request exampleClientRuntime exampleRuntime smithForm)
    as (_ & A & _).
  split; [exact (proj1 (A smithInput V))|]. split; [exact N|].
  exact (proj2 (proj2 (X15_client_create_request exampleClientRuntime exampleRuntime
                         infiniteQuantityForm)) N).
Defined.

Lemma X16_form_validation_witness :
  Client.hasErrors (Client.validateForm exampleClientRuntime smithForm) = false
  /\ (String.length (JS.trim (Client.form_donor_name smithForm)) <= 100)%nat
  /\ donor_name_schema exampleRuntime ["donor_name"]
       (JS.getField "donor_name"
          (Client.createDonation_apiData exampleClientRuntime smithForm))
     = Zod.OK "A. Smith"
  /\ Client.hasErrors (Client.validateForm exampleClientRuntime longNameForm) = false
  /\ (100 < String.length (JS.trim (Client.form_donor_name longNameForm)))%nat
  /\ exists issues,
       CreateDonationSchema exampleRuntime
         (JS.Object (Client.createDonation_apiData exampleClientRuntime longNameForm))
       = Zod.INVALID issues.
Proof.
  assert (H1 : Client.hasErrors (Client.validateForm exampleClientRuntime smithForm)
               = false) by (vm_compute; reflexivity).
  assert (H2 : Client.hasErrors (Client.validateForm exampleClientRuntime longNameForm)
               = false) by (vm_compute; reflexivity).
  assert (L1 : (String.length (JS.trim (Client.form_donor_name smithForm)) <= 100)%nat)
    by (vm_compute; lia).
  assert (L2 : (100 < String.length (JS.trim (Client.form_donor_name longNameForm)))%nat)
    by (vm_compute; lia).
  split; [exact H1|]. split; [exact L1|].
  split.
  - exact (proj1 (proj2 (proj2 (proj2 (proj2
             (X16_form_validation exampleClientRuntime exampleRuntime smithForm))))
             H1) L1).
  - split; [exact H2|]. split; [exact L2|].
    exact (proj2 (proj2 (proj2 (proj2 (proj2
             (X16_form_validation exampleClientRuntime exampleRuntime longNameForm))))
             H2) L2).
Defined.

Lemma X17_client_update_request_witness :
  Client.part_donation_type nameOnlyEdit = Some ""
  /\ JS.getField "donation_type"
       (Client.updateDonation_apiData exampleClientRuntime nameOnlyEdit) = None
  /\ Client.part_quantity nameOnlyEdit = Some ""
  /\ JS.getField "quantity"
       (Client.updateDonation_apiData exampleClientRuntime nameOnlyEdit) = None
  /\ Client.part_donor_name nameOnlyEdit = Some " Bo Li "
  /\ UpdateDonationSchema exampleRuntime
       (JS.Object (Client.updateDonation_apiData exampleClientRuntime nameOnlyEdit))
     = Zod.OK {| upd_donor_name := Some "Bo Li"; upd_donation_type := None;
                 upd_quantity := None; upd_date := None |}
  /\ fst (updateDonation 160 1
            {| upd_donor_name := Some "Bo Li"; upd_donation_type := None;
               upd_quantity := None; upd_date := None |} (smithWorld 100))
     <> Rejected "No fields provided for update".
Proof.
  destruct (X17_client_update_request exampleClientRuntime exampleRuntime nameOnlyEdit)
    as (A & B & C).
  assert (V : UpdateDonationSchema exampleRuntime
                (JS.Object (Client.updateDonation_apiData exampleClientRuntime
                              nameOnlyEdit))
              = Zod.OK {| upd_donor_name := Some "Bo Li"; upd_donation_type := None;
                          upd_quantity := None; upd_date := None |})
    by (vm_compute; reflexivity).
  split; [reflexivity|]. split; [exact (A eq_refl)|].
  split; [reflexivity|]. split; [exact (B eq_refl)|].
  split; [reflexivity|]. split; [exact V|].
  exact (proj2 (proj2 (proj2 (C " Bo Li " _ eq_refl V))) 160 1 (smithWorld 100)).
Defined.

(** ** The id as the key of the table *)

Lemma wellKeyed_sameTable (w w' : World) :
  sameTable w w' -> wellKeyed w -> wellKeyed w'.
Proof. intros [A _] H i r L. rewrite A in L. eauto. Qed.

Lemma wellKeyed_insert (w w' : World) (i : Z) (r : Donation) :
  wellKeyed w -> id r = i -> 0 < i -> rows w' = <[i := r]> (rows w) ->
  wellKeyed w'.
Proof.
  intros H E P R j r' L. rewrite R in L.
  destruct (decide (i = j)) as [->|N].
  - rewrite lookup_insert_eq in L. injection L as <-. auto.
  - rewrite lookup_insert_ne in L by assumption. eauto.
Qed.

Lemma id_touch_assign (now : Z) (r : Donation) (sets : list Assignment) :
  id (touch now (foldl assign r sets)) = id r.
Proof.
  cbn [touch id]. revert r. induction sets as [|a sets IH]; intros r; [reflexivity|].
  cbn [foldl]. rewrite IH. now destruct a.
Qed.

Lemma wellKeyed_runCall (c : StoreCall) (w : World) :
  wellKeyed w -> wellKeyed (snd (runCall c w)).
Proof.
  intros H. destruct c as [now d|now i u|i|i]; cbn [runCall].
  - destruct (createDonation_cases now d w)
      as [(w' & -> & S)|(out & w' & O & -> & _ & _ & R & _)].
    + cbn [snd]. eauto using wellKeyed_sameTable.
    + assert (K : wellKeyed w').
      { apply (wellKeyed_insert w w' (next_rowid w) (newRow (next_rowid w) now d));
          [assumption|reflexivity| |assumption].
        unfold next_rowid. pose proof (max_rowid_nonneg (rows w)). lia. }
      now destruct O as [->| ->].
  - cbn [snd].
    destruct (updateDonation_cases now i u w)
      as [[_ ->]|[_ [(w' & -> & S)|[(w' & -> & _ & S)
           |(r & out & w' & _ & -> & L & _ & R & _)]]]]; cbn [snd];
      eauto using wellKeyed_sameTable.
    destruct (H i r L) as [E P].
    apply (wellKeyed_insert w w' i (touch now (foldl assign r (definedFields u))));
      [assumption| |assumption|assumption].
    now rewrite id_touch_assign.
  - cbn [snd].
    destruct (deleteDonation_cases i w)
      as [(w' & -> & S)|[(w' & -> & _ & S)|(w' & -> & _ & R & _)]]; cbn [snd];
      eauto using wellKeyed_sameTable.
    intros j r L. rewrite R in L. apply lookup_delete_Some in L as [_ L]. eauto.
  - cbn [snd].
    destruct (getDonationById_cases i w) as [(w' & -> & S)|(w' & -> & S)];
      cbn [snd]; eauto using wellKeyed_sameTable.
Qed.

Lemma wellKeyed_ids (w : World) :
  wellKeyed w ->
  map id (map snd (map_to_list (rows w))) = map fst (map_to_list (rows w)).
Proof.
  intros H.
  assert (F : forall kv, kv ∈ map_to_list (rows w) -> id kv.2 = kv.1).
  { intros [k v] L. apply elem_of_map_to_list in L. now destruct (H k v L). }
  induction (map_to_list (rows w)) as [|kv l IH]; [reflexivity|].
  cbn [map]. rewrite (F kv) by (left). f_equal.
  apply IH. intros kv' L. apply F. now right.
Qed.

(** X18. The id of a record is the key the table keeps it under: in the
    empty table and after any run of store calls, a record is found by
    the id it carries and that id is positive.  So an update never
    changes an id, the list of all donations holds no two records of one
    id, and every record of the list is answered by GET /donations/:id
    for its id as the client writes it. *)
Theorem X18_id_is_the_key :
  wellKeyed emptyWorld
  /\ (forall calls w, wellKeyed w -> wellKeyed (snd (runCalls calls w)))
  /\ (forall w i r, wellKeyed w -> medium w = [] ->
        getDonationById i w = (Resolved (Some r), w) -> id r = i /\ 0 < i)
  /\ (forall w all, wellKeyed w -> medium w = [] ->
        getAllDonations w = (Resolved all, w) ->
        NoDup (map id all)
        /\ forall r, r ∈ all ->
             get_donation_route (Number_toString (id r)) w
             = ({| status := 200; success := true; data := Some r;
                   message := Some "Donation retrieved successfully";
                   errors := None |}, w)).
Proof.
  split; [|split; [|split]].
  - intros i r L. cbn in L. rewrite lookup_empty in L. discriminate L.
  - intros calls. induction calls as [|c later IH]; intros w H; [exact H|].
    rewrite runCalls_cons. cbn [snd]. apply IH. now apply wellKeyed_runCall.
  - intros w i r H M E. rewrite (getDonationById_healthy i w M) in E.
    injection E as E. now apply H.
  - intros w all H M E. rewrite (getAllDonations_healthy w M) in E.
    injection E as <-.
    pose proof (merge_sort_Permutation newestFirst (map snd (map_to_list (rows w))))
      as P.
    split.
    + assert (Q : map id (merge_sort newestFirst (map snd (map_to_list (rows w))))
                  ≡ₚ map fst (map_to_list (rows w))).
      { rewrite <- (wellKeyed_ids w H). now apply Permutation_map. }
      rewrite Q. exact (NoDup_fst_map_to_list (rows w)).
    + intros r L. rewrite P in L. apply elem_of_table_rows in L as (i & L).
      destruct (H i r L) as [-> Pos].
      now rewrite (get_donation_route_id_text _ w Pos M), L.
Qed.

Lemma X18_id_is_the_key_witness :
  wellKeyed emptyWorld
  /\ wellKeyed (snd (runCalls [CallCreate 100 smithInput;
                               CallUpdate 160 1 quantityUpdate] emptyWorld))
  /\ medium (smithWorld 100) = []
  /\ getDonationById 1 (smithWorld 100) = (Resolved (Some (smithRow 100)), smithWorld 100)
  /\ id (smithRow 100) = 1
  /\ getAllDonations (smithWorld 100) = (Resolved [smithRow 100], smithWorld 100)
  /\ NoDup (map id [smithRow 100]).
Proof.
  destruct X18_id_is_the_key as (A & B & C & D).
  assert (K : wellKeyed (smithWorld 100))
    by exact (B [CallCreate 100 smithInput] emptyWorld A).
  assert (G : getDonationById 1 (smithWorld 100)
              = (Resolved (Some (smithRow 100)), smithWorld 100))
    by (vm_compute; reflexivity).
  assert (L : getAllDonations (smithWorld 100)
              = (Resolved [smithRow 100], smithWorld 100))
    by (vm_compute; reflexivity).
  split; [exact A|].
  split; [exact (B _ emptyWorld A)|]. split; [reflexivity|].
  split; [exact G|].
  split; [exact (proj1 (C (smithWorld 100) 1 (smithRow 100) K eq_refl G))|].
  split; [exact L|].
  exact (proj1 (D (smithWorld 100) [smithRow 100] K eq_refl L)).
Defined.
